(** * Clock-correction files: a shallow embedding of [pint/observatory/clock_file.py]

    The model follows the Python module top to bottom:

    - [Py]       the slice of the Python runtime the module relies on
                 (exceptions, logging, indexing, [str] methods);
    - [Num]      the numbers the arrays hold, as an interface with two
                 instances: binary64 floats, which the code runs on, and exact
                 rationals, on which the examples are free of rounding; both
                 satisfy the laws of order that the theorems about [evaluate]
                 and [merge] assume;
    - [Np]       the numpy array functions the module calls;
    - [PulsarMJD] what the module needs of the class [Time];
    - [ClockFile] the base class: [evaluate], [merge], [read],
                 [write_tempo_clock_file], and [ConstructedClockFile];
    - [Tempo2ClockFile], [TempoClockFile]  the two parsers, on floats.

    Then come the predicates the statements use, the example inputs, and the
    lemmas and theorems, method by method.

    A [Time] array is represented by the MJDs it holds, a [Quantity] by its
    values and its unit.  What belongs to Python, numpy, astropy,
    [pint.pulsar_mjd] or the module [re] rather than to the module itself
    ([float], the number and date formatters, the two regular expressions,
    the conversion of pulsar MJDs that [Time] performs, the file system) is a
    parameter of the definitions that use it.  Strings are sequences of
    8-bit code points ([Stdlib.Strings.String]); clock files are ASCII
    text. *)

From Stdlib Require Import ZArith QArith List String Ascii Bool Arith Lia.
From Stdlib Require Import Floats.PrimFloat Floats.SpecFloat Floats.FloatOps Floats.FloatAxioms.
Import ListNotations.

Set Implicit Arguments.
Local Open Scope string_scope.
Local Open Scope list_scope.
Local Open Scope nat_scope.

(* ================================================================== *)
(** * The Python runtime *)
(* ================================================================== *)

Module Py.

(** The exceptions the module raises or can run into. *)
Inductive exn : Type :=
| ValueError (msg : string)
| RuntimeError (msg : string)
| NotImplementedError
| TypeError (msg : string)
| IndexError (msg : string)
| UnboundLocalError (msg : string).

(** The messages that the module sends to the logger with [log.warning] and
    [log.error].  The messages of [log.debug], with which each parser
    announces the file it loads, are not recorded. *)
Inductive record : Type :=
| Warning (msg : string)
| Error (msg : string).

Inductive result (A : Type) : Type :=
| Ok (a : A)
| Raise (e : exn).
Arguments Ok {A} a.
Arguments Raise {A} e.

(** A computation logs messages and then returns or raises. *)
Definition M (A : Type) : Type := (list record * result A)%type.

Definition ret {A} (a : A) : M A := ([], Ok a).
Definition raise {A} (e : exn) : M A := ([], Raise e).
Definition log_warning (msg : string) : M unit := ([Warning msg], Ok tt).
Definition log_error (msg : string) : M unit := ([Error msg], Ok tt).

Definition bind {A B} (c : M A) (k : A -> M B) : M B :=
  match c with
  | (w, Ok a) => let (w', r) := k a in (w ++ w', r)
  | (w, Raise e) => (w, Raise e)
  end.

Definition value {A} (c : M A) : result A := snd c.
Definition logged {A} (c : M A) : list record := fst c.

Definition lift {A} (r : result A) : M A := ([], r).

(** [for x in l: body] over an accumulator. *)
Fixpoint for_each {A S} (l : list A) (body : S -> A -> M S) (s : S) : M S :=
  match l with
  | [] => ret s
  | x :: l' => bind (body s x) (for_each l' body)
  end.

(** ** Sequences *)

(** [l[i]] for [0 <= i]. *)
Definition getitem {A} (l : list A) (i : nat) : result A :=
  match nth_error l i with
  | Some x => Ok x
  | None => Raise (IndexError "index out of range")
  end.

(** [l[-1]]. *)
Definition getlast {A} (l : list A) : result A :=
  match l with
  | [] => Raise (IndexError "index out of range")
  | x :: l' => Ok (last l' x)
  end.

Fixpoint update {A} (l : list A) (i : nat) (v : A) : list A :=
  match l, i with
  | [], _ => []
  | _ :: l', O => v :: l'
  | x :: l', S i' => x :: update l' i' v
  end.

(** [l[i] = v] for [0 <= i]. *)
Definition setitem {A} (l : list A) (i : nat) (v : A) : result (list A) :=
  if i <? List.length l then Ok (update l i v)
  else Raise (IndexError "index out of bounds").

(** [l[a:b]] for [0 <= a], [0 <= b]. *)
Definition slice {A} (l : list A) (a b : nat) : list A :=
  firstn (b - a) (skipn a l).

(** [l[:-1]] and [l[1:]]. *)
Definition init {A} (l : list A) : list A := removelast l.
Definition rest {A} (l : list A) : list A := tl l.

Fixpoint zip_with {A B C} (f : A -> B -> C) (l : list A) (m : list B) : list C :=
  match l, m with
  | x :: l', y :: m' => f x y :: zip_with f l' m'
  | _, _ => []
  end.

(** ** [str] *)

(** [c.isspace()] on code points below 256. *)
Definition isspace (c : ascii) : bool :=
  let n := nat_of_ascii c in
  ((9 <=? n) && (n <=? 13)) || ((28 <=? n) && (n <=? 32))
  || (n =? 133) || (n =? 160).

(** [c.upper()] and [c.lower()].  The three code points below 256 whose
    upper case lies outside that range or is two letters long (181, 223, 255)
    are left alone; the module upper-cases only the words it compares with the
    ASCII header, which such a word cannot equal either way. *)
Definition upper_char (c : ascii) : ascii :=
  let n := nat_of_ascii c in
  if ((97 <=? n) && (n <=? 122))
     || ((224 <=? n) && (n <=? 254) && negb (n =? 247))
  then ascii_of_nat (n - 32) else c.

Definition lower_char (c : ascii) : ascii :=
  let n := nat_of_ascii c in
  if ((65 <=? n) && (n <=? 90))
     || ((192 <=? n) && (n <=? 222) && negb (n =? 215))
  then ascii_of_nat (n + 32) else c.

Fixpoint str_map (f : ascii -> ascii) (s : string) : string :=
  match s with
  | EmptyString => EmptyString
  | String c s' => String (f c) (str_map f s')
  end.

Definition upper : string -> string := str_map upper_char.
Definition lower : string -> string := str_map lower_char.

(** [s.startswith(p)]. *)
Definition startswith (s p : string) : bool := String.prefix p s.

Fixpoint drop (n : nat) (s : string) : string :=
  match n, s with
  | O, _ => s
  | S n', String _ s' => drop n' s'
  | S _, EmptyString => EmptyString
  end.

(** [s[a:b]] and [s[a:]]; a slice never raises. *)
Definition substr (s : string) (a b : nat) : string := String.substring a (b - a) s.
Definition substr_from (s : string) (a : nat) : string := drop a s.

(** [s[i]]. *)
Definition char_at (s : string) (i : nat) : result ascii :=
  match String.get i s with
  | Some c => Ok c
  | None => Raise (IndexError "string index out of range")
  end.

Fixpoint lstrip (s : string) : string :=
  match s with
  | String c s' => if isspace c then lstrip s' else s
  | EmptyString => EmptyString
  end.

Fixpoint rstrip (s : string) : string :=
  match s with
  | EmptyString => EmptyString
  | String c s' =>
      match rstrip s' with
      | EmptyString => if isspace c then EmptyString else String c EmptyString
      | t => String c t
      end
  end.

Definition strip (s : string) : string := lstrip (rstrip s).

(** [s.split()]: the maximal runs of non-space characters.  [w] is the word
    being read, in reverse. *)
Fixpoint split_aux (s : string) (w : list ascii) : list string :=
  let flush := match w with
               | [] => []
               | _ => [string_of_list_ascii (rev w)]
               end in
  match s with
  | EmptyString => flush
  | String c s' =>
      if isspace c then flush ++ split_aux s' [] else split_aux s' (c :: w)
  end.

Definition split (s : string) : list string := split_aux s [].

(** [s.split("\n")]. *)
Fixpoint split_lines_aux (s : string) (w : list ascii) : list string :=
  match s with
  | EmptyString => [string_of_list_ascii (rev w)]
  | String c s' =>
      if Ascii.eqb c "010"%char
      then string_of_list_ascii (rev w) :: split_lines_aux s' []
      else split_lines_aux s' (c :: w)
  end.

Definition split_lines (s : string) : list string := split_lines_aux s [].

Definition newline : string := String "010"%char EmptyString.

Fixpoint list_eqb {A} (eqb : A -> A -> bool) (l m : list A) : bool :=
  match l, m with
  | [], [] => true
  | x :: l', y :: m' => eqb x y && list_eqb eqb l' m'
  | _, _ => false
  end.

(** [sep.join(l)]. *)
Fixpoint join (sep : string) (l : list string) : string :=
  match l with
  | [] => ""
  | [x] => x
  | x :: l' => (x ++ sep ++ join sep l')%string
  end.

(** [repr] of a list of plain strings (no quote or escape in them). *)
Definition repr_list (l : list string) : string :=
  ("[" ++ join ", " (map (fun s => "'" ++ s ++ "'")%string l) ++ "]")%string.

(** [s.replace("\n", "\n" + t)]. *)
Fixpoint replace_line_feeds (s t : string) : string :=
  match s with
  | EmptyString => EmptyString
  | String c s' =>
      if Ascii.eqb c "010" then String c (t ++ replace_line_feeds s' t)
      else String c (replace_line_feeds s' t)
  end.

End Py.

Import Py.

Declare Scope py_scope.
Delimit Scope py_scope with py.
Notation "x <- c ;; k" := (Py.bind c (fun x => k))
  (at level 61, c at next level, right associativity) : py_scope.
Notation "c ;;; k" := (Py.bind c (fun _ => k))
  (at level 61, right associativity) : py_scope.
Local Open Scope py_scope.

(* ================================================================== *)
(** * Numbers *)
(* ================================================================== *)

(** The arrays hold Python floats.  The operations the module applies to
    them are collected in an interface, so that the same definitions run on
    binary64 floats and on exact rationals. *)

Module Num.

Class Number (R : Type) : Type := {
  zero : R;
  add : R -> R -> R;
  sub : R -> R -> R;
  mul : R -> R -> R;
  div : R -> R -> R;
  ltb : R -> R -> bool;
  leb : R -> R -> bool;
  eqb : R -> R -> bool;
  (** the scale factors between seconds and microseconds *)
  mega : R;
  micro : R
}.

(** [x > y], [x >= y], [x != y] and [isnan(x)]. *)
Definition gtb {R} `{Number R} (x y : R) : bool := ltb y x.
Definition geb {R} `{Number R} (x y : R) : bool := leb y x.
Definition neb {R} `{Number R} (x y : R) : bool := negb (eqb x y).
Definition isnan {R} `{Number R} (x : R) : bool := negb (eqb x x).

(** A value that is not NaN. *)
Definition number {R} `{Number R} (x : R) : Prop := eqb x x = true.

Unset Implicit Arguments.

(** The laws of the comparisons: a total order on the values that are not
    NaN, and no NaN compares with anything. *)
Class Ordered (R : Type) `{Number R} : Prop := {
  leb_number : forall a b : R, leb a b = true -> number a /\ number b;
  leb_total : forall a b : R,
    number a -> number b -> leb a b = true \/ leb b a = true;
  leb_trans : forall a b c : R, leb a b = true -> leb b c = true -> leb a c = true;
  ltb_leb : forall a b : R, number a -> number b -> ltb a b = negb (leb b a);
  ltb_le : forall a b : R, ltb a b = true -> leb a b = true;
  eqb_leb : forall a b : R, eqb a b = leb a b && leb b a
}.
Arguments Ordered R {_}.

Set Implicit Arguments.

(** Binary64 floats; [micro] is the float nearest to [1e-6]. *)

#[export] Instance float_Number : Number float := {|
  zero := 0%float;
  add := PrimFloat.add;
  sub := PrimFloat.sub;
  mul := PrimFloat.mul;
  div := PrimFloat.div;
  ltb := PrimFloat.ltb;
  leb := PrimFloat.leb;
  eqb := PrimFloat.eqb;
  mega := 1000000%float;
  micro := 0x1.0c6f7a0b5ed8dp-20%float
|}.

(** Exact rationals. *)
#[export] Instance Q_Number : Number Q := {|
  zero := 0%Q;
  add := Qplus;
  sub := Qminus;
  mul := Qmult;
  div := Qdiv;
  ltb := fun a b => negb (Qle_bool b a);
  leb := Qle_bool;
  eqb := Qeq_bool;
  mega := 1000000%Q;
  micro := (1 # 1000000)%Q
|}.

End Num.

Import Num.

(* ================================================================== *)
(** * numpy *)
(* ================================================================== *)

(** The array functions the module calls, on one-dimensional arrays as lists.
    [searchsorted] and the search inside [interp] are bisections in numpy;
    they are written here as the left-to-right scans that return the same
    index on a sorted array (numpy's own [interp] scans like this on short
    arrays), which is the only kind of array numpy documents them for. *)

Module Np.

Section Arrays.

Context {R : Type} `{Number R}.

(** [np.diff(a)]. *)
Definition diff (a : list R) : list R :=
  zip_with (fun next prev => sub next prev) (rest a) (init a).

(** [np.zeros(n)] and [np.ones(n, dtype=int)]. *)
Definition zeros (n : nat) : list R := repeat zero n.
Definition ones (n : nat) : list nat := repeat 1 n.

(** [np.all], [np.any] on boolean arrays. *)
Definition all (b : list bool) : bool := forallb (fun x => x) b.
Definition any (b : list bool) : bool := existsb (fun x => x) b.

(** [np.where(z)[0]]: the indices at which [z] is true. *)
Fixpoint where_from (i : nat) (z : list bool) : list nat :=
  match z with
  | [] => []
  | b :: z' => if b then i :: where_from (S i) z' else where_from (S i) z'
  end.
Definition where0 (z : list bool) : list nat := where_from 0 z.

(** [a[mask]]: the elements of [a] at which the mask is true. *)
Fixpoint compress {A} (a : list A) (mask : list bool) : list A :=
  match a, mask with
  | x :: a', b :: m' => if b then x :: compress a' m' else compress a' m'
  | _, _ => []
  end.

(** [np.unique(a)]: the sorted distinct elements. *)
Fixpoint insert_unique (x : R) (l : list R) : list R :=
  match l with
  | [] => [x]
  | y :: l' =>
      if ltb x y then x :: l
      else if eqb x y then l
      else y :: insert_unique x l'
  end.
Definition unique (a : list R) : list R := fold_right insert_unique [] a.

(** [np.searchsorted(a, v, side="left")]: the first index [i] with
    [v <= a[i]], or [len(a)]. *)
Fixpoint searchsorted_left (a : list R) (v : R) : nat :=
  match a with
  | [] => 0
  | x :: a' => if ltb x v then S (searchsorted_left a' v) else 0
  end.

(** [np.searchsorted(a, v, side="right")]: the first index [i] with
    [v < a[i]], or [len(a)]. *)
Fixpoint searchsorted_right (a : list R) (v : R) : nat :=
  match a with
  | [] => 0
  | x :: a' => if leb x v then S (searchsorted_right a' v) else 0
  end.

(** [np.repeat(a, r)]. *)
Definition repeat_each (a : list R) (r : list nat) : list R :=
  List.concat (zip_with (fun x n => repeat x n) a r).

(** [a[ix]] for an index array [ix]. *)
Fixpoint take {A} (a : list A) (ix : list nat) : result (list A) :=
  match ix with
  | [] => Ok []
  | i :: ix' =>
      match getitem a i, take a ix' with
      | Ok x, Ok xs => Ok (x :: xs)
      | Raise e, _ => Raise e
      | _, Raise e => Raise e
      end
  end.

(** [a[ix] = v] for an index array [ix] and as many values: the assignments
    happen in order, and an index out of bounds raises. *)
Fixpoint put {A} (a : list A) (ix : list nat) (v : list A) : result (list A) :=
  match ix, v with
  | i :: ix', x :: v' =>
      match setitem a i x with
      | Ok a' => put a' ix' v'
      | Raise e => Raise e
      end
  | _, _ => Ok a
  end.

(** The search of [np.interp] for one abscissa: [Before] the first sample
    point, [After] the last, or [At j] with [j] the last index such that
    [xp[j] <= x]. *)
Inductive position : Type := Before | After | At (j : nat).

Fixpoint scan (x : R) (xp : list R) : nat :=
  match xp with
  | [] => 0
  | y :: xp' => if geb x y then S (scan x xp') else 0
  end.

Definition binary_search (x : R) (xp : list R) : position :=
  match xp with
  | [] => Before
  | x0 :: xp' =>
      if gtb x (last xp' x0) then After
      else if ltb x x0 then Before
      else At (scan x xp')
  end.

(** [np.interp(x, xp, fp)] at one abscissa, for arrays of equal positive
    length.  Outside the sample points the value is that of the nearest end.
    An array with a single sample point is handled apart, as numpy does. *)
Definition interp1 (xp fp : list R) (x : R) : R :=
  match xp with
  | [x0] =>
      if ltb x x0 then hd zero fp
      else if gtb x x0 then last fp zero
      else hd zero fp
  | _ =>
  if isnan x then x else
  match binary_search x xp with
  | Before => hd zero fp
  | After => last fp zero
  | At j =>
      if j =? List.length xp - 1 then nth j fp zero
      else if eqb (nth j xp zero) x then nth j fp zero
      else
        let slope := div (sub (nth (S j) fp zero) (nth j fp zero))
                         (sub (nth (S j) xp zero) (nth j xp zero)) in
        let y := add (mul slope (sub x (nth j xp zero))) (nth j fp zero) in
        if isnan y then
          let y' := add (mul slope (sub x (nth (S j) xp zero))) (nth (S j) fp zero) in
          if isnan y' && eqb (nth j fp zero) (nth (S j) fp zero)
          then nth j fp zero else y'
        else y
  end
  end.

Definition interp (x xp fp : list R) : result (list R) :=
  match xp with
  | [] => Raise (ValueError "array of sample points is empty")
  | _ =>
      if List.length fp =? List.length xp then Ok (map (interp1 xp fp) x)
      else Raise (ValueError "fp and xp are not of the same length.")
  end.

(** [np.array([a, b]).T]: the rows of the two columns; numpy refuses
    columns of different lengths. *)
Definition columns (a b : list R) : result (list (R * R)) :=
  if List.length a =? List.length b then Ok (combine a b)
  else Raise (ValueError "inhomogeneous shape").

(** [np.savetxt(fname, X, header=header)] for rows of two numbers, with the
    default format ["%.18e"], delimiter [" "], line end and comment prefix
    ["# "]: what is written.  [format_e] is ["%.18e" % x], which belongs to
    Python. *)
Definition savetxt_row (format_e : R -> string) (x : R * R) : string :=
  (format_e (fst x) ++ " " ++ format_e (snd x) ++ newline)%string.

Definition savetxt (format_e : R -> string) (X : list (R * R)) (header : string)
  : string :=
  ((if Nat.eqb (String.length header) 0 then ""
    else "# " ++ replace_line_feeds header "# " ++ newline)
   ++ String.concat "" (map (savetxt_row format_e) X))%string.

End Arrays.

End Np.

(* ================================================================== *)
(** * The file system and the external formatters *)
(* ================================================================== *)

(** What iterating over the lines of a named file yields: the lines read,
    and whether the iteration then ends in [FileNotFoundError] or [OSError]
    (a missing file yields no line and fails). *)
Record stream : Type := mkStream {
  lines : list string;
  fails : bool
}.

Definition filesystem : Type := string -> stream.

(** The lines that iterating over a text file yields, given what the file
    holds: each line with its line feed, the last one possibly without.  A
    carriage return, alone or before a line feed, reads as a line feed
    (universal newlines). *)
Fixpoint file_lines_aux (s : string) (w : list ascii) : list string :=
  match s with
  | EmptyString =>
      match w with
      | [] => []
      | _ => [string_of_list_ascii (rev w)]
      end
  | String c s' =>
      let line := string_of_list_ascii (rev ("010"%char :: w)) in
      if Ascii.eqb c "010" then line :: file_lines_aux s' []
      else if Ascii.eqb c "013" then
        match s' with
        | String c' s'' =>
            if Ascii.eqb c' "010" then line :: file_lines_aux s'' []
            else line :: file_lines_aux s' []
        | EmptyString => line :: file_lines_aux s' []
        end
      else file_lines_aux s' (c :: w)
  end.

Definition file_lines (s : string) : list string := file_lines_aux s [].

(** A file that holds [text] and is read to its end. *)
Definition stored (text : string) : stream := mkStream (file_lines text) false.

(** An argument of unknown Python type, for the checks with [isinstance]. *)
Inductive object : Type :=
| Str (s : string)
| Bytes (b : string)
| Int (n : Z)
| NoneObject.

(** [tempo_standard_header], after [dedent]. *)
Definition tempo_standard_header : string :=
  ("   MJD       EECO-REF    NIST-REF NS      DATE    COMMENTS" ++ newline
   ++ "=========    ========    ======== ==    ========  ========" ++ newline)%string.

(* ================================================================== *)
(** * [Time] *)
(* ================================================================== *)

(** [Time] is imported from [pint.pulsar_mjd], which builds on astropy;
    neither is part of the module.  The module makes every [Time] array from
    an array of numbers with [Time(mjds, format="pulsar_mjd", scale="utc")]
    and reads of it its length, its entries, their order, and its attribute
    [mjd].  Such an array is represented here by the array of MJDs that its
    attribute [mjd] holds, and the order of two entries by the order of
    their MJDs.

    The format [pulsar_mjd] is not the format [mjd]: on a day that ends with
    a leap second the two count the fraction of the day differently, so that
    [Time(x, ...).mjd] need not be [x]; and [Time] refuses values that are
    no dates (a NaN, an infinity).  What [Time] makes of a number is
    therefore a parameter of the model, a [TimeFormat].  The conversion goes
    entry by entry, and an array is refused when one of its entries is. *)

Module PulsarMJD.

Section Time.

Context {R : Type}.

(** [mjd_of x] is the MJD that [Time] holds for the pulsar MJD [x], or
    [None] when it refuses [x]; [refusal mjds] is the exception that [Time]
    raises on the array [mjds] when it refuses one of its entries. *)
Record TimeFormat : Type := mkTimeFormat {
  mjd_of : R -> option R;
  refusal : list R -> exn
}.

Fixpoint converted (f : R -> option R) (l : list R) : option (list R) :=
  match l with
  | [] => Some []
  | x :: l' =>
      match f x, converted f l' with
      | Some y, Some ys => Some (y :: ys)
      | _, _ => None
      end
  end.

(** [Time(mjds, format="pulsar_mjd", scale="utc").mjd]. *)
Definition Time_mjd (pulsar_mjd : TimeFormat) (mjds : list R) : result (list R) :=
  match converted (mjd_of pulsar_mjd) mjds with
  | Some l => Ok l
  | None => Raise (refusal pulsar_mjd mjds)
  end.

End Time.

Arguments TimeFormat R : clear implicits.

End PulsarMJD.

(* ================================================================== *)
(** * [ClockFile] *)
(* ================================================================== *)

Module ClockFile.

Import Np PulsarMJD.

(** Units of the corrections ([astropy.units]). *)
Inductive Unit : Type := u_us | u_s.

Section Class.

Context {R : Type} `{Number R}.

(** An array with a unit. *)
Record Quantity : Type := mkQuantity {
  value : list R;
  unit : Unit
}.

Definition convert (from to : Unit) (v : R) : R :=
  match from, to with
  | u_us, u_s => mul v micro
  | u_s, u_us => mul v mega
  | _, _ => v
  end.

(** [q.to_value(u)] and [q.to(u)]. *)
Definition to_value (q : Quantity) (u : Unit) : list R :=
  map (convert (unit q) u) (value q).
Definition to (q : Quantity) (u : Unit) : Quantity :=
  mkQuantity (to_value q u) u.

(** The attributes of an instance.  [_time] holds the MJDs of the [Time]
    array ([self._time.mjd]), as [Time] made them of the numbers it was
    given. *)
Record ClockFile : Type := mkClockFile {
  filename : string;
  _time : list R;
  _clock : Quantity;
  comments : option (list (option string));
  leading_comment : option string
}.

Definition time (self : ClockFile) : list R := _time self.
Definition clock (self : ClockFile) : Quantity := _clock self.

(** ** [evaluate] *)

Definition no_data_msg (self : ClockFile) : string :=
  ("No data points in clock file '" ++ filename self ++ "'")%string.
Definition out_of_range_msg (self : ClockFile) : string :=
  ("Data points out of range in clock file '" ++ filename self ++ "'")%string.

(** From the range check on. *)
Definition evaluate_in_range (self : ClockFile) (t : list R) (limits : string)
  : M (list R) :=
  first <- lift (getitem (time self) 0) ;;
  below <- ret (any (map (fun x => ltb x first) t)) ;;
  outside <- (if below then ret true
              else final <- lift (getlast (time self)) ;;
                   ret (any (map (fun x => gtb x final) t))) ;;
  (if outside then
     if String.eqb limits "warn" then log_warning (out_of_range_msg self)
     else if String.eqb limits "error" then raise (RuntimeError (out_of_range_msg self))
     else ret tt
   else ret tt) ;;;
  lift (interp t (time self) (to_value (clock self) u_us)).

(** The corrections at the times [t], in microseconds. *)
Definition evaluate (self : ClockFile) (t : list R) (limits : string)
  : M (list R) :=
  if List.length (time self) =? 0 then
    if String.eqb limits "warn" then
      log_warning (no_data_msg self) ;;;
      ret (map (fun _ => zero) t)
    else if String.eqb limits "error" then
      raise (RuntimeError (no_data_msg self))
    else evaluate_in_range self t limits
  else evaluate_in_range self t limits.

(** [last_correction_mjd]: [None] stands for minus infinity. *)
Definition last_correction_mjd (self : ClockFile) : option R :=
  match time self with
  | [] => None
  | x :: l => Some (last l x)
  end.

(** ** [ConstructedClockFile] *)

(** The format that the module passes to [Time]. *)
Variable pulsar_mjd : TimeFormat R.

Definition ConstructedClockFile (mjd : list R) (clock : Quantity)
  (filename : option string) : M ClockFile :=
  if negb (List.length mjd =? List.length (value clock)) then
    raise (ValueError "MJDs and clock differ in length")
  else
    t <- lift (Time_mjd pulsar_mjd mjd) ;;
    ret {| filename := match filename with
                       | None => "Constructed"
                       | Some f => f
                       end;
           _time := t;
           _clock := to clock u_us;
           comments := None;
           leading_comment := None |}.

(** ** [merge] *)

(** [z.copy(); zl[1:] &= ~z[:-1]]: true at the left end of each run. *)
Definition left_ends (z : list bool) : list bool :=
  match z with
  | [] => []
  | b :: _ => b :: zip_with (fun a prev => a && negb prev) (rest z) (init z)
  end.

(** [z.copy(); zr[:-1] &= ~z[1:]]: true at the right end of each run. *)
Definition right_ends (z : list bool) : list bool :=
  match z with
  | [] => []
  | b :: _ => zip_with (fun a next => a && negb next) (init z) (rest z)
              ++ [last z b]
  end.

(** [np.diff(mjds) == 0]. *)
Definition equal_next (mjds : list R) : list bool :=
  map (fun d => eqb d zero) (diff mjds).

(** [mjds[:-1][np.diff(mjds) == 0]]: the repeated MJDs of one clock. *)
Definition discontinuities (mjds : list R) : list R :=
  compress (init mjds) (equal_next mjds).

(** [max] and [min] of a Python list. *)
Definition py_max (l : list R) : result R :=
  match l with
  | [] => Raise (ValueError "max() arg is an empty sequence")
  | x :: l' => Ok (fold_left (fun m y => if gtb y m then y else m) l' x)
  end.
Definition py_min (l : list R) : result R :=
  match l with
  | [] => Raise (ValueError "min() arg is an empty sequence")
  | x :: l' => Ok (fold_left (fun m y => if ltb y m then y else m) l' x)
  end.

(** [[f(c) for c in clocks]] with an [f] that can raise. *)
Fixpoint comprehension {A B} (f : A -> result B) (l : list A) : result (list B) :=
  match l with
  | [] => Ok []
  | x :: l' =>
      match f x with
      | Raise e => Raise e
      | Ok y => match comprehension f l' with
                | Raise e => Raise e
                | Ok ys => Ok (y :: ys)
                end
      end
  end.

(** The breakpoints of the merged file: every MJD once, the repeated ones
    twice. *)
Definition merged_mjds (clocks : list ClockFile) : M (list R) :=
  match clocks with
  | [] => raise (ValueError "need at least one array to concatenate")
  | _ =>
      let all_mjds := map _time clocks in
      let all_discontinuities := flat_map (fun c => discontinuities (_time c)) clocks in
      let mjds := unique (List.concat all_mjds) in
      r <- for_each all_discontinuities
             (fun r m => lift (setitem r (searchsorted_left mjds m) 2))
             (ones (List.length mjds)) ;;
      ret (repeat_each mjds r)
  end.

(** One turn of the loop over the clocks: the contribution of [c] at the
    breakpoints, in microseconds.  [times] holds the MJDs of
    [Time(mjds, ...)], at which [evaluate] interpolates; the positions of the
    discontinuities are searched in [mjds] itself. *)
Definition contribution (mjds times : list R) (c : ClockFile) : M (list R) :=
  (* Interpolate everywhere *)
  this_corr <- evaluate c times "warn" ;;
  (* Find locations of left sides of discontinuities *)
  let z := equal_next (_time c) in
  let ixl := where0 (left_ends z) in
  (* Fix discontinuities *)
  tl <- lift (take (_time c) ixl) ;;
  vl <- lift (take (to_value (_clock c) u_us) ixl) ;;
  this_corr <- lift (put this_corr (map (searchsorted_left mjds) tl) vl) ;;
  let ixr := where0 (right_ends z) in
  (* Fix discontinuities *)
  tr <- lift (take (_time c) ixr) ;;
  vr <- lift (take (to_value (_clock c) u_us) (map S ixr)) ;;
  lift (put this_corr (map (searchsorted_right mjds) tr) vr).

(** [corr += this_corr], with [corr] in seconds and [this_corr] in
    microseconds. *)
Definition accumulate (corr this_corr : list R) : list R :=
  zip_with add corr (map (convert u_us u_s) this_corr).

(** [times] is the [Time] array made of the breakpoints, by its MJDs; the
    result is constructed from [times.mjd], which [Time] converts once
    more. *)
Definition merge (clocks : list ClockFile) (trim : bool) : M ClockFile :=
  mjds <- merged_mjds clocks ;;
  times <- lift (Time_mjd pulsar_mjd mjds) ;;
  corr <- for_each clocks
            (fun corr c => this_corr <- contribution mjds times c ;;
                           ret (accumulate corr this_corr))
            (zeros (List.length mjds)) ;;
  trimmed <- (if trim then
                starts <- lift (comprehension (fun c => getitem (_time c) 0) clocks) ;;
                b <- lift (py_max starts) ;;
                ends <- lift (comprehension (fun c => getlast (_time c)) clocks) ;;
                e <- lift (py_min ends) ;;
                let il := searchsorted_left times b in
                let ir := searchsorted_right times e in
                ret (slice times il ir, slice corr il ir)
              else ret (times, corr)) ;;
  ConstructedClockFile (fst trimmed) (mkQuantity (snd trimmed) u_s)
    (Some ("Merged from " ++ repr_list (map filename clocks))%string).

(** ** [read] *)

(** The registry [_formats] maps a format name to the class registered under
    it; a class is called with the file name and the keyword arguments. *)
Section Read.

Variable kwargs : Type.

Definition constructor : Type := filesystem -> string -> kwargs -> M ClockFile.

(** A class statement as the metaclass sees it: the name of the class and,
    when its members include [format], that name with the class itself. *)
Record class_statement : Type := mkClass {
  class_name : string;
  format_member : option (string * constructor)
}.

Definition registry : Type := list (string * constructor).

Fixpoint lookup (key : string) (d : registry) : option constructor :=
  match d with
  | [] => None
  | (k, v) :: d' => if String.eqb key k then Some v else lookup key d'
  end.

Fixpoint store (key : string) (v : constructor) (d : registry) : registry :=
  match d with
  | [] => [(key, v)]
  | (k, v') :: d' =>
      if String.eqb key k then (k, v) :: d' else (k, v') :: store key v d'
  end.

(** [ClockFileMeta.__init__]: a class with a [format] member is entered in
    the registry under that name. *)
Definition ClockFileMeta (_formats : registry) (cls : class_statement) : registry :=
  match format_member cls with
  | Some (name, cls) => store name cls _formats
  | None => _formats
  end.

Definition out_of_order_msg (filename format : string) : string :=
  ("Clock file " ++ filename ++ " in format " ++ format
   ++ " appears to be out of order")%string.
Definition not_defined_msg (format : string) : string :=
  ("clock file format '" ++ format ++ "' not defined")%string.

Definition read (_formats : registry) (fs : filesystem) (filename : string)
  (format : string) (kw : kwargs) : M ClockFile :=
  match lookup format _formats with
  | Some cls =>
      r <- cls fs filename kw ;;
      if negb (all (map (fun d => geb d zero) (diff (time r)))) then
        raise (ValueError (out_of_order_msg filename format))
      else ret r
  | None => raise (ValueError (not_defined_msg format))
  end.

End Read.

(** ** [write_tempo_clock_file] *)

Section Write.

(** [f"{x:w.pf}"] and [Time(mjd, format="pulsar_mjd").datetime.strftime("%d-%b-%y")],
    which belong to Python and astropy. *)
Variable format_f : nat -> nat -> R -> string.
Variable strftime_date : R -> string.

Definition invalid_obscode_msg : string :=
  "Invalid TEMPO obscode {obscode!r}, should be one printable character".

(** The text written for one sample. *)
Definition tempo_line (obscode : string) (mjd corr : R) (comment : option string)
  : string :=
  let eeco := zero in
  (format_f 9 2 mjd ++ format_f 12 3 eeco ++ format_f 12 3 corr
   ++ " " ++ obscode ++ "    " ++ strftime_date mjd
   ++ match comment with
      | None | Some "" => ""
      | Some c =>
          (* Try to avoid trailing whitespace *)
          if startswith c newline then rstrip c else rstrip ("  " ++ c)
      end
   ++ newline)%string.

Fixpoint zip3_lines (obscode : string) (mjds corr : list R)
  (comments : list (option string)) : list string :=
  match mjds, corr, comments with
  | m :: mjds', c :: corr', k :: comments' =>
      tempo_line obscode m c k :: zip3_lines obscode mjds' corr' comments'
  | _, _, _ => []
  end.

(** The text written to the destination, for a destination that is an
    open file; [open_or_use], which makes of the argument [filename] the
    file to write to, belongs to [pint.utils]. *)
Definition write_tempo_clock_file (self : ClockFile) (obscode : object)
  (extra_comments : option string) : M string :=
  match obscode with
  | Str code =>
      if negb (String.length code =? 1) then
        raise (ValueError invalid_obscode_msg)
      else
        let mjds := time self in
        let corr := to_value (clock self) u_us in
        let comments :=
          match comments self with
          | None | Some [] => repeat (Some "") (List.length (value (clock self)))
          | Some l => l
          end in
        ret (tempo_standard_header
             ++ match extra_comments with
                | Some e => strip e ++ newline
                | None => ""
                end
             ++ match leading_comment self with
                | Some c => c ++ newline
                | None => ""
                end
             ++ String.concat "" (zip3_lines code mjds corr comments))%string
  | _ => raise (ValueError invalid_obscode_msg)
  end.

End Write.

(** ** [write_tempo2_clock_file] *)

Section Write2.

(** ["%.18e" % x] and [repr(s)], which belong to Python. *)
Variable format_e : R -> string.
Variable repr : string -> string.

Definition header_line_msg (hdrline : string) : string :=
  ("Header line must start with #: " ++ repr hdrline)%string.

(** The text written to the destination.  [hdrline] is the header line in
    force: the argument of that name or, when it is [None], [self.header]
    (an instance without that attribute, or whose header is [None], fails
    with [AttributeError] before anything else happens). *)
Definition write_tempo2_clock_file (self : ClockFile) (hdrline : string)
  (comments : option string) : M string :=
  if negb (startswith hdrline "#") then
    raise (ValueError (header_line_msg hdrline))
  else
    let mjds := time self in
    let corr := clock self in
    (* TEMPO2 writes seconds *)
    a <- lift (columns mjds (to_value corr u_s)) ;;
    let header := (strip hdrline ++ newline)%string in
    let header := match comments with
                  | Some c => (header ++ c)%string
                  | None => header
                  end in
    ret (savetxt format_e a header).

End Write2.

End Class.

Arguments Quantity R : clear implicits.
Arguments ClockFile R : clear implicits.
Arguments constructor R kwargs : clear implicits.
Arguments registry R kwargs : clear implicits.
Arguments class_statement R kwargs : clear implicits.

End ClockFile.

(* ================================================================== *)
(** * The parsers *)
(* ================================================================== *)

(** The keyword arguments [read] passes on to a parser. *)
Record kwargs : Type := mkKwargs {
  obscode : option string;
  bogus_last_correction : bool
}.

(** A value a local variable of the parsers can hold. *)
Inductive pyval : Type :=
| VNone
| VFloat (x : float)
| VList (l : list float).

Inductive local : Type :=
| Unbound
| Bound (v : pyval).

(** [v[:-1]]. *)
Definition value_init (name : string) (v : local) : result pyval :=
  match v with
  | Unbound =>
      Raise (UnboundLocalError
               ("local variable '" ++ name ++ "' referenced before assignment")%string)
  | Bound VNone => Raise (TypeError "'NoneType' object is not subscriptable")
  | Bound (VFloat _) => Raise (TypeError "'float' object is not subscriptable")
  | Bound (VList l) => Ok (VList (Py.init l))
  end.

(** [while len(mjds) and mjds[0] == 0]: drop the leading zero MJDs, and as
    many corrections. *)
Fixpoint zap_leading_zeros (mjds clk : list float) : list float * list float :=
  match mjds with
  | m :: mjds' =>
      if PrimFloat.eqb m 0 then zap_leading_zeros mjds' (rest clk)
      else (mjds, clk)
  | [] => (mjds, clk)
  end.

Module Tempo2ClockFile.

Import ClockFile.

Definition format : string := "tempo2".

Section Parser.

(** [float(s)]: [None] when it raises [ValueError]. *)
Variable float_of_string : string -> option float.
(** Whether [hdrline_re] matches, and the three groups of [clkcorr_re] when
    it matches (the regular expressions are those of the module [re]). *)
Variable hdrline_re : string -> bool.
Variable clkcorr_re : string -> option (string * string * string).
(** The format that the module passes to [Time]. *)
Variable pulsar_mjd : PulsarMJD.TimeFormat float.

Record state : Type := mkState {
  mjd : list float;
  clk : list float;
  leading_comment : string;
  comments : list string
}.

Definition add_comment (st : state) (s : string) : state :=
  match rev (comments st) with
  | final :: before =>
      mkState (mjd st) (clk st) (leading_comment st)
        (rev before ++ [join newline [final; strip s]])
  | [] =>
      mkState (mjd st) (clk st) (join newline [leading_comment st; strip s])
        (comments st)
  end.

Definition to_float (s : string) : M float :=
  match float_of_string s with
  | Some x => ret x
  | None => raise (ValueError "could not convert string to float")
  end.

Definition line_step (st : state) (line : string) : M state :=
  if startswith line "#" then ret (add_comment st line)
  else match clkcorr_re line with
       | None =>
           (* Anything that doesn't match is a comment *)
           ret (add_comment st line)
       | Some (g1, g2, g3) =>
           m <- to_float g1 ;;
           c <- to_float g2 ;;
           (* Anything else on the line is a comment too *)
           ret (add_comment
                  (mkState (mjd st ++ [m]) (clk st ++ [c])
                     (leading_comment st) (comments st)) g3)
       end.

Definition header_msg : string :=
  "Header line must start with # and contain two time scales".
Definition not_found_msg (filename : string) : string :=
  ("TEMPO2-style clock correction file " ++ filename ++ " not found")%string.

(** The body of the [try] statement.  A file that cannot be opened yields
    no line; otherwise the first line is the header ([readline] returns the
    empty string at the end of the file), and a failure shows when the
    remaining lines are read, before any of them is parsed. *)
Definition read_lines (f : stream) : M state :=
  let start := mkState [] [] "" [] in
  match lines f, fails f with
  | [], true => ret start
  | ls, failing =>
      if negb (hdrline_re (hd "" ls)) then raise (ValueError header_msg)
      else if failing then ret start
      else for_each (tl ls) line_step start
  end.

Definition __init__ (fs : filesystem) (filename : string) (kw : kwargs)
  : M (ClockFile float) :=
  let f := fs filename in
  st <- read_lines f ;;
  (if fails f then log_error (not_found_msg filename) else ret tt) ;;;
  let mjd := mjd st in
  let clk := clk st in
  let (mjd, clk) :=
    if bogus_last_correction kw && negb (List.length mjd =? 0)
    then (Py.init mjd, Py.init clk) else (mjd, clk) in
  let (mjd, clk) := zap_leading_zeros mjd clk in
  t <- lift (PulsarMJD.Time_mjd pulsar_mjd mjd) ;;
  ret {| filename := filename;
         _time := t;
         _clock := mkQuantity clk u_s;
         ClockFile.comments := Some (map Some (comments st));
         ClockFile.leading_comment := Some (leading_comment st) |}.

End Parser.

End Tempo2ClockFile.

Module TempoClockFile.

Import ClockFile.

Definition format : string := "tempo".

Section Parser.

(** [float(s)]: [None] when it raises [ValueError]. *)
Variable float_of_string : string -> option float.
(** The format that the module passes to [Time]. *)
Variable pulsar_mjd : PulsarMJD.TimeFormat float.

(** The attributes and local variables the loop over the lines updates.
    [mjd] is the local variable of that name: the MJD parsed from the last
    data line, or [None]. *)
Record state : Type := mkState {
  seen_header : nat;
  mjds : list float;
  clkcorrs : list float;
  comments : list (option string);
  leading_comment : option string;
  mjd : local
}.

Definition set_comments (st : state) (c : list (option string)) : state :=
  mkState (seen_header st) (mjds st) (clkcorrs st) c (leading_comment st) (mjd st).
Definition set_leading_comment (st : state) (c : option string) : state :=
  mkState (seen_header st) (mjds st) (clkcorrs st) (comments st) c (mjd st).
Definition set_seen_header (st : state) (n : nat) : state :=
  mkState n (mjds st) (clkcorrs st) (comments st) (leading_comment st) (mjd st).
Definition set_mjd (st : state) (v : local) : state :=
  mkState (seen_header st) (mjds st) (clkcorrs st) (comments st)
    (leading_comment st) v.

Definition add_comment (st : state) (s : string) : state :=
  match rev (comments st) with
  | final :: before =>
      set_comments st
        (rev before ++ [match final with
                        | None => Some (rstrip s)
                        | Some c => Some (c ++ newline ++ rstrip s)%string
                        end])
  | [] =>
      set_leading_comment st
        (match leading_comment st with
         | None => Some (rstrip s)
         | Some c => Some (c ++ newline ++ rstrip s)%string
         end)
  end.

(** The words of line [seen_header] of the standard header. *)
Definition header_words (seen_header : nat) : list string :=
  split (nth seen_header (split_lines tempo_standard_header) "").

Definition header_msg : string :=
  "TEMPO-format clock files should start with a standard header".

(** Parse MJD: [float(l[0:9])], with the range check. *)
Definition parse_mjd (l : string) : option float :=
  match float_of_string (substr l 0 9) with
  | Some mjd =>
      (* allow mjd=0 to pass, since that is often used
         for effectively null clock files *)
      if (PrimFloat.ltb mjd 39000 && negb (PrimFloat.eqb mjd 0))
         || PrimFloat.ltb 100000 mjd
      then None else Some mjd
  | None => None
  end.

(** The site code of a line: [l[34].lower()], or [None]. *)
Definition parse_csite (l : string) : option string :=
  match char_at l 34 with
  | Ok c => Some (lower (String c EmptyString))
  | Raise _ => None
  end.

(** Whether the site filter rejects the line. *)
Definition other_site (obscode : option string) (csite : option string) : bool :=
  match obscode with
  | None => false
  | Some code =>
      match csite with
      | Some c => negb (String.eqb (lower code) c)
      | None => true
      end
  end.

(** The adjustment hard-coded in tempo. *)
Definition adjust (clkcorr1 : float) : float :=
  if PrimFloat.ltb 800 clkcorr1 then PrimFloat.sub clkcorr1 0x1.9966666666666p+9
  else clkcorr1.

Definition default (x : option float) : float :=
  match x with
  | Some v => v
  | None => 0%float
  end.

(** The sample a data line stores. *)
Definition stored_correction (clkcorr1 clkcorr2 : option float) : float :=
  PrimFloat.sub (default clkcorr2) (adjust (default clkcorr1)).

Definition as_value (x : option float) : pyval :=
  match x with
  | Some v => VFloat v
  | None => VNone
  end.

(** One turn of the loop over the lines. *)
Definition line_step (obscode : option string) (st : state) (l : string)
  : M state :=
  (* Ignore comment lines *)
  if startswith l "#" then ret (add_comment st l)
  else if seen_header st <? 2 then
    if negb (list_eqb String.eqb (map upper (split l))
               (header_words (seen_header st)))
    then raise (ValueError header_msg)
    else ret (set_seen_header st (seen_header st + 1))
  (* Process INCLUDE *)
  else if startswith l "INCLUDE" then raise NotImplementedError
  else
    let mjd := parse_mjd l in
    (* Parse two clkcorr values *)
    let clkcorr1 := float_of_string (substr l 9 21) in
    let clkcorr2 := float_of_string (substr l 21 33) in
    let st := set_mjd st (Bound (as_value mjd)) in
    (* Site code on clock file line must match *)
    if other_site obscode (parse_csite l) then ret st
    else
      (* Need MJD and at least one of the two clkcorrs *)
      match mjd with
      | None => ret (add_comment st l)
      | Some m =>
          match clkcorr1, clkcorr2 with
          | None, None => ret (add_comment st l)
          | _, _ =>
              (* Add the value to the list *)
              ret (add_comment
                     (mkState (seen_header st) (mjds st ++ [m])
                        (clkcorrs st ++ [stored_correction clkcorr1 clkcorr2])
                        (comments st ++ [None]) (leading_comment st)
                        (Bound (VFloat m)))
                     (substr_from l 50))
          end
      end.

Definition start : state := mkState 0 [] [] [] None Unbound.

Definition not_found_msg (filename : string) (obscode : option string) : string :=
  ("TEMPO-style clock correction file " ++ filename ++ " for site "
   ++ match obscode with
      | Some c => c
      | None => "None"
      end ++ " not found")%string.

(** The [try] statement: the loop over the lines, and the handler of
    [FileNotFoundError] and [OSError]. *)
Definition read_lines (fs : filesystem) (filename : string)
  (obscode : option string) : M state :=
  let f := fs filename in
  st <- for_each (lines f) (line_step obscode) start ;;
  (if fails f then log_error (not_found_msg filename obscode) else ret tt) ;;;
  ret st.

(** What follows the [try] statement. *)
Definition finish (filename : string) (bogus_last_correction : bool) (st : state)
  : M (ClockFile float) :=
  trimmed <- (if bogus_last_correction && negb (List.length (mjds st) =? 0) then
                mjd <- lift (value_init "mjd" (mjd st)) ;;
                ret (set_mjd st (Bound mjd), Py.init (clkcorrs st))
              else ret (st, clkcorrs st)) ;;
  let (mjds, clkcorrs) := zap_leading_zeros (mjds (fst trimmed)) (snd trimmed) in
  t <- lift (PulsarMJD.Time_mjd pulsar_mjd mjds) ;;
  ret {| filename := filename;
         _time := t;
         _clock := mkQuantity clkcorrs u_us;
         ClockFile.comments := Some (comments st);
         ClockFile.leading_comment := leading_comment st |}.

Definition __init__ (fs : filesystem) (filename : string) (kw : kwargs)
  : M (ClockFile float) :=
  st <- read_lines fs filename (obscode kw) ;;
  finish filename (bogus_last_correction kw) st.

End Parser.

End TempoClockFile.

(** The registry after the four class statements of the module. *)
Section Registry.

Variable float_of_string : string -> option float.
Variable hdrline_re : string -> bool.
Variable clkcorr_re : string -> option (string * string * string).
Variable pulsar_mjd : PulsarMJD.TimeFormat float.

Definition class_statements : list (ClockFile.class_statement float kwargs) :=
  [ ClockFile.mkClass "ClockFile" None;
    ClockFile.mkClass "ConstructedClockFile" None;
    ClockFile.mkClass "Tempo2ClockFile"
      (Some (Tempo2ClockFile.format,
             Tempo2ClockFile.__init__ float_of_string hdrline_re clkcorr_re
               pulsar_mjd));
    ClockFile.mkClass "TempoClockFile"
      (Some (TempoClockFile.format,
             TempoClockFile.__init__ float_of_string pulsar_mjd)) ].

Definition _formats : ClockFile.registry float kwargs :=
  fold_left (@ClockFile.ClockFileMeta float kwargs) class_statements [].

End Registry.

(* ================================================================== *)
(** * Decimal numerals *)
(* ================================================================== *)

(** [float(s)] on the plain decimal numerals the example files contain:
    optional blanks, an optional sign, at most fifteen digits with an optional
    point, optional blanks.  The digits then form an integer below [2^53] and
    the power of ten is exact, so that their one division is the nearest
    binary64, as Python's conversion is.  Anything else is refused here. *)

Module Decimal.

Definition digit (c : ascii) : option float :=
  match c with
  | "0"%char => Some 0%float | "1"%char => Some 1%float
  | "2"%char => Some 2%float | "3"%char => Some 3%float
  | "4"%char => Some 4%float | "5"%char => Some 5%float
  | "6"%char => Some 6%float | "7"%char => Some 7%float
  | "8"%char => Some 8%float | "9"%char => Some 9%float
  | _ => None
  end.

(** The digits of [s], read after [n] earlier ones of value [acc], with
    [scale] the power of ten of the digits after the point ([None] before the
    point).  Returns the integer and the power of ten. *)
Fixpoint numeral (s : string) (n : nat) (acc : float) (scale : option float)
  : option (float * float) :=
  match s with
  | EmptyString =>
      if (0 <? n) && (n <=? 15)
      then Some (acc, match scale with Some k => k | None => 1%float end)
      else None
  | String c s' =>
      match digit c, scale with
      | Some d, None =>
          numeral s' (S n) (PrimFloat.add (PrimFloat.mul acc 10) d) None
      | Some d, Some k =>
          numeral s' (S n) (PrimFloat.add (PrimFloat.mul acc 10) d)
            (Some (PrimFloat.mul k 10))
      | None, None =>
          if Ascii.eqb c "."%char then numeral s' n acc (Some 1%float) else None
      | None, Some _ => None
      end
  end.

Definition unsigned (s : string) : option float :=
  match numeral s 0 0%float None with
  | Some (m, k) => Some (PrimFloat.div m k)
  | None => None
  end.

Definition float_of_string (s : string) : option float :=
  match strip s with
  | String "-"%char s' =>
      match unsigned s' with
      | Some x => Some (PrimFloat.opp x)
      | None => None
      end
  | String "+"%char s' => unsigned s'
  | s' => unsigned s'
  end.

End Decimal.

(* ================================================================== *)
(** * Formatting numbers and dates *)
(* ================================================================== *)

(** [f"{x:w.pf}"] and the date of an MJD, for the examples: the fixed-point
    notation of a binary64 number is the exact decimal expansion of the
    number rounded to [p] digits, ties to even. *)
Module Format.

(** The decimal digits of [n]. *)
Fixpoint digits_from (fuel : nat) (n : N) (acc : string) : string :=
  match fuel with
  | O => acc
  | S fuel' =>
      let acc' := String (ascii_of_N (48 + n mod 10)) acc in
      if (n / 10 =? 0)%N then acc' else digits_from fuel' (n / 10) acc'
  end.
Definition digits (n : N) : string :=
  digits_from (S (N.to_nat (N.log2 n))) n "".

Definition pad_left (c : ascii) (w : nat) (s : string) : string :=
  (string_of_list_ascii (repeat c (w - String.length s)) ++ s)%string.

(** [n / d] rounded to the nearest integer, ties to even. *)
Definition div_half_even (n d : N) : N :=
  let q := (n / d)%N in
  let r := (n mod d)%N in
  match (2 * r ?= d)%N with
  | Lt => q
  | Gt => (q + 1)%N
  | Eq => if N.even q then q else (q + 1)%N
  end.

(** The magnitude [m * 2^e], times [10^p], rounded to an integer. *)
Definition scaled (m : positive) (e : Z) (p : nat) : N :=
  let n := (Npos m * 10 ^ N.of_nat p)%N in
  match e with
  | Z0 => n
  | Zpos k => (n * 2 ^ Npos k)%N
  | Zneg k => div_half_even n (2 ^ Npos k)
  end.

Definition fixed (negative : bool) (q : N) (p : nat) : string :=
  ((if negative then "-" else "")
   ++ digits (q / 10 ^ N.of_nat p)
   ++ (if Nat.eqb p 0 then "" else "." ++ pad_left "0" p (digits (q mod 10 ^ N.of_nat p))))%string.

(** [f"{x:w.pf}"] *)
Definition format_f (w p : nat) (x : float) : string :=
  pad_left " " w
    match Prim2SF x with
    | S754_nan => "nan"
    | S754_infinity s => if s then "-inf" else "inf"
    | S754_zero s => fixed s 0 p
    | S754_finite s m e => fixed s (scaled m e p) p
    end.

(** The integer part of a float (its floor), zero for what has none. *)
Definition floor (x : float) : Z :=
  match Prim2SF x with
  | S754_finite s m e =>
      let n := if s then Zneg m else Zpos m in
      match e with
      | Z0 => n
      | Zpos k => (n * 2 ^ Zpos k)%Z
      | Zneg k => (n / 2 ^ Zpos k)%Z
      end
  | _ => 0%Z
  end.

(** The calendar date of a day number counted from 1970-01-01. *)
Definition civil_from_days (days : Z) : Z * Z * Z :=
  let z := (days + 719468)%Z in
  let era := (z / 146097)%Z in
  let doe := (z - era * 146097)%Z in
  let yoe := ((doe - doe / 1460 + doe / 36524 - doe / 146096) / 365)%Z in
  let doy := (doe - (365 * yoe + yoe / 4 - yoe / 100))%Z in
  let mp := ((5 * doy + 2) / 153)%Z in
  let d := (doy - (153 * mp + 2) / 5 + 1)%Z in
  let m := (if mp <? 10 then mp + 3 else mp - 9)%Z in
  let y := (yoe + era * 400 + (if m <=? 2 then 1 else 0))%Z in
  (y, m, d).

Definition month_name (m : Z) : string :=
  nth (Z.to_nat (m - 1))
    ["Jan"; "Feb"; "Mar"; "Apr"; "May"; "Jun";
     "Jul"; "Aug"; "Sep"; "Oct"; "Nov"; "Dec"] "".

Definition two_digits (n : Z) : string := pad_left "0" 2 (digits (Z.to_N (n mod 100))).

(** [Time(mjd, format="pulsar_mjd").datetime.strftime("%d-%b-%y")]: MJD
    40587 is 1970-01-01. *)
Definition strftime_date (mjd : float) : string :=
  let '(y, m, d) := civil_from_days (floor mjd - 40587) in
  (two_digits d ++ "-" ++ month_name m ++ "-" ++ two_digits y)%string.

End Format.

(* ================================================================== *)
(** * Specification *)
(* ================================================================== *)

Unset Implicit Arguments.

(** ** Order and the invariants of a series *)

Section Order.

Import ClockFile.

Context {R : Type} `{Number R}.

Definition le (a b : R) : Prop := leb a b = true.
Definition lt (a b : R) : Prop := ltb a b = true.

(** A list whose every element is at most the next one. *)
Definition non_decreasing (l : list R) : Prop :=
  forall (i : nat) (a b : R),
    nth_error l i = Some a -> nth_error l (S i) = Some b -> le a b.

(** The same, as a test. *)
Fixpoint sortedb (l : list R) : bool :=
  match l with
  | a :: l' =>
      match l' with
      | b :: _ => leb a b && sortedb l'
      | [] => true
      end
  | [] => true
  end.

(** The sign of the difference of two consecutive elements tells their
    order, as it does for rationals and for finite floats. *)
Definition differences_tell_order (l : list R) : Prop :=
  forall (i : nat) (a b : R),
    nth_error l i = Some a -> nth_error l (S i) = Some b ->
    geb (sub b a) zero = leb a b.

(** The invariants of a series: timestamps that are numbers and do not
    decrease, and as many corrections as timestamps. *)
Definition well_formed (c : ClockFile R) : Prop :=
  Forall number (_time c) /\
  non_decreasing (_time c) /\
  List.length (value (_clock c)) = List.length (_time c).

(** Some query time lies outside [[first, final]]. *)
Definition out_of_range (t : list R) (first final : R) : Prop :=
  exists x : R, In x t /\ (lt x first \/ lt final x).

(** Every repeated MJD of a clock is followed by a later MJD of some clock. *)
Definition jumps_not_last (clocks : list (ClockFile R)) : Prop :=
  forall (c : ClockFile R) (t : R),
    In c clocks -> In t (discontinuities (_time c)) ->
    exists (c' : ClockFile R) (t' : R),
      In c' clocks /\ In t' (_time c') /\ lt t t'.

End Order.

(** ** What [Time] makes of an MJD *)

Section TimeSpec.

Context {R : Type}.
Variable pulsar_mjd : PulsarMJD.TimeFormat R.

(** [Time] accepts the pulsar MJD [x] and holds the MJD [x] for it: the
    conversion leaves [x] unchanged. *)
Definition unchanged (x : R) : Prop := PulsarMJD.mjd_of pulsar_mjd x = Some x.

End TimeSpec.

(** ** The lines of a TEMPO file *)

Section TempoLines.

Import TempoClockFile.

(** A line that reaches the column parser and passes the site filter: it is
    no comment line, both header lines have been seen, it is no [INCLUDE]
    directive, and its site code is the one asked for (if any). *)
Definition data_line (obscode : option string) (st : state) (l : string) : Prop :=
  startswith l "#" = false /\
  seen_header st = 2 /\
  startswith l "INCLUDE" = false /\
  other_site obscode (parse_csite l) = false.

(** The state after a line that became a comment, and after a line that was
    stored as the sample [(m, c)]. *)
Definition demoted (st : state) (l : string) : state :=
  add_comment (set_mjd st (Bound VNone)) l.
Definition appended (st : state) (l : string) (m c : float) : state :=
  add_comment
    (mkState (seen_header st) (mjds st ++ [m]) (clkcorrs st ++ [c])
       (comments st ++ [None]) (leading_comment st) (Bound (VFloat m)))
    (substr_from l 50).

(** The local variable [mjd] never holds a list: once a sample has been
    stored it holds [None] or a float. *)
Definition scalar (v : local) : Prop :=
  v = Bound VNone \/ exists x, v = Bound (VFloat x).

Definition mjd_is_scalar (st : state) : Prop :=
  mjds st <> [] -> scalar (mjd st).

End TempoLines.

(** ** The sums of [merge] *)

Section MergeSpec.
Import ClockFile.
Context {R : Type} `{Number R}.




End MergeSpec.

(** ** The samples of a TEMPO file *)

Section TempoSpec.

Import TempoClockFile.

Variable float_of_string : string -> option float.

(** The sample that a line after the header contributes, if any: the line is
    no comment, passes the site filter, has an MJD in range and at least one
    correction field that parses. *)
Definition tempo_sample (obscode : option string) (l : string)
  : option (float * float) :=
  if startswith l "#" then None
  else if other_site obscode (parse_csite l) then None
  else match parse_mjd float_of_string l with
       | None => None
       | Some m =>
           match float_of_string (substr l 9 21),
                 float_of_string (substr l 21 33) with
           | None, None => None
           | c1, c2 => Some (m, stored_correction c1 c2)
           end
       end.

Fixpoint tempo_samples (obscode : option string) (ls : list string)
  : list (float * float) :=
  match ls with
  | [] => []
  | l :: ls' =>
      match tempo_sample obscode l with
      | Some s => s :: tempo_samples obscode ls'
      | None => tempo_samples obscode ls'
      end
  end.

(** The three lists the loop appends to grow together. *)
Definition aligned (st : state) : Prop :=
  List.length (clkcorrs st) = List.length (mjds st) /\
  List.length (comments st) = List.length (mjds st).

(** An MJD that passes the range check: it is zero, or it is not below
    [39000]. *)
Definition passes_range_check (m : float) : Prop :=
  PrimFloat.eqb m 0 = true \/ PrimFloat.ltb m 39000 = false.

End TempoSpec.

(** ** The samples of a TEMPO2 file *)

Section Tempo2Spec.

Variable float_of_string : string -> option float.
Variable clkcorr_re : string -> option (string * string * string).

(** The sample of a line of a TEMPO2 file after the header: the two numbers
    that [clkcorr_re] finds in a line that is no comment. *)
Definition tempo2_sample (l : string) : option (float * float) :=
  if startswith l "#" then None
  else match clkcorr_re l with
       | Some (g1, g2, _) =>
           match float_of_string g1, float_of_string g2 with
           | Some m, Some c => Some (m, c)
           | _, _ => None
           end
       | None => None
       end.

(** A line in which [clkcorr_re] finds two numbers of which [float] rejects
    one. *)
Definition tempo2_unparsable (l : string) : bool :=
  negb (startswith l "#")
  && match clkcorr_re l with
     | Some (g1, g2, _) =>
         match float_of_string g1, float_of_string g2 with
         | Some _, Some _ => false
         | _, _ => true
         end
     | None => false
     end.

Fixpoint tempo2_samples (ls : list string) : list (float * float) :=
  match ls with
  | [] => []
  | l :: ls' =>
      match tempo2_sample l with
      | Some s => s :: tempo2_samples ls'
      | None => tempo2_samples ls'
      end
  end.

End Tempo2Spec.

Definition conversion_msg : string := "could not convert string to float".

(** ** What survives the TEMPO writer *)

Section Formatting.

Import ClockFile.

Variable float_of_string : string -> option float.
Variable format_f : nat -> nat -> float -> string.
Variable strftime_date : float -> string.

Definition line_break (c : ascii) : bool :=
  Ascii.eqb c "010" || Ascii.eqb c "013".

(** A text without a line break. *)
Definition one_line (s : string) : bool :=
  forallb (fun c => negb (line_break c)) (list_ascii_of_string s).

(** A text of blanks, digits, signs and points. *)
Definition numeral_char (c : ascii) : bool :=
  existsb (Ascii.eqb c) (list_ascii_of_string " +-.0123456789").
Definition numeral_text (s : string) : bool :=
  forallb numeral_char (list_ascii_of_string s).

(** The number [x] survives [f"{x:w.pf}"]: the text has the width [w], is a
    plain numeral, and [float] reads [x] back from it. *)
Definition survives (w p : nat) (x : float) : Prop :=
  String.length (format_f w p x) = w
  /\ numeral_text (format_f w p x) = true
  /\ float_of_string (format_f w p x) = Some x.

(** The samples of a series survive the TEMPO writer: every MJD survives
    [9.2f], lies in the range that the parser accepts and has a date of one
    line; zero and every correction in microseconds survive [12.3f]; and
    there are as many corrections as MJDs. *)
Definition samples_survive (self : ClockFile float) : Prop :=
  List.length (value (clock self)) = List.length (time self)
  /\ Forall (fun m => survives 9 2 m
                      /\ PrimFloat.ltb m 39000 = false
                      /\ PrimFloat.ltb 100000 m = false
                      /\ one_line (strftime_date m) = true) (time self)
  /\ survives 12 3 0%float
  /\ Forall (survives 12 3) (to_value (clock self) u_us).

(** The lines of a text all begin with [#]. *)
Definition comment_lines (s : string) : Prop :=
  Forall (fun l => startswith l "#" = true) (file_lines s).

(** The comments of a series keep the samples apart: the comments written
    before the samples are lines that begin with [#]; there is a comment
    entry for every sample, or none at all; and no entry spans lines. *)
Definition comments_fit (self : ClockFile float) (extra_comments : option string)
  : Prop :=
  match extra_comments with
  | Some e => comment_lines (strip e ++ newline)
  | None => True
  end
  /\ match leading_comment self with
     | Some c => comment_lines (c ++ newline)
     | None => True
     end
  /\ match comments self with
     | None | Some [] => True
     | Some l =>
         List.length (time self) <= List.length l
         /\ Forall (fun k => match k with
                             | Some c => one_line c = true
                             | None => True
                             end) l
     end.

(** The comments that the writer puts beside the samples, and what the
    parser reads back of one of them. *)
Definition written_comments (self : ClockFile float) : list (option string) :=
  match comments self with
  | None | Some [] => repeat (Some "") (List.length (value (clock self)))
  | Some l => l
  end.
Definition read_back (k : option string) : option string :=
  match k with
  | Some c => Some (rstrip c)
  | None => Some ""
  end.

(** The site filter [site] lets the lines of the site [code] through. *)
Definition accepts (site : option string) (code : string) : Prop :=
  site = None \/ exists code', site = Some code' /\ lower code' = lower code.

End Formatting.

(** ** What survives the TEMPO2 writer *)

Section Formatting2.

Import ClockFile.

Variable float_of_string : string -> option float.
Variable clkcorr_re : string -> option (string * string * string).
Variable format_e : float -> string.

(** A text without a carriage return. *)
Definition no_carriage_return (s : string) : bool :=
  forallb (fun c => negb (Ascii.eqb c "013")) (list_ascii_of_string s).

(** A sample survives the TEMPO2 writer: its two numbers are written on one
    line, which does not begin with [#]; [clkcorr_re] finds them there; and
    [float] reads them back. *)
Definition row_survives (x : float * float) : Prop :=
  one_line (format_e (fst x)) = true
  /\ one_line (format_e (snd x)) = true
  /\ startswith (Np.savetxt_row format_e x) "#" = false
  /\ (exists rest : string,
        clkcorr_re (Np.savetxt_row format_e x)
        = Some (format_e (fst x), format_e (snd x), rest))
  /\ float_of_string (format_e (fst x)) = Some (fst x)
  /\ float_of_string (format_e (snd x)) = Some (snd x).

End Formatting2.

(* ================================================================== *)
(** * Example inputs *)
(* ================================================================== *)

(** The format [pulsar_mjd] on the MJDs of the examples, which are whole
    days and half days of days without a leap second: for these the hours,
    minutes and seconds that [Time] computes are exact, and it holds each of
    them as it is.  It refuses a NaN and an infinity, the values whose
    difference with themselves is not zero.  [plain_days] stands for the
    format in the examples, which use no other MJD. *)
Section Days.

Context {R : Type} `{Number R}.

Definition plain_days : PulsarMJD.TimeFormat R :=
  PulsarMJD.mkTimeFormat
    (fun x => if eqb (sub x x) zero then Some x else None)
    (fun _ => ValueError "Input values did not match the format class pulsar_mjd").

End Days.

Module Examples.

Import ClockFile.

Definition hdr1 : string :=
  "   MJD       EECO-REF    NIST-REF NS      DATE    COMMENTS".
Definition hdr2 : string :=
  "=========    ========    ======== ==    ========  ========".

(** A file with one sample whose first correction field is [900.0]. *)
Definition legacy_line : string :=
  " 51000.00     900.000       0.000 a    18-Jul-98".
Definition legacy_file : filesystem :=
  fun _ => mkStream [hdr1; hdr2; legacy_line] false.

(** A file with one sample at MJD [100000]. *)
Definition late_line : string :=
  "100000.00       0.000       1.000 a    30-Aug-32".
Definition late_file : filesystem :=
  fun _ => mkStream [hdr1; hdr2; late_line] false.

(** A line before the accepted range. *)
Definition early_line : string :=
  " 38999.00       0.000       1.000 a    31-Aug-65".

(** A file with an [INCLUDE] directive after the header. *)
Definition include_file : filesystem :=
  fun _ => mkStream [hdr1; hdr2; "# sites"; "INCLUDE time_gbt.dat"; legacy_line] false.

(** The state of the TEMPO parser after the two header lines. *)
Definition after_header : TempoClockFile.state :=
  TempoClockFile.mkState 2 [] [] [] None Unbound.

End Examples.

Module Series.

Import ClockFile.

Section Samples.

Context {R : Type} `{Number R}.

(** A series in microseconds, without comments. *)
Definition series (name : string) (mjd corr : list R) : ClockFile R :=
  mkClockFile name mjd (mkQuantity corr u_us) None None.

(** A series with the single sample [(mjd, corr)], in microseconds. *)
Definition one_sample (mjd corr : R) : ClockFile R :=
  mkClockFile "one.clk" [mjd] (mkQuantity [corr] u_us) None None.

(** The timestamps and the corrections in microseconds of a result. *)
Definition samples (c : M (ClockFile R)) : option (list R * list R) :=
  match Py.value c with
  | Ok r => Some (time r, to_value (clock r) u_us)
  | Raise _ => None
  end.

(** The corrections of a result at the times [t], under [limits="error"]. *)
Definition corrections_at (c : M (ClockFile R)) (t : list R) : option (list R) :=
  match Py.value c with
  | Ok r => match Py.value (evaluate r t "error") with
            | Ok v => Some v
            | Raise _ => None
            end
  | Raise _ => None
  end.

End Samples.

(** [A] jumps from 20 to 30 at MJD 2. *)
Definition A : ClockFile Q := series "A" [1; 2; 2; 3]%Q [10; 20; 30; 40]%Q.
(** [B] is continuous, on a wider range. *)
Definition B : ClockFile Q := series "B" [0; 5 # 2; 4]%Q [1; 2; 3]%Q.
(** [J] jumps from 0 to 5 at MJD 1; [K] jumps from 0 to 100 at MJD 2. *)
Definition J : ClockFile Q := series "J" [1; 1; 2]%Q [0; 5; 7]%Q.
Definition K : ClockFile Q := series "K" [1; 2; 2; 3]%Q [0; 0; 100; 100]%Q.
(** [C] is continuous, on the range of [A]. *)
Definition C : ClockFile Q := series "C" [1; 3]%Q [10; 14]%Q.
(** A series with no sample. *)
Definition empty : ClockFile Q := series "empty" [] [].

(** The same series on binary64 floats. *)
Definition A64 : ClockFile float := series "A" [1; 2; 2; 3]%float [10; 20; 30; 40]%float.
Definition B64 : ClockFile float := series "B" [0; 2.5; 4]%float [1; 2; 3]%float.
Definition J64 : ClockFile float := series "J" [1; 1; 2]%float [0; 5; 7]%float.
Definition K64 : ClockFile float :=
  series "K" [1; 2; 2; 3]%float [0; 0; 100; 100]%float.
Definition empty64 : ClockFile float := series "empty" [] [].

Definition reduced (s : option (list Q * list Q)) : option (list Q * list Q) :=
  match s with
  | Some (t, c) => Some (map Qred t, map Qred c)
  | None => None
  end.

End Series.

(** A file whose two samples are out of order. *)
Definition disordered_file : filesystem :=
  fun _ => mkStream [Examples.hdr1; Examples.hdr2;
                     " 51001.00       0.000       1.000 a";
                     " 51000.00       0.000       2.000 a"] false.

(** The series the TEMPO parser makes of the two files. *)
Definition disordered_series : ClockFile.ClockFile float :=
  ClockFile.mkClockFile "time.dat" [51001; 51000]%float
    (ClockFile.mkQuantity [1; 2]%float ClockFile.u_us)
    (Some [Some ""; Some ""]) None.
Definition legacy_series : ClockFile.ClockFile float :=
  ClockFile.mkClockFile "time.dat" [51000]%float
    (ClockFile.mkQuantity [(-0x1.44cccccccccd0p+6)%float] ClockFile.u_us)
    (Some [Some ""]) None.

(** A registry that holds the TEMPO parser alone, with the decimal
    numerals for [float]. *)
Definition tempo_formats : ClockFile.registry float kwargs :=
  ClockFile.ClockFileMeta []
    (ClockFile.mkClass "TempoClockFile"
       (Some (TempoClockFile.format,
              TempoClockFile.__init__ Decimal.float_of_string plain_days))).

(** More example inputs: files of both formats and series to write. *)
Module MoreExamples.

Import ClockFile.

(** A TEMPO file with a comment, a sample of another site, a line that is
    no sample, two samples at MJD zero and two samples. *)
Definition mixed_lines : list string :=
  [ "# clock corrections of site 1";
    " 50999.00       0.000       9.000 2";
    "no sample here";
    "     0.00       0.000       0.000 1";
    " 51000.00       0.000       1.500 1    06-Jul-98  first";
    "";
    " 51001.50       0.000      -0.250 1    07-Jul-98" ].
Definition mixed_file : filesystem :=
  fun _ => mkStream (Examples.hdr1 :: Examples.hdr2 :: mixed_lines) false.

(** A file that begins with a blank line. *)
Definition blank_first_file : filesystem :=
  fun _ => mkStream [""; Examples.hdr1; Examples.hdr2] false.

(** No file at all. *)
Definition no_file : filesystem := fun _ => mkStream [] true.

(** Stand-ins for the two regular expressions of the TEMPO2 parser, on
    lines made of words: a header line begins with [#] and goes on with two
    words at least; the two numbers of a line are its first two words. *)
Definition header_of_words (s : string) : bool :=
  startswith s "#" && (2 <=? List.length (split (substr_from s 1))).
Definition first_two_words (s : string) : option (string * string * string) :=
  match split s with
  | a :: b :: _ => Some (a, b, "")
  | _ => None
  end.

(** [repr] of a plain string (no quote or escape in it). *)
Definition plain_repr (s : string) : string := ("'" ++ s ++ "'")%string.

(** A TEMPO2 file with a comment, a sample at MJD zero and two samples. *)
Definition tempo2_file : filesystem :=
  fun _ => mkStream [ "# UTC(AO) UTC(GPS)";
                      "# corrections in seconds";
                      "0 0";
                      "51000.5 0.0000015";
                      "51001.5 0.000002" ] false.

(** The series that the parsers make of [mixed_file], for the site [1], and
    of [tempo2_file]. *)
Definition mixed_series : ClockFile float :=
  mkClockFile "time.dat" [51000; 51001.5]%float
    (mkQuantity [1.5; -0.25]%float u_us)
    (Some [Some ""; Some "first"; Some ""])
    (Some "# clock corrections of site 1").
Definition tempo2_series : ClockFile float :=
  mkClockFile "ao2gps.clk" [51000.5; 51001.5]%float
    (mkQuantity [0x1.92a737110e454p-20; 0x1.0c6f7a0b5ed8dp-19]%float u_s)
    (Some [])
    (Some (newline ++ "# corrections in seconds" ++ newline ++ newline ++ newline)%string).

(** A series with comments, to be written as a TEMPO file. *)
Definition annotated : ClockFile float :=
  mkClockFile "time_ao.dat" [51000; 51001.5]%float
    (mkQuantity [1.5; -0.25]%float u_us)
    (Some [Some "first"; None]) (Some "# clock corrections of site 3").


End MoreExamples.

(* ================================================================== *)
(** * Facts about the runtime *)
(* ================================================================== *)

Section Runtime.

Lemma bind_ret_l {A B} (a : A) (k : A -> M B) : Py.bind (Py.ret a) k = k a.
Proof. unfold Py.bind, Py.ret. destruct (k a); reflexivity. Qed.

Lemma bind_Ok {A B} (w : list record) (a : A) (k : A -> M B) :
  Py.bind (w, Ok a) k = (w ++ fst (k a), snd (k a)).
Proof. unfold Py.bind. now destruct (k a). Qed.

Lemma bind_assoc {A B C} (c : M A) (k : A -> M B) (h : B -> M C) :
  Py.bind (Py.bind c k) h = Py.bind c (fun a => Py.bind (k a) h).
Proof.
  destruct c as [w [a | e]]; simpl; [| reflexivity].
  destruct (k a) as [w' [b | e']]; simpl; [| reflexivity].
  destruct (h b) as [w'' r]. now rewrite app_assoc.
Qed.

Lemma bind_ext {A B} (c : M A) (k k' : A -> M B) :
  (forall a, k a = k' a) -> Py.bind c k = Py.bind c k'.
Proof.
  intro E. destruct c as [w [a | e]]; simpl; [| reflexivity]. now rewrite E.
Qed.

Lemma for_each_app {A S} (l l' : list A) (body : S -> A -> M S) (s : S) :
  for_each (l ++ l') body s = Py.bind (for_each l body s) (for_each l' body).
Proof.
  revert s. induction l as [| x l IH]; intro s.
  - cbn [app for_each]. now rewrite bind_ret_l.
  - cbn [app for_each]. rewrite bind_assoc. apply bind_ext. exact IH.
Qed.

End Runtime.

(* ================================================================== *)
(** * Facts about [Time] *)
(* ================================================================== *)

Section TimeFacts.

Import PulsarMJD.

Context {R : Type}.
Variable pulsar_mjd : TimeFormat R.

Lemma converted_length (f : R -> option R) (l l' : list R) :
  converted f l = Some l' -> List.length l' = List.length l.
Proof.
  revert l'. induction l as [| x l IH]; intros l'; cbn.
  - now intros [= <-].
  - destruct (f x) as [y |]; [| discriminate].
    destruct (converted f l) as [ys |]; [| discriminate].
    intros [= <-]. cbn. now rewrite (IH ys eq_refl).
Qed.

Lemma converted_nth (f : R -> option R) (l l' : list R) (i : nat) (y : R) :
  converted f l = Some l' -> nth_error l' i = Some y ->
  exists x, nth_error l i = Some x /\ f x = Some y.
Proof.
  revert l' i. induction l as [| x l IH]; intros l' i; cbn.
  - intros [= <-]. now destruct i.
  - destruct (f x) as [y0 |] eqn:Ex; [| discriminate].
    destruct (converted f l) as [ys |]; [| discriminate].
    intros [= <-]. destruct i as [| i]; cbn.
    + intros [= <-]. now exists x.
    + now apply IH.
Qed.

(** A [Time] array has as many entries as the array it was made of. *)
Lemma Time_mjd_length (l l' : list R) :
  Time_mjd pulsar_mjd l = Ok l' -> List.length l' = List.length l.
Proof.
  unfold Time_mjd. destruct (converted _ l) as [ys |] eqn:E; [| discriminate].
  intros [= <-]. exact (converted_length _ _ _ E).
Qed.

Lemma Time_mjd_nth (l l' : list R) (i : nat) (y : R) :
  Time_mjd pulsar_mjd l = Ok l' -> nth_error l' i = Some y ->
  exists x, nth_error l i = Some x /\ mjd_of pulsar_mjd x = Some y.
Proof.
  unfold Time_mjd. destruct (converted _ l) as [ys |] eqn:E; [| discriminate].
  intros [= <-]. now apply converted_nth.
Qed.

(** An array of MJDs that the conversion leaves unchanged comes back as it
    is. *)
Lemma Time_mjd_unchanged (l : list R) :
  Forall (unchanged pulsar_mjd) l -> Time_mjd pulsar_mjd l = Ok l.
Proof.
  unfold Time_mjd, unchanged. induction 1 as [| x l Hx Hl IH]; [reflexivity |].
  cbn. rewrite Hx. destruct (converted _ l) as [ys |]; [| discriminate].
  now injection IH as ->.
Qed.

(** [Time] raises exactly when it refuses an entry. *)
Lemma Time_mjd_raises (l : list R) (e : exn) :
  Time_mjd pulsar_mjd l = Raise e ->
  e = refusal pulsar_mjd l /\ exists x, In x l /\ mjd_of pulsar_mjd x = None.
Proof.
  unfold Time_mjd. destruct (converted _ l) as [ys |] eqn:E; [discriminate |].
  intros [= <-]. split; [reflexivity |].
  induction l as [| x l IH]; [discriminate |]. cbn in E.
  destruct (mjd_of pulsar_mjd x) as [y |] eqn:Ex.
  - destruct (converted _ l) as [ys |]; [discriminate |].
    destruct (IH eq_refl) as (x' & Hx' & E'). exists x'. split; [now right | exact E'].
  - exists x. split; [now left | exact Ex].
Qed.

End TimeFacts.

(* ================================================================== *)
(** * The TEMPO parser *)
(* ================================================================== *)

Section TempoFacts.

Import TempoClockFile.

Variable float_of_string : string -> option float.
Variable pulsar_mjd : PulsarMJD.TimeFormat float.

Abbreviation line_step := (line_step float_of_string).
Abbreviation parse_mjd := (parse_mjd float_of_string).

Lemma startswith_include_not_comment (l : string) :
  startswith l "INCLUDE" = true -> startswith l "#" = false.
Proof.
  destruct l as [| c l]; [discriminate |].
  unfold startswith. cbn [String.prefix].
  destruct (ascii_dec "I" c) as [<- | _]; [reflexivity | discriminate].
Qed.

Lemma line_step_include (obscode : option string) (st : state) (l : string) :
  seen_header st = 2 ->
  startswith l "INCLUDE" = true ->
  line_step obscode st l = raise NotImplementedError.
Proof.
  intros Hh Hi. unfold TempoClockFile.line_step.
  rewrite (startswith_include_not_comment l Hi), Hh, Hi. reflexivity.
Qed.

(** Zero compares equal to nothing above [100000]. *)
Lemma float_zero_not_late (m : float) :
  PrimFloat.eqb m 0 = true -> PrimFloat.ltb 100000 m = false.
Proof.
  rewrite eqb_spec, ltb_spec.
  change (Prim2SF 0) with (S754_zero false).
  destruct (Prim2SF m) as [s | s | | s mant e]; cbn.
  - reflexivity.
  - destruct s; discriminate.
  - discriminate.
  - destruct s; discriminate.
Qed.

Lemma mjds_add_comment (st : state) (s : string) :
  mjds (add_comment st s) = mjds st.
Proof. unfold add_comment. destruct (rev (comments st)); reflexivity. Qed.

Lemma clkcorrs_add_comment (st : state) (s : string) :
  clkcorrs (add_comment st s) = clkcorrs st.
Proof. unfold add_comment. destruct (rev (comments st)); reflexivity. Qed.

Lemma mjd_add_comment (st : state) (s : string) :
  mjd (add_comment st s) = mjd st.
Proof. unfold add_comment. destruct (rev (comments st)); reflexivity. Qed.

(** What the column parser does with a data line. *)
Lemma line_step_data (obscode : option string) (st : state) (l : string) :
  data_line obscode st l ->
  line_step obscode st l =
  ret match parse_mjd l with
      | None => demoted st l
      | Some m =>
          match float_of_string (substr l 9 21), float_of_string (substr l 21 33) with
          | None, None => add_comment (set_mjd st (Bound (VFloat m))) l
          | c1, c2 => appended st l m (stored_correction c1 c2)
          end
      end.
Proof.
  intros (Hc & Hh & Hi & Hs). unfold TempoClockFile.line_step.
  rewrite Hc, Hh, Hi. cbn [Nat.ltb Nat.leb].
  cbn [seen_header set_mjd]. rewrite Hs.
  destruct (parse_mjd l) as [m |]; [| reflexivity].
  destruct (float_of_string (substr l 9 21)), (float_of_string (substr l 21 33));
    reflexivity.
Qed.

(** C8.  In the TEMPO parser, a line that begins with [INCLUDE] and comes
    after the two header lines makes the parse fail at once: the constructor
    raises [NotImplementedError], whatever precedes the line among comments
    and samples, whatever follows it, and whatever the site filter and the
    options are.  The line is neither skipped nor turned into a comment. *)
Theorem tempo_include_fails_fast
  (fs : filesystem) (filename : string) (kw : kwargs)
  (before after : list string) (l : string) (st : state) (w : list record) :
  lines (fs filename) = before ++ l :: after ->
  for_each before (line_step (obscode kw)) start = (w, Ok st) ->
  seen_header st = 2 ->
  startswith l "INCLUDE" = true ->
  __init__ float_of_string pulsar_mjd fs filename kw
  = (w, Raise NotImplementedError).
Proof.
  intros Hl Hb Hh Hi.
  unfold __init__, read_lines. rewrite Hl, for_each_app, Hb.
  cbn [for_each]. rewrite bind_Ok, (line_step_include (obscode kw) st l Hh Hi).
  cbn. now rewrite app_nil_r.
Qed.

Lemma scalar_as_value (x : option float) : scalar (Bound (as_value x)).
Proof. destruct x as [x |]; [right; now exists x | now left]. Qed.

Lemma line_step_scalar (obscode : option string) (st st' : state) (l : string)
  (w : list record) :
  mjd_is_scalar st -> line_step obscode st l = (w, Ok st') -> mjd_is_scalar st'.
Proof.
  intros I. unfold TempoClockFile.line_step.
  destruct (startswith l "#").
  { intros [= <- <-] Hn. rewrite mjd_add_comment. apply I.
    now rewrite mjds_add_comment in Hn. }
  destruct (seen_header st <? 2).
  { destruct (negb _); [discriminate |]. intros [= <- <-]. exact I. }
  destruct (startswith l "INCLUDE"); [discriminate |].
  destruct (other_site obscode (parse_csite l)).
  { intros [= <- <-] _. apply scalar_as_value. }
  destruct (parse_mjd l) as [m |].
  - destruct (float_of_string (substr l 9 21)), (float_of_string (substr l 21 33));
      intros [= <- <-] _; rewrite mjd_add_comment; cbn;
      right; now exists m.
  - intros [= <- <-] _. rewrite mjd_add_comment. now left.
Qed.

Lemma for_each_scalar (obscode : option string) (ls : list string)
  (st st' : state) (w : list record) :
  mjd_is_scalar st ->
  for_each ls (line_step obscode) st = (w, Ok st') -> mjd_is_scalar st'.
Proof.
  revert st w. induction ls as [| l ls IH]; intros st w I.
  - intros [= <- <-]. exact I.
  - cbn [for_each]. unfold Py.bind at 1.
    destruct (line_step obscode st l) as [w1 [st1 |]] eqn:E1; [| discriminate].
    destruct (for_each ls (line_step obscode) st1) as [w2 r2] eqn:E2.
    intros [= <- ->].
    exact (IH st1 w2 (line_step_scalar obscode st st1 l w1 I E1) E2).
Qed.

(** C10.  Whenever the TEMPO parser has read its source to the end and has
    stored at least one sample, the option [bogus_last_correction=True] makes
    the constructor raise [TypeError]: the step that should drop the last
    sample slices the local variable [mjd], which holds the MJD of the last
    line parsed (a float or [None]), and not the list [mjds]. *)
Theorem tempo_bogus_last_correction_raises
  (fs : filesystem) (filename : string) (site : option string)
  (st : state) (w : list record) :
  read_lines float_of_string fs filename site = (w, Ok st) ->
  mjds st <> [] ->
  exists msg : string,
    __init__ float_of_string pulsar_mjd fs filename (mkKwargs site true)
    = (w, Raise (TypeError msg)).
Proof.
  intros Hr Hn. unfold __init__. cbn [obscode bogus_last_correction].
  rewrite Hr. unfold Py.bind at 1, finish.
  assert (I : mjd_is_scalar st).
  { revert Hr. unfold read_lines, Py.bind at 1.
    destruct (for_each _ _ start) as [w0 [st0 |]] eqn:E; [| discriminate].
    destruct (fails (fs filename)); cbn; intros [= _ <-];
      (eapply for_each_scalar; [| exact E]; intro C; now contradiction C). }
  assert (Hlen : negb (List.length (mjds st) =? 0) = true).
  { destruct (mjds st); [contradiction | reflexivity]. }
  rewrite Hlen. cbn [andb].
  destruct (I Hn) as [-> | [x ->]]; cbn; rewrite app_nil_r; eauto.
Qed.

(** C6, as the code has it.  For a data line whose MJD field parses to [m]:
    an MJD equal to zero is accepted; so is every MJD that is neither below
    [39000] nor above [100000], the bound [100000] included; an MJD that is
    below [39000] and not zero, or above [100000], is treated as unparsable,
    and the line, having passed the site filter, becomes a comment; an
    accepted MJD is stored as a sample as soon as one correction field
    parses. *)
Theorem tempo_mjd_field_range
  (site : option string) (st : state) (l : string) (m : float) :
  data_line site st l ->
  float_of_string (substr l 0 9) = Some m ->
  (PrimFloat.eqb m 0 = true -> parse_mjd l = Some m) /\
  (PrimFloat.ltb m 39000 = false -> PrimFloat.ltb 100000 m = false ->
   parse_mjd l = Some m) /\
  (m = 100000%float -> parse_mjd l = Some m) /\
  ((PrimFloat.ltb m 39000 = true /\ PrimFloat.eqb m 0 = false)
   \/ PrimFloat.ltb 100000 m = true ->
   parse_mjd l = None /\ line_step site st l = ret (demoted st l)) /\
  (parse_mjd l = Some m ->
   forall c1 c2 : option float,
     float_of_string (substr l 9 21) = c1 ->
     float_of_string (substr l 21 33) = c2 ->
     c1 <> None \/ c2 <> None ->
     exists c : float, line_step site st l = ret (appended st l m c)).
Proof.
  intros Hd Hm.
  assert (Hin : PrimFloat.ltb m 39000 = false -> PrimFloat.ltb 100000 m = false ->
                parse_mjd l = Some m).
  { intros H1 H2. unfold TempoClockFile.parse_mjd. now rewrite Hm, H1, H2. }
  repeat split.
  - intro Hz. unfold TempoClockFile.parse_mjd.
    now rewrite Hm, Hz, (float_zero_not_late m Hz), andb_false_r.
  - exact Hin.
  - intros ->. now apply Hin.
  - unfold TempoClockFile.parse_mjd. rewrite Hm.
    destruct H as [[-> ->] | ->]; [reflexivity | now rewrite orb_true_r].
  - rewrite (line_step_data site st l Hd).
    assert (E : parse_mjd l = None).
    { unfold TempoClockFile.parse_mjd. rewrite Hm.
      destruct H as [[-> ->] | ->]; [reflexivity | now rewrite orb_true_r]. }
    now rewrite E.
  - intros Hp c1 c2 H1 H2 Hc. rewrite (line_step_data site st l Hd), Hp, H1, H2.
    exists (stored_correction c1 c2).
    destruct c1, c2; try reflexivity. destruct Hc; congruence.
Qed.

(** C7, as the code has it.  For a data line with an accepted MJD and at
    least one correction field that parses, a missing field counting as zero,
    the parser stores the MJD and the correction
    [second - first'] in binary64 arithmetic, where [first'] is the first
    field less [818.8] when the first field is above [800.0], and the first
    field otherwise.  With the fields [900.0] and [0.0] the stored value is
    the binary64 number [-0x1.44cccccccccd0p+6], about [-81.20000000000005]. *)
Theorem tempo_stored_correction
  (site : option string) (st : state) (l : string) (m : float)
  (c1 c2 : option float) :
  data_line site st l ->
  parse_mjd l = Some m ->
  float_of_string (substr l 9 21) = c1 ->
  float_of_string (substr l 21 33) = c2 ->
  c1 <> None \/ c2 <> None ->
  let first := match c1 with Some x => x | None => 0%float end in
  let second := match c2 with Some x => x | None => 0%float end in
  let first' := if PrimFloat.ltb 800 first
                then PrimFloat.sub first 0x1.9966666666666p+9 else first in
  exists st' : state,
    line_step site st l = ret st' /\
    mjds st' = mjds st ++ [m] /\
    clkcorrs st' = clkcorrs st ++ [PrimFloat.sub second first'] /\
    (c1 = Some 900%float -> c2 = Some 0%float ->
     clkcorrs st' = clkcorrs st ++ [(-0x1.44cccccccccd0p+6)%float]).
Proof.
  intros Hd Hp H1 H2 Hc first second first'.
  exists (appended st l m (stored_correction c1 c2)).
  split; [| split; [| split]].
  - rewrite (line_step_data site st l Hd), Hp, H1, H2.
    destruct c1, c2; try reflexivity. destruct Hc; congruence.
  - unfold appended. now rewrite mjds_add_comment.
  - unfold appended. now rewrite clkcorrs_add_comment.
  - intros -> ->. unfold appended. now rewrite clkcorrs_add_comment.
Qed.

(** The TEMPO2 parser, by contrast, slices the list: with the option set it
    hands to [Time] the samples less the last one (and less the leading zero
    MJDs), and returns what [Time] makes of them. *)
Lemma tempo2_bogus_last_correction_drops
  (hdrline_re : string -> bool)
  (clkcorr_re : string -> option (string * string * string))
  (fs : filesystem) (filename : string) (site : option string)
  (st : Tempo2ClockFile.state) (w : list record) (t : list float) :
  fails (fs filename) = false ->
  Tempo2ClockFile.read_lines float_of_string hdrline_re clkcorr_re (fs filename)
  = (w, Ok st) ->
  Tempo2ClockFile.mjd st <> [] ->
  PulsarMJD.Time_mjd pulsar_mjd
    (fst (zap_leading_zeros (Py.init (Tempo2ClockFile.mjd st))
            (Py.init (Tempo2ClockFile.clk st)))) = Ok t ->
  exists r : ClockFile.ClockFile float,
    Tempo2ClockFile.__init__ float_of_string hdrline_re clkcorr_re pulsar_mjd
      fs filename (mkKwargs site true) = (w, Ok r)
    /\ ClockFile._time r = t.
Proof.
  intros Hf Hr Hn Ht. unfold Tempo2ClockFile.__init__.
  rewrite Hr, Hf, bind_Ok. cbn [bogus_last_correction andb].
  destruct (Tempo2ClockFile.mjd st) as [| m ms] eqn:Em; [contradiction |].
  cbn [List.length Nat.eqb negb].
  destruct (zap_leading_zeros (Py.init (m :: ms)) (Py.init (Tempo2ClockFile.clk st)))
    as [mjd clk] eqn:Ez.
  cbn [fst] in Ht. rewrite Ht.
  eexists. split.
  - cbn. now rewrite app_nil_r.
  - reflexivity.
Qed.

End TempoFacts.

(** ** The parser on the example files *)

Section TempoExamples.

Import TempoClockFile Examples.

Lemma data_line_after_header (l : string) :
  startswith l "#" = false ->
  startswith l "INCLUDE" = false ->
  data_line None after_header l.
Proof. intros Hc Hi. repeat split; assumption. Qed.

(** An [INCLUDE] directive after the header and a comment. *)
Lemma tempo_include_fails_fast_witness :
  __init__ Decimal.float_of_string plain_days include_file "time.dat" (mkKwargs None false)
  = ([], Raise NotImplementedError).
Proof.
  apply (tempo_include_fails_fast Decimal.float_of_string plain_days include_file "time.dat"
           (mkKwargs None false) [hdr1; hdr2; "# sites"] [legacy_line]
           "INCLUDE time_gbt.dat" (mkState 2 [] [] [] (Some "# sites") Unbound) []);
    reflexivity.
Defined.

(** One sample, and the option to drop it. *)
Lemma tempo_bogus_last_correction_raises_witness :
  exists msg : string,
    __init__ Decimal.float_of_string plain_days legacy_file "time.dat" (mkKwargs (Some "a") true)
    = ([], Raise (TypeError msg)).
Proof.
  eapply (tempo_bogus_last_correction_raises Decimal.float_of_string plain_days legacy_file
            "time.dat" (Some "a")).
  - vm_compute. reflexivity.
  - discriminate.
Defined.

(** A line at MJD [100000] is stored as a sample; it does not become a
    comment.  The file that holds it parses to the series with that one
    sample. *)
Lemma tempo_mjd_100000_is_a_sample :
  Decimal.float_of_string (substr late_line 0 9) = Some 100000%float /\
  line_step Decimal.float_of_string None after_header late_line
  <> ret (demoted after_header late_line) /\
  line_step Decimal.float_of_string None after_header late_line
  = ret (mkState 2 [100000%float] [1%float] [Some ""] None (Bound (VFloat 100000)))
  /\
  Series.samples
    (__init__ Decimal.float_of_string plain_days late_file "time.dat" (mkKwargs None false))
  = Some ([100000%float], [1%float]).
Proof.
  split; [reflexivity |]. split; [| split; reflexivity].
  intro E. vm_compute in E. discriminate E.
Qed.

(** A line at MJD [38999] becomes a comment. *)
Lemma tempo_early_line_is_a_comment :
  line_step Decimal.float_of_string None after_header early_line
  = ret (demoted after_header early_line)
  /\ mjds (demoted after_header early_line) = [].
Proof. split; reflexivity. Qed.

Lemma tempo_mjd_field_range_witness :
  parse_mjd Decimal.float_of_string late_line = Some 100000%float /\
  exists c : float,
    line_step Decimal.float_of_string None after_header late_line
    = ret (appended after_header late_line 100000 c).
Proof.
  assert (Hd : data_line None after_header late_line)
    by (apply data_line_after_header; reflexivity).
  assert (Hm : Decimal.float_of_string (substr late_line 0 9) = Some 100000%float)
    by reflexivity.
  destruct (tempo_mjd_field_range Decimal.float_of_string None after_header
              late_line 100000 Hd Hm) as (_ & _ & Hb & _ & Hs).
  split.
  - apply Hb. reflexivity.
  - apply (Hs (Hb eq_refl) (Some 0%float) (Some 1%float)).
    + reflexivity.
    + reflexivity.
    + left. discriminate.
Defined.

(** The fields [900.0] and [0.0]: the stored correction is three units in
    the last place away from the binary64 number that [-81.2] denotes. *)
Lemma tempo_legacy_offset_is_inexact :
  Decimal.float_of_string (substr legacy_line 9 21) = Some 900%float /\
  Decimal.float_of_string (substr legacy_line 21 33) = Some 0%float /\
  Decimal.float_of_string "-81.2" = Some (-0x1.44ccccccccccdp+6)%float /\
  line_step Decimal.float_of_string None after_header legacy_line
  = ret (mkState 2 [51000%float] [(-0x1.44cccccccccd0p+6)%float] [Some ""] None
           (Bound (VFloat 51000))) /\
  Series.samples
    (__init__ Decimal.float_of_string plain_days legacy_file "time.dat" (mkKwargs None false))
  = Some ([51000%float], [(-0x1.44cccccccccd0p+6)%float]) /\
  PrimFloat.eqb (-0x1.44cccccccccd0p+6) (-0x1.44ccccccccccdp+6) = false /\
  (-0x1.44cccccccccd0p+6)%float <> (-0x1.44ccccccccccdp+6)%float.
Proof.
  repeat split; try reflexivity.
  intro E.
  assert (F : PrimFloat.eqb (-0x1.44cccccccccd0p+6) (-0x1.44ccccccccccdp+6) = false)
    by reflexivity.
  rewrite E in F. discriminate F.
Qed.

Lemma tempo_stored_correction_witness :
  exists st' : state,
    line_step Decimal.float_of_string None after_header legacy_line = ret st' /\
    mjds st' = [51000%float] /\
    clkcorrs st' = [PrimFloat.sub 0 (PrimFloat.sub 900 0x1.9966666666666p+9)] /\
    (Some 900%float = Some 900%float -> Some 0%float = Some 0%float ->
     clkcorrs st' = [(-0x1.44cccccccccd0p+6)%float]).
Proof.
  apply (tempo_stored_correction Decimal.float_of_string None after_header
           legacy_line 51000 (Some 900%float) (Some 0%float)).
  - apply data_line_after_header; reflexivity.
  - reflexivity.
  - reflexivity.
  - reflexivity.
  - left. discriminate.
Defined.

End TempoExamples.

(* ================================================================== *)
(** * Order *)
(* ================================================================== *)

(** The rationals satisfy the laws, and every rational is a number. *)
Lemma Q_number (x : Q) : number x.
Proof. apply Qeq_bool_iff. reflexivity. Qed.

Lemma Q_Ordered : Ordered Q.
Proof.
  split; cbn.
  - intros a b _. split; apply Q_number.
  - intros a b _ _. destruct (Qlt_le_dec b a) as [L | L].
    + right. apply Qle_bool_iff. now apply Qlt_le_weak.
    + left. now apply Qle_bool_iff.
  - intros a b c Hab Hbc. apply Qle_bool_iff.
    apply Qle_trans with b; now apply Qle_bool_iff.
  - reflexivity.
  - intros a b L. apply Qle_bool_iff.
    destruct (Qlt_le_dec b a) as [L' | L']; [| exact L'].
    apply Qlt_le_weak in L'. apply Qle_bool_iff in L'. rewrite L' in L.
    discriminate L.
  - intros a b. apply eq_true_iff_eq.
    rewrite andb_true_iff, Qeq_bool_iff, !Qle_bool_iff. split.
    + intros E. rewrite E. split; apply Qle_refl.
    + intros [L1 L2]. now apply Qle_antisym.
Qed.

(** So do the binary64 floats: their comparisons are those of
    [SpecFloat.SFcompare], which orders the values other than NaN. *)
Ltac cases_compare :=
  repeat match goal with
         | |- context [Z.compare ?x ?y] => destruct (Z.compare_spec x y)
         | H : context [Z.compare ?x ?y] |- _ => destruct (Z.compare_spec x y)
         | |- context [Pos.compare_cont Eq ?x ?y] =>
             change (Pos.compare_cont Eq x y) with (Pos.compare x y);
             destruct (Pos.compare_spec x y)
         | H : context [Pos.compare_cont Eq ?x ?y] |- _ =>
             change (Pos.compare_cont Eq x y) with (Pos.compare x y) in H;
             destruct (Pos.compare_spec x y)
         end.

Ltac cases_floats :=
  unfold SFltb, SFleb, SFeqb, SFcompare;
  repeat match goal with
         | x : spec_float |- _ => destruct x as [[|] | [|] | | [|] ? ?]
         end;
  cbn; try discriminate; auto.

Lemma SFleb_trans (a b c : spec_float) :
  SFleb a b = true -> SFleb b c = true -> SFleb a c = true.
Proof.
  cases_floats; intros Hab Hbc; cases_compare; cbn in *;
    try discriminate; try reflexivity; subst; lia.
Qed.

Lemma SFleb_total (a b : spec_float) :
  SFeqb a a = true -> SFeqb b b = true -> SFleb a b = true \/ SFleb b a = true.
Proof. cases_floats; intros _ _; cases_compare; cbn in *; auto; subst; lia. Qed.

Lemma SFltb_leb (a b : spec_float) :
  SFeqb a a = true -> SFeqb b b = true -> SFltb a b = negb (SFleb b a).
Proof. cases_floats; intros _ _; cases_compare; cbn in *; auto; subst; lia. Qed.

Lemma SFeqb_leb (a b : spec_float) : SFeqb a b = SFleb a b && SFleb b a.
Proof. cases_floats; cases_compare; cbn in *; auto; subst; lia. Qed.

Lemma SFleb_number (a b : spec_float) :
  SFleb a b = true -> SFeqb a a = true /\ SFeqb b b = true.
Proof.
  cases_floats; intros _;
    rewrite ?Z.compare_refl, ?Pos.compare_cont_refl; cbn; auto.
Qed.

Lemma SFltb_le (a b : spec_float) : SFltb a b = true -> SFleb a b = true.
Proof. unfold SFltb, SFleb. destruct (SFcompare a b) as [[| |] |]; auto. Qed.

Lemma float_Ordered : Ordered float.
Proof.
  split; unfold number; cbn.
  - intros a b. rewrite !eqb_spec, leb_spec. apply SFleb_number.
  - intros a b. rewrite !eqb_spec, !leb_spec. apply SFleb_total.
  - intros a b c. rewrite !leb_spec. apply SFleb_trans.
  - intros a b. rewrite !eqb_spec, ltb_spec, leb_spec. apply SFltb_leb.
  - intros a b. rewrite ltb_spec, leb_spec. apply SFltb_le.
  - intros a b. rewrite eqb_spec, !leb_spec. apply SFeqb_leb.
Qed.

Section OrderFacts.

Context {R : Type} `{Ordered R}.

Lemma le_number (a b : R) : le a b -> number a /\ number b.
Proof. apply leb_number. Qed.

Lemma lt_le (a b : R) : lt a b -> le a b.
Proof. apply ltb_le. Qed.

Lemma lt_number (a b : R) : lt a b -> number a /\ number b.
Proof. intro L. apply le_number. now apply lt_le. Qed.

Lemma le_refl (a : R) : number a -> le a a.
Proof. intro N. destruct (leb_total a a N N); assumption. Qed.

Lemma le_trans (a b c : R) : le a b -> le b c -> le a c.
Proof. apply leb_trans. Qed.

Lemma not_lt_iff_le (a b : R) :
  number a -> number b -> (ltb a b = false <-> le b a).
Proof.
  intros Na Nb. unfold le. rewrite (ltb_leb a b Na Nb).
  destruct (leb b a); cbn; split; congruence.
Qed.

Lemma lt_not_le (a b : R) : lt a b -> ~ le b a.
Proof.
  intros L L'. destruct (lt_number a b L) as [Na Nb].
  unfold lt in L. rewrite (ltb_leb a b Na Nb) in L.
  unfold le in L'. rewrite L' in L. discriminate L.
Qed.

Lemma lt_le_trans (a b c : R) : lt a b -> le b c -> lt a c.
Proof.
  intros L1 L2. destruct (lt_number a b L1) as [Na _].
  destruct (le_number b c L2) as [_ Nc].
  destruct (ltb a c) eqn:E; [exact E |].
  apply (not_lt_iff_le a c Na Nc) in E.
  contradiction (lt_not_le a b L1). now apply le_trans with c.
Qed.

Lemma eqb_iff (a b : R) : eqb a b = true <-> le a b /\ le b a.
Proof. unfold le. rewrite eqb_leb. apply andb_true_iff. Qed.

Lemma isnan_false (a : R) : number a -> isnan a = false.
Proof. unfold isnan, number. now intros ->. Qed.

Lemma non_decreasing_tail (a : R) (l : list R) :
  non_decreasing (a :: l) -> non_decreasing l.
Proof. intros Hs i x y Hx Hy. exact (Hs (S i) x y Hx Hy). Qed.

Lemma non_decreasing_cons (a b : R) (l : list R) :
  le a b -> non_decreasing (b :: l) -> non_decreasing (a :: b :: l).
Proof.
  intros L Hs [| i] x y Hx Hy; cbn in Hx, Hy.
  - congruence.
  - exact (Hs i x y Hx Hy).
Qed.

(** In a non-decreasing list the head is at most every element. *)
Lemma non_decreasing_head (a : R) (l : list R) :
  non_decreasing (a :: l) -> forall x, In x l -> le a x.
Proof.
  revert a. induction l as [| b l IH]; intros a Hs x Hx; [contradiction |].
  assert (L : le a b) by (apply (Hs 0 a b); reflexivity).
  destruct Hx as [<- | Hx]; [exact L |].
  apply le_trans with b; [exact L |].
  apply IH; [exact (non_decreasing_tail a _ Hs) | exact Hx].
Qed.

Lemma non_decreasing_head_last (a : R) (l : list R) :
  number a -> non_decreasing (a :: l) -> le a (last l a).
Proof.
  intros Na Hs. destruct l as [| b l]; [now apply le_refl |].
  apply (non_decreasing_head a (b :: l) Hs).
  clear Hs. revert b. induction l as [| c l IH]; intro b; [now left |].
  right. apply IH.
Qed.

Lemma sortedb_spec (l : list R) : sortedb l = true <-> non_decreasing l.
Proof.
  induction l as [| a [| b l] IH].
  - split; [| reflexivity]. intros _ [| i] x y Hx; discriminate.
  - split; [| reflexivity]. intros _ [| [| i]] x y Hx Hy; discriminate.
  - change (sortedb (a :: b :: l)) with (leb a b && sortedb (b :: l)).
    rewrite andb_true_iff, IH. split.
    + intros [L Hs]. now apply non_decreasing_cons.
    + intro Hs. split.
      * apply (Hs 0 a b); reflexivity.
      * exact (non_decreasing_tail a _ Hs).
Qed.

(** [np.all(np.diff(l) >= 0)] holds exactly of the non-decreasing lists,
    when the sign of a difference tells the order. *)
Lemma diff_cons (a b : R) (l : list R) :
  Np.diff (a :: b :: l) = sub b a :: Np.diff (b :: l).
Proof. reflexivity. Qed.

Lemma differences_tail (a : R) (l : list R) :
  differences_tell_order (a :: l) -> differences_tell_order l.
Proof. intros Hd i x y Hx Hy. exact (Hd (S i) x y Hx Hy). Qed.

Lemma all_diff_nonneg (l : list R) :
  differences_tell_order l ->
  (Np.all (map (fun d => geb d zero) (Np.diff l)) = true <-> non_decreasing l).
Proof.
  induction l as [| a [| b l] IH]; intro Hd.
  - split; [| reflexivity]. intros _ [| i] x y Hx; discriminate.
  - split; [| reflexivity]. intros _ [| [| i]] x y Hx Hy; discriminate.
  - rewrite diff_cons. unfold Np.all in *. cbn [map forallb].
    rewrite andb_true_iff, (IH (differences_tail a _ Hd)).
    rewrite (Hd 0 a b eq_refl eq_refl). split.
    + intros [L Hs]. now apply non_decreasing_cons.
    + intro Hs. split.
      * apply (Hs 0 a b); reflexivity.
      * exact (non_decreasing_tail a _ Hs).
Qed.

End OrderFacts.

(** On the rationals the sign of a difference always tells the order. *)
Lemma Q_differences (l : list Q) : differences_tell_order l.
Proof.
  intros i a b _ _. cbn. apply eq_true_iff_eq. rewrite !Qle_bool_iff.
  unfold Qminus. symmetry. apply Qle_minus_iff.
Qed.

(* ================================================================== *)
(** * [read] *)
(* ================================================================== *)

Section ReadFacts.

Import ClockFile.

Context {R : Type} `{Number R}.
Variable kwargs : Type.

(** C5.  [read] fails with the "not defined" error when the format name is
    not in the registry.  When the name is registered and its parser returns
    a series, [read] fails with the "out of order" error if the timestamps of
    that series are not non-decreasing, and returns that very series if they
    are.  (The timestamps are such that the sign of the difference of two
    consecutive ones tells their order, as is the case of rationals and of
    finite floats: the code tests the differences.) *)
Theorem read_dispatch_and_order
  (_formats : registry R kwargs) (fs : filesystem) (filename format : string)
  (kw : kwargs) :
  (lookup format _formats = None ->
   read _formats fs filename format kw = raise (ValueError (not_defined_msg format)))
  /\
  (forall (cls : constructor R kwargs) (w : list record) (r : ClockFile R),
     lookup format _formats = Some cls ->
     cls fs filename kw = (w, Ok r) ->
     differences_tell_order (time r) ->
     (~ non_decreasing (time r) ->
      read _formats fs filename format kw
      = (w, Raise (ValueError (out_of_order_msg filename format))))
     /\
     (non_decreasing (time r) ->
      read _formats fs filename format kw = (w, Ok r))).
Proof.
  split.
  - intro E. unfold read. now rewrite E.
  - intros cls w r E Hr Hd. unfold read. rewrite E, Hr, bind_Ok.
    pose proof (all_diff_nonneg (time r) Hd) as A.
    destruct (Np.all (map (fun d => geb d zero) (Np.diff (time r)))); cbn.
    + split.
      * intro N. contradiction N. now apply A.
      * intros _. now rewrite app_nil_r.
    + split.
      * intros _. now rewrite app_nil_r.
      * intro S. apply A in S. discriminate S.
Qed.

End ReadFacts.

(** The registry of the module holds the two parsers under their names, and
    nothing else. *)
Lemma formats_registered
  (float_of_string : string -> option float) (hdrline_re : string -> bool)
  (clkcorr_re : string -> option (string * string * string))
  (pulsar_mjd : PulsarMJD.TimeFormat float) (name : string) :
  ClockFile.lookup name (_formats float_of_string hdrline_re clkcorr_re pulsar_mjd)
  = if String.eqb name "tempo2"
    then Some (Tempo2ClockFile.__init__ float_of_string hdrline_re clkcorr_re
                 pulsar_mjd)
    else if String.eqb name "tempo"
         then Some (TempoClockFile.__init__ float_of_string pulsar_mjd)
         else None.
Proof. reflexivity. Qed.

Lemma read_dispatch_and_order_witness :
  ClockFile.read tempo_formats Examples.legacy_file "time.dat" "tempo1"
    (mkKwargs None false)
  = raise (ValueError "clock file format 'tempo1' not defined")
  /\
  ClockFile.read tempo_formats disordered_file "time.dat" "tempo"
    (mkKwargs None false)
  = raise (ValueError "Clock file time.dat in format tempo appears to be out of order")
  /\
  ClockFile.read tempo_formats Examples.legacy_file "time.dat" "tempo"
    (mkKwargs None false)
  = ret legacy_series.
Proof.
  split; [| split].
  - apply (proj1 (read_dispatch_and_order kwargs tempo_formats Examples.legacy_file
                    "time.dat" "tempo1" (mkKwargs None false))).
    reflexivity.
  - assert (Hd : differences_tell_order (ClockFile.time disordered_series)).
    { intros i a b Ha Hb. destruct i as [| i]; [| destruct i; discriminate Hb].
      injection Ha as <-. injection Hb as <-. reflexivity. }
    apply (proj1 (proj2 (read_dispatch_and_order kwargs tempo_formats disordered_file
                           "time.dat" "tempo" (mkKwargs None false))
                    (TempoClockFile.__init__ Decimal.float_of_string plain_days) []
                    disordered_series eq_refl eq_refl Hd)).
    intro S. specialize (S 0%nat 51001%float 51000%float eq_refl eq_refl).
    discriminate S.
  - assert (Hd : differences_tell_order (ClockFile.time legacy_series)).
    { intros i a b Ha Hb. destruct i; discriminate Hb. }
    apply (proj2 (proj2 (read_dispatch_and_order kwargs tempo_formats
                           Examples.legacy_file "time.dat" "tempo"
                           (mkKwargs None false))
                    (TempoClockFile.__init__ Decimal.float_of_string plain_days) []
                    legacy_series eq_refl eq_refl Hd)).
    intros i a b Ha Hb. destruct i; discriminate Hb.
Defined.

(** [read] on the floats, through the registry of the module: an unknown
    name, a file in order, and a file out of order. *)
Lemma read_examples
  (hdrline_re : string -> bool)
  (clkcorr_re : string -> option (string * string * string)) :
  let formats :=
    _formats Decimal.float_of_string hdrline_re clkcorr_re plain_days in
  let kw := mkKwargs None false in
  Py.value (ClockFile.read formats Examples.legacy_file "time.dat" "tempo1" kw)
  = Raise (ValueError "clock file format 'tempo1' not defined")
  /\
  Py.value (ClockFile.read formats Examples.legacy_file "time.dat" "tempo" kw)
  = Py.value (TempoClockFile.__init__ Decimal.float_of_string plain_days
                Examples.legacy_file "time.dat" kw)
  /\
  Py.value (ClockFile.read formats disordered_file "time.dat" "tempo" kw)
  = Raise (ValueError "Clock file time.dat in format tempo appears to be out of order").
Proof. repeat split. Qed.

(* ================================================================== *)
(** * [write_tempo_clock_file] *)
(* ================================================================== *)

Section WriteFacts.

Import ClockFile Series.

Context {R : Type} `{Number R}.
Variable format_f : nat -> nat -> R -> string.
Variable strftime_date : R -> string.

(** C9.  [write_tempo_clock_file] fails with the invalid-code error for an
    argument that is not a string, and for a string whose length is not one.
    It accepts every string of length one, printable or not: for a line feed
    or a NUL as the site code it writes the header and the samples, the
    unprintable character standing in the site column. *)
Theorem write_tempo_obscode_check (self : ClockFile R) (extra : option string) :
  (forall code : object,
     (forall c : ascii, code <> Str (String c EmptyString)) ->
     write_tempo_clock_file format_f strftime_date self code extra
     = raise (ValueError invalid_obscode_msg))
  /\
  (forall c : ascii,
     exists text : string,
       write_tempo_clock_file format_f strftime_date self
         (Str (String c EmptyString)) extra = ret text)
  /\
  (forall (c : ascii) (mjd corr : R),
     write_tempo_clock_file format_f strftime_date (one_sample mjd corr)
       (Str (String c EmptyString)) None
     = ret (tempo_standard_header
            ++ (format_f 9 2 mjd ++ format_f 12 3 zero ++ format_f 12 3 corr
                ++ " " ++ String c EmptyString ++ "    " ++ strftime_date mjd
                ++ newline))%string).
Proof.
  split; [| split].
  - intros code N. destruct code as [s | b | n |]; try reflexivity.
    destruct s as [| c [| c' s]]; try reflexivity.
    contradiction (N c). reflexivity.
  - intro c. eexists. reflexivity.
  - intros c mjd corr. reflexivity.
Qed.

End WriteFacts.

(* ================================================================== *)
(** * [evaluate] *)
(* ================================================================== *)

Section EvaluateFacts.

Import ClockFile.

Context {R : Type} `{Ordered R}.

Lemma any_map_iff {A} (f : A -> bool) (l : list A) :
  Np.any (map f l) = true <-> exists x, In x l /\ f x = true.
Proof.
  unfold Np.any. rewrite existsb_exists. split.
  - intros (b & Hb & ->). apply in_map_iff in Hb. destruct Hb as (x & E & Hx).
    now exists x.
  - intros (x & Hx & E). exists true. split; [| reflexivity].
    apply in_map_iff. now exists x.
Qed.

Lemma interp1_above (xp fp : list R) (x0 x : R) :
  lt (last xp x0) x -> Np.interp1 (x0 :: xp) fp x = last fp zero.
Proof.
  intro L. destruct (lt_number _ _ L) as [Nl Nx].
  unfold Np.interp1, Np.binary_search, gtb.
  destruct xp as [| x1 xp].
  - cbn [last] in L, Nl. unfold gtb. rewrite L.
    assert (N : ltb x x0 = false).
    { apply (not_lt_iff_le x x0 Nx Nl). now apply lt_le. }
    now rewrite N.
  - now rewrite (isnan_false x Nx), L.
Qed.

Lemma interp1_below (xp fp : list R) (x0 x : R) :
  non_decreasing (x0 :: xp) -> lt x x0 ->
  Np.interp1 (x0 :: xp) fp x = hd zero fp.
Proof.
  intros Hs L. destruct (lt_number _ _ L) as [Nx N0].
  unfold Np.interp1, Np.binary_search, gtb.
  destruct xp as [| x1 xp]; [now rewrite L |].
  rewrite (isnan_false x Nx).
  pose proof (non_decreasing_head_last x0 (x1 :: xp) N0 Hs) as Ll.
  assert (N : ltb (last (x1 :: xp) x0) x = false).
  { apply (not_lt_iff_le _ x (proj2 (le_number _ _ Ll)) Nx).
    apply le_trans with x0; [now apply lt_le | exact Ll]. }
  now rewrite N, L.
Qed.

(** What [evaluate] computes on a series that is not empty. *)
Lemma evaluate_nonempty (self : ClockFile R) (t : list R) (limits : string)
  (first : R) (others : list R) :
  _time self = first :: others ->
  List.length (value (_clock self)) = List.length (_time self) ->
  let outside := Np.any (map (fun x => ltb x first) t)
                 || Np.any (map (fun x => gtb x (last others first)) t) in
  evaluate self t limits =
  if outside && String.eqb limits "error" && negb (String.eqb limits "warn")
  then raise (RuntimeError (out_of_range_msg self))
  else (if outside && String.eqb limits "warn"
        then [Warning (out_of_range_msg self)] else [],
        Ok (map (Np.interp1 (_time self) (to_value (_clock self) u_us)) t)).
Proof.
  intros Et El outside. unfold evaluate, evaluate_in_range, time, clock.
  assert (Ei : Np.interp t (_time self) (to_value (_clock self) u_us)
               = Ok (map (Np.interp1 (_time self) (to_value (_clock self) u_us)) t)).
  { unfold Np.interp, to_value. rewrite length_map, El, Nat.eqb_refl.
    now rewrite Et. }
  rewrite Ei, Et. subst outside.
  cbn [List.length Nat.eqb getitem nth_error getlast].
  unfold lift, Py.bind, Py.ret, raise, log_warning.
  destruct (Np.any (map (fun x => ltb x first) t));
    destruct (Np.any (map (fun x => gtb x (last others first)) t));
    destruct (String.eqb limits "warn");
    destruct (String.eqb limits "error"); reflexivity.
Qed.

Lemma outside_iff (t : list R) (first final : R) :
  Np.any (map (fun x => ltb x first) t)
  || Np.any (map (fun x => gtb x final) t) = true
  <-> out_of_range t first final.
Proof.
  rewrite orb_true_iff, !any_map_iff. unfold out_of_range, lt, gtb. split.
  - intros [(x & Hx & L) | (x & Hx & L)]; exists x; auto.
  - intros (x & Hx & [L | L]); [left | right]; now exists x.
Qed.

(** C3.  On a series with no sample, [evaluate] with [limits="error"] fails
    with the no-data error and with [limits="warn"] warns and returns a zero
    for every query time, whatever the query times are: the check for an
    empty series comes first.  On a series with samples, [limits="error"]
    fails with the out-of-range error as soon as one query time lies outside
    [[times[0], times[-1]]]; [limits="warn"] returns one correction per query
    time, warning exactly when a query time is out of range, and the
    correction for a query time before the first sample is the first
    correction, that for a query time after the last sample the last
    correction. *)
Theorem evaluate_limits (self : ClockFile R) (t : list R) :
  well_formed self ->
  match _time self with
  | [] =>
      evaluate self t "error" = raise (RuntimeError (no_data_msg self))
      /\ evaluate self t "warn"
         = ([Warning (no_data_msg self)], Ok (map (fun _ => zero) t))
  | first :: others =>
      let final := last others first in
      let corrections := to_value (_clock self) u_us in
      (out_of_range t first final ->
       evaluate self t "error" = raise (RuntimeError (out_of_range_msg self)))
      /\
      exists ys : list R,
        Py.value (evaluate self t "warn") = Ok ys
        /\ (out_of_range t first final ->
            Py.logged (evaluate self t "warn") = [Warning (out_of_range_msg self)])
        /\ (~ out_of_range t first final ->
            Py.logged (evaluate self t "warn") = [])
        /\ List.length ys = List.length t
        /\ forall (i : nat) (x : R),
             nth_error t i = Some x ->
             (lt x first -> nth_error ys i = Some (hd zero corrections))
             /\ (lt final x -> nth_error ys i = Some (last corrections zero))
  end.
Proof.
  intros (_ & Hs & Hl). destruct (_time self) as [| first others] eqn:Et.
  - unfold evaluate, time. rewrite Et. split; reflexivity.
  - intros final corrections.
    pose proof (outside_iff t first final) as O. split.
    + intro Ho. rewrite (evaluate_nonempty self t "error" first others Et).
      * apply O in Ho. fold final. now rewrite Ho.
      * now rewrite Et.
    + exists (map (Np.interp1 (_time self) corrections) t).
      rewrite (evaluate_nonempty self t "warn" first others Et) by now rewrite Et.
      fold final. cbn [String.eqb Ascii.eqb Bool.eqb negb andb].
      rewrite !andb_false_r. cbn [Py.value Py.logged fst snd].
      split; [reflexivity |]. split; [| split; [| split]].
      * intro Ho. apply O in Ho. now rewrite Ho.
      * intro Hn. destruct (_ || _); [| reflexivity].
        contradiction Hn. now apply O.
      * apply length_map.
      * intros i x Hx. rewrite nth_error_map, Hx. cbn [option_map]. rewrite Et.
        split; intro L; f_equal.
        -- apply interp1_below; assumption.
        -- apply interp1_above. exact L.
Qed.

End EvaluateFacts.

(* ================================================================== *)
(** * Facts about the array functions *)
(* ================================================================== *)

Section ArrayFacts.

Context {R : Type} `{Ordered R}.

Lemma non_decreasing_nil : non_decreasing (@nil R).
Proof. intros [| i] a b Ha; discriminate Ha. Qed.

Lemma non_decreasing_one (a : R) : non_decreasing [a].
Proof. intros [| [| i]] x y Hx Hy; discriminate Hy. Qed.

Lemma non_decreasing_head_le (a b : R) (l : list R) :
  non_decreasing (a :: b :: l) -> le a b.
Proof. intro Hs. apply (Hs 0 a b); reflexivity. Qed.

(** ** [unique] *)

Lemma insert_unique_In (x y : R) (l : list R) :
  In y (Np.insert_unique x l) -> y = x \/ In y l.
Proof.
  induction l as [| z l IH]; cbn.
  - intros [<- | []]. now left.
  - destruct (ltb x z).
    + intros [<- | Hy]; [now left | now right].
    + destruct (eqb x z); [now right |].
      intros [<- | Hy]; [right; now left |].
      destruct (IH Hy) as [-> | Hl]; [now left | right; now right].
Qed.

Lemma insert_unique_keeps (x y : R) (l : list R) :
  In y l -> In y (Np.insert_unique x l).
Proof.
  induction l as [| z l IH]; [contradiction |]. cbn.
  destruct (ltb x z); [now right |].
  destruct (eqb x z); [trivial |].
  intros [<- | Hy]; [now left | right; now apply IH].
Qed.

Lemma insert_unique_has (x : R) (l : list R) :
  number x ->
  exists y : R, In y (Np.insert_unique x l) /\ eqb x y = true.
Proof.
  intro Nx. induction l as [| z l IH]; cbn.
  - exists x. split; [now left | exact Nx].
  - destruct (ltb x z).
    + exists x. split; [now left | exact Nx].
    + destruct (eqb x z) eqn:E.
      * exists z. split; [now left | exact E].
      * destruct IH as (y & Hy & Ey). exists y. split; [now right | exact Ey].
Qed.

Lemma insert_unique_sorted (x : R) (l : list R) :
  number x -> Forall number l ->
  non_decreasing l -> non_decreasing (Np.insert_unique x l).
Proof.
  intros Nx. induction l as [| z l IH]; intros Nl Hs; cbn.
  - apply non_decreasing_one.
  - inversion Nl as [| ? ? Nz Nl']; subst.
    destruct (ltb x z) eqn:L.
    + apply non_decreasing_cons; [now apply lt_le | exact Hs].
    + destruct (eqb x z); [exact Hs |].
      apply (not_lt_iff_le x z Nx Nz) in L.
      specialize (IH Nl' (non_decreasing_tail z l Hs)).
      destruct l as [| u l]; cbn in *.
      * apply non_decreasing_cons; [exact L | apply non_decreasing_one].
      * destruct (ltb x u) eqn:Lu.
        -- apply non_decreasing_cons; [exact L | exact IH].
        -- destruct (eqb x u).
           ++ exact Hs.
           ++ apply non_decreasing_cons;
                [exact (non_decreasing_head_le z u l Hs) | exact IH].
Qed.

Lemma unique_In (a : list R) (y : R) : In y (Np.unique a) -> In y a.
Proof.
  induction a as [| x a IH]; cbn; [trivial |].
  intro Hy. destruct (insert_unique_In x y _ Hy) as [-> | Hl];
    [now left | right; now apply IH].
Qed.

Lemma unique_has (a : list R) (x : R) :
  Forall number a -> In x a ->
  exists y : R, In y (Np.unique a) /\ eqb x y = true.
Proof.
  induction a as [| z a IH]; intros Na Hx; [contradiction |]. cbn.
  inversion Na as [| ? ? Nz Na']; subst.
  destruct Hx as [-> | Hx].
  - now apply insert_unique_has.
  - destruct (IH Na' Hx) as (y & Hy & Ey). exists y.
    split; [now apply insert_unique_keeps | exact Ey].
Qed.

Lemma unique_number (a : list R) :
  Forall number a -> Forall number (Np.unique a).
Proof.
  intro Na. rewrite Forall_forall in *. intros y Hy. apply Na.
  now apply unique_In.
Qed.

Lemma unique_sorted (a : list R) :
  Forall number a -> non_decreasing (Np.unique a).
Proof.
  induction a as [| x a IH]; intro Na; cbn.
  - apply non_decreasing_nil.
  - inversion Na as [| ? ? Nx Na']; subst.
    apply insert_unique_sorted; [exact Nx | now apply unique_number | now apply IH].
Qed.

(** ** [searchsorted] *)

Lemma searchsorted_left_lt (a : list R) (v : R) :
  (exists x : R, In x a /\ le v x) ->
  Np.searchsorted_left a v < List.length a.
Proof.
  induction a as [| y a IH]; intros (x & Hx & L); [contradiction |]. cbn.
  destruct (ltb y v) eqn:E; [| lia].
  destruct Hx as [-> | Hx].
  - contradiction (lt_not_le x v E).
  - assert (Np.searchsorted_left a v < List.length a) by (apply IH; now exists x).
    lia.
Qed.

Lemma searchsorted_right_lt (a : list R) (v : R) :
  (exists x : R, In x a /\ lt v x) ->
  Np.searchsorted_right a v < List.length a.
Proof.
  induction a as [| y a IH]; intros (x & Hx & L); [contradiction |]. cbn.
  destruct (leb y v) eqn:E; [| lia].
  destruct Hx as [-> | Hx].
  - contradiction (lt_not_le v x L).
  - assert (Np.searchsorted_right a v < List.length a) by (apply IH; now exists x).
    lia.
Qed.

(** On a non-decreasing array the slice between the two insertion points
    holds the elements between the two bounds, in order. *)
Lemma filter_none (f : R -> bool) (l : list R) :
  (forall x, In x l -> f x = false) -> filter f l = [].
Proof.
  induction l as [| y l IH]; intro N; cbn; [reflexivity |].
  rewrite (N y (or_introl eq_refl)). apply IH. intros x Hx. apply N. now right.
Qed.

Lemma firstn_searchsorted_right (a : list R) (b e : R) :
  non_decreasing a -> (forall x, In x a -> le b x) ->
  firstn (Np.searchsorted_right a e) a = filter (fun x => leb b x && leb x e) a.
Proof.
  induction a as [| y a IH]; intros Hs Hb; cbn; [reflexivity |].
  rewrite (Hb y (or_introl eq_refl)). cbn [andb].
  destruct (leb y e) eqn:E; cbn.
  - f_equal. apply IH; [exact (non_decreasing_tail y a Hs) |].
    intros x Hx. apply Hb. now right.
  - symmetry. apply filter_none. intros x Hx.
    apply andb_false_iff. right.
    destruct (leb x e) eqn:Ex; [| reflexivity].
    assert (L : le y e).
    { apply le_trans with x; [apply (non_decreasing_head y a Hs x Hx) | exact Ex]. }
    unfold le in L. congruence.
Qed.

Lemma slice_searchsorted (a : list R) (b e : R) :
  number b -> Forall number a -> non_decreasing a ->
  slice a (Np.searchsorted_left a b) (Np.searchsorted_right a e)
  = filter (fun x => leb b x && leb x e) a.
Proof.
  intro Nb. unfold slice. induction a as [| y a IH]; intros Na Hs; [reflexivity |].
  inversion Na as [| ? ? Ny Na']; subst.
  pose proof (non_decreasing_tail y a Hs) as Ht.
  cbn [Np.searchsorted_left Np.searchsorted_right filter].
  destruct (ltb y b) eqn:Lb.
  - assert (Nby : leb b y = false).
    { destruct (leb b y) eqn:E; [| reflexivity].
      contradiction (lt_not_le y b Lb). }
    rewrite Nby. cbn [andb].
    destruct (leb y e) eqn:Le.
    + cbn [skipn Nat.sub]. now apply IH.
    + cbn [Nat.sub firstn]. symmetry. apply filter_none. intros x Hx.
      apply andb_false_iff. right.
      destruct (leb x e) eqn:Ex; [| reflexivity].
      assert (L : le y e).
      { apply le_trans with x; [apply (non_decreasing_head y a Hs x Hx) | exact Ex]. }
      unfold le in L. congruence.
  - apply (not_lt_iff_le y b Ny Nb) in Lb. cbn [skipn]. rewrite Nat.sub_0_r.
    change (firstn (if leb y e then S (Np.searchsorted_right a e) else 0) (y :: a))
      with (firstn (Np.searchsorted_right (y :: a) e) (y :: a)).
    rewrite (firstn_searchsorted_right (y :: a) b e Hs).
    + cbn [filter]. reflexivity.
    + intros x [<- | Hx]; [exact Lb |].
      apply le_trans with y; [exact Lb | apply (non_decreasing_head y a Hs x Hx)].
Qed.

(** ** [repeat] *)

Lemma repeat_each_In (a : list R) (r : list nat) (x : R) :
  In x (Np.repeat_each a r) -> In x a.
Proof.
  unfold Np.repeat_each. revert r.
  induction a as [| y a IH]; intros [| n r]; cbn; try contradiction.
  rewrite in_app_iff. intros [Hx | Hx].
  - left. symmetry. exact (repeat_spec n y x Hx).
  - right. exact (IH r Hx).
Qed.

Lemma repeat_each_has (a : list R) (r : list nat) (x : R) :
  List.length r = List.length a -> Forall (fun n => 1 <= n) r ->
  In x a -> In x (Np.repeat_each a r).
Proof.
  unfold Np.repeat_each. revert r.
  induction a as [| y a IH]; intros [| n r] Hl Hr Hx; cbn in *;
    try contradiction; try discriminate.
  inversion Hr as [| ? ? Hn Hr']; subst.
  rewrite in_app_iff. destruct Hx as [-> | Hx].
  - left. destruct n as [| n]; [lia | now left].
  - right. apply IH; [lia | assumption | assumption].
Qed.

Lemma non_decreasing_repeat_app (y : R) (n : nat) (l : list R) :
  number y -> non_decreasing (y :: l) -> non_decreasing (repeat y n ++ y :: l).
Proof.
  intros Ny Hs. induction n as [| n IH]; cbn; [exact Hs |].
  destruct n as [| n]; cbn in *.
  - apply non_decreasing_cons; [now apply le_refl | exact Hs].
  - apply non_decreasing_cons; [now apply le_refl | exact IH].
Qed.

Lemma repeat_each_sorted (a : list R) (r : list nat) :
  Forall number a -> non_decreasing a -> non_decreasing (Np.repeat_each a r).
Proof.
  unfold Np.repeat_each. revert r.
  induction a as [| y a IH]; intros r Na Hs.
  - destruct r; apply non_decreasing_nil.
  - destruct r as [| n r]; [apply non_decreasing_nil |]. cbn.
    inversion Na as [| ? ? Ny Na']; subst.
    specialize (IH r Na' (non_decreasing_tail y a Hs)).
    assert (Hb : forall x, In x (List.concat (zip_with (fun x n => repeat x n) a r))
                           -> le y x).
    { intros x Hx. apply (non_decreasing_head y a Hs).
      exact (repeat_each_In a r x Hx). }
    destruct (List.concat (zip_with (fun x n => repeat x n) a r)) as [| z rest] eqn:E.
    + rewrite app_nil_r. induction n as [| [| n] IHn]; cbn.
      * apply non_decreasing_nil.
      * apply non_decreasing_one.
      * apply non_decreasing_cons; [now apply le_refl | exact IHn].
    + destruct n as [| n]; [exact IH |].
      replace (repeat y (S n) ++ z :: rest) with (repeat y n ++ y :: z :: rest).
      * apply non_decreasing_repeat_app; [exact Ny |].
        apply non_decreasing_cons; [| exact IH].
        apply Hb. now left.
      * change (y :: z :: rest) with ([y] ++ z :: rest).
        rewrite app_assoc. f_equal. symmetry. apply (repeat_cons n y).
Qed.

End ArrayFacts.

(* ================================================================== *)
(** * [merge] *)
(* ================================================================== *)

Section ValueFacts.

Lemma value_bind {A B} (c : M A) (k : A -> M B) (a : A) :
  Py.value c = Ok a -> Py.value (Py.bind c k) = Py.value (k a).
Proof.
  destruct c as [w [a' | e]]; cbn; intros [= ->]. now destruct (k a).
Qed.

Lemma value_bind_lift {A B} (r : result A) (k : A -> M B) (a : A) :
  r = Ok a -> Py.value (Py.bind (lift r) k) = Py.value (k a).
Proof. intros ->. apply value_bind. reflexivity. Qed.

(** A loop whose every turn returns and keeps an invariant returns, and
    the invariant holds of its result. *)
Lemma for_each_returns {A S} (P : S -> Prop) (l : list A) (body : S -> A -> M S)
  (s : S) :
  P s ->
  (forall s x, In x l -> P s -> exists s', Py.value (body s x) = Ok s' /\ P s') ->
  exists s', Py.value (for_each l body s) = Ok s' /\ P s'.
Proof.
  revert s. induction l as [| x l IH]; intros s Hs Hb.
  - exists s. now split.
  - destruct (Hb s x (or_introl eq_refl) Hs) as (s1 & E1 & P1).
    destruct (IH s1 P1) as (s' & E' & P').
    { intros s2 y Hy. apply Hb. now right. }
    exists s'. split; [| exact P'].
    cbn [for_each]. now rewrite (value_bind _ _ s1 E1).
Qed.

Lemma length_update {A} (l : list A) (i : nat) (v : A) :
  List.length (update l i v) = List.length l.
Proof.
  revert i. induction l as [| x l IH]; intros [| i]; cbn; try reflexivity.
  now rewrite IH.
Qed.

Lemma Forall_update {A} (P : A -> Prop) (l : list A) (i : nat) (v : A) :
  P v -> Forall P l -> Forall P (update l i v).
Proof.
  intros Hv. revert i. induction l as [| x l IH]; intros [| i] Hl; cbn;
    inversion Hl; subst; constructor; auto.
Qed.

Lemma take_returns {A} (a : list A) (ix : list nat) :
  Forall (fun i => i < List.length a) ix ->
  exists xs : list A,
    Np.take a ix = Ok xs /\
    forall x, In x xs -> exists i, In i ix /\ nth_error a i = Some x.
Proof.
  induction ix as [| i ix IH]; intro Hix.
  - exists []. split; [reflexivity | contradiction].
  - inversion Hix as [| ? ? Hi Hix']; subst.
    destruct (IH Hix') as (xs & E & Hxs).
    destruct (nth_error a i) as [x |] eqn:En.
    + exists (x :: xs). split.
      * cbn. unfold getitem. now rewrite En, E.
      * intros y [<- | Hy].
        -- exists i. split; [now left | exact En].
        -- destruct (Hxs y Hy) as (j & Hj & Ej). exists j. split; [now right | exact Ej].
    + apply nth_error_None in En. lia.
Qed.

Lemma put_returns {A} (a : list A) (ix : list nat) (v : list A) :
  Forall (fun i => i < List.length a) ix ->
  exists a' : list A, Np.put a ix v = Ok a' /\ List.length a' = List.length a.
Proof.
  revert a v. induction ix as [| i ix IH]; intros a v Hix.
  - exists a. split; [reflexivity | reflexivity].
  - destruct v as [| x v]; [exists a; now split |].
    inversion Hix as [| ? ? Hi Hix']; subst.
    cbn [Np.put]. unfold setitem.
    destruct (Nat.ltb_spec i (List.length a)) as [_ | F]; [| lia].
    destruct (IH (update a i x) v) as (a' & E & L).
    { now rewrite length_update. }
    exists a'. split; [exact E |]. now rewrite L, length_update.
Qed.

Lemma where_from_spec (k : nat) (z : list bool) (i : nat) :
  In i (Np.where_from k z) ->
  exists j, i = k + j /\ nth_error z j = Some true.
Proof.
  revert k. induction z as [| b z IH]; intros k Hi; [contradiction |].
  cbn in Hi. destruct b.
  - destruct Hi as [<- | Hi].
    + exists 0. split; [lia | reflexivity].
    + destruct (IH (S k) Hi) as (j & -> & Ej). exists (S j). split; [lia | exact Ej].
  - destruct (IH (S k) Hi) as (j & -> & Ej). exists (S j). split; [lia | exact Ej].
Qed.

Lemma where0_spec (z : list bool) (i : nat) :
  In i (Np.where0 z) -> nth_error z i = Some true.
Proof.
  intro Hi. destruct (where_from_spec 0 z i Hi) as (j & -> & Ej). exact Ej.
Qed.

Lemma length_zip_with {A B C} (f : A -> B -> C) (l : list A) (m : list B) :
  List.length (zip_with f l m) = Nat.min (List.length l) (List.length m).
Proof.
  revert m. induction l as [| x l IH]; intros [| y m]; cbn; try reflexivity.
  now rewrite IH.
Qed.

Lemma length_init {A} (l : list A) : List.length (Py.init l) = List.length l - 1.
Proof.
  unfold Py.init. induction l as [| x [| y l] IH]; try reflexivity.
  change (removelast (x :: y :: l)) with (x :: removelast (y :: l)).
  cbn [List.length] in *. rewrite IH. lia.
Qed.

Lemma length_rest {A} (l : list A) : List.length (rest l) = List.length l - 1.
Proof. destruct l; cbn; lia. Qed.

(** The two masks of the run ends have the length of [z], and are true only
    where [z] is. *)
Lemma length_left_ends (z : list bool) :
  List.length (ClockFile.left_ends z) = List.length z.
Proof.
  destruct z as [| b z]; [reflexivity |]. unfold ClockFile.left_ends.
  cbn [List.length]. rewrite length_zip_with, length_rest, length_init.
  cbn [List.length]. lia.
Qed.

Lemma last_cons_default {A} (x : A) (l : list A) (d d' : A) :
  last (x :: l) d = last (x :: l) d'.
Proof.
  revert x. induction l as [| y l IH]; intro x; [reflexivity |].
  change (last (x :: y :: l) d) with (last (y :: l) d).
  change (last (x :: y :: l) d') with (last (y :: l) d').
  apply IH.
Qed.

Lemma right_ends_cons (b c : bool) (z : list bool) :
  ClockFile.right_ends (b :: c :: z)
  = (b && negb c) :: ClockFile.right_ends (c :: z).
Proof.
  unfold ClockFile.right_ends, Py.init, rest.
  change (removelast (b :: c :: z)) with (b :: removelast (c :: z)).
  cbn [tl zip_with app]. do 2 f_equal.
  change (last (b :: c :: z) b) with (last (c :: z) b).
  f_equal. apply last_cons_default.
Qed.

Lemma right_ends_true (z : list bool) (i : nat) :
  nth_error (ClockFile.right_ends z) i = Some true -> nth_error z i = Some true.
Proof.
  revert i. induction z as [| b [| c z] IH]; intros i Hi.
  - destruct i; discriminate Hi.
  - exact Hi.
  - rewrite right_ends_cons in Hi. destruct i as [| i]; cbn in Hi |- *.
    + injection Hi as Hi. apply andb_true_iff in Hi. now destruct Hi as [-> _].
    + exact (IH i Hi).
Qed.

End ValueFacts.

Section MergeFacts.

Import ClockFile.

Context {R : Type} `{Ordered R}.
Variable pulsar_mjd : PulsarMJD.TimeFormat R.

Lemma equal_next_cons (a b : R) (l : list R) :
  equal_next (a :: b :: l) = eqb (sub b a) zero :: equal_next (b :: l).
Proof. reflexivity. Qed.

Lemma length_equal_next (l : list R) :
  List.length (equal_next l) = List.length l - 1.
Proof.
  unfold equal_next, Np.diff.
  rewrite length_map, length_zip_with, length_rest, length_init. lia.
Qed.

Lemma discontinuities_cons (a b : R) (l : list R) :
  discontinuities (a :: b :: l)
  = if eqb (sub b a) zero then a :: discontinuities (b :: l)
    else discontinuities (b :: l).
Proof. reflexivity. Qed.

(** A repeated MJD is an MJD of the clock. *)
Lemma discontinuities_In (l : list R) (t : R) :
  In t (discontinuities l) -> In t l.
Proof.
  induction l as [| a [| b l] IH]; try contradiction.
  rewrite discontinuities_cons. destruct (eqb (sub b a) zero).
  - intros [<- | Ht]; [now left | right; now apply IH].
  - intro Ht. right. now apply IH.
Qed.

(** The MJD at an index where the next MJD is equal is a repeated MJD. *)
Lemma equal_next_discontinuity (l : list R) (i : nat) (t : R) :
  nth_error (equal_next l) i = Some true -> nth_error l i = Some t ->
  In t (discontinuities l).
Proof.
  revert i. induction l as [| a [| b l] IH]; intros i Hz Ht.
  - destruct i; discriminate Ht.
  - destruct i; discriminate Hz.
  - rewrite equal_next_cons in Hz. rewrite discontinuities_cons.
    destruct i as [| i]; cbn in Hz, Ht.
    + injection Hz as ->. injection Ht as ->. now left.
    + specialize (IH i Hz Ht). destruct (eqb (sub b a) zero); [now right | exact IH].
Qed.

Lemma evaluate_warn_returns (c : ClockFile R) (t : list R) :
  List.length (value (_clock c)) = List.length (_time c) ->
  exists ys : list R,
    Py.value (evaluate c t "warn") = Ok ys /\ List.length ys = List.length t.
Proof.
  intro Hl. destruct (_time c) as [| first others] eqn:Et.
  - exists (map (fun _ => zero) t). split; [| apply length_map].
    unfold evaluate, time. now rewrite Et.
  - exists (map (Np.interp1 (_time c) (to_value (_clock c) u_us)) t).
    split; [| apply length_map].
    rewrite (evaluate_nonempty c t "warn" first others Et) by now rewrite Et.
    cbn [String.eqb Ascii.eqb Bool.eqb negb andb]. now rewrite !andb_false_r.
Qed.

Lemma in_times (clocks : list (ClockFile R)) (x : R) :
  In x (List.concat (map _time clocks))
  <-> exists c, In c clocks /\ In x (_time c).
Proof.
  rewrite in_concat. split.
  - intros (l & Hl & Hx). apply in_map_iff in Hl. destruct Hl as (c & <- & Hc).
    now exists c.
  - intros (c & Hc & Hx). exists (_time c). split; [| exact Hx].
    apply in_map_iff. now exists c.
Qed.

(** The breakpoints of the merged file are non-decreasing and are, up to
    equality of numbers, the MJDs of the clocks. *)
Lemma merged_mjds_returns (clocks : list (ClockFile R)) :
  clocks <> [] ->
  (forall c, In c clocks -> Forall number (_time c)) ->
  exists mjds : list R,
    Py.value (merged_mjds clocks) = Ok mjds
    /\ non_decreasing mjds
    /\ (forall x, In x mjds -> exists c, In c clocks /\ In x (_time c))
    /\ (forall c t, In c clocks -> In t (_time c) ->
        exists y, In y mjds /\ eqb t y = true).
Proof.
  intros Hne Hnum. unfold merged_mjds.
  destruct clocks as [| c0 clocks0] eqn:Ec; [contradiction |]. rewrite <- Ec in *.
  assert (Nall : Forall number (List.concat (map _time clocks))).
  { apply Forall_forall. intros x Hx. apply in_times in Hx.
    destruct Hx as (c & Hc & Hx). specialize (Hnum c Hc).
    rewrite Forall_forall in Hnum. now apply Hnum. }
  set (u := Np.unique (List.concat (map _time clocks))).
  destruct (for_each_returns
              (fun r => List.length r = List.length u /\ Forall (fun n => 1 <= n) r)
              (flat_map (fun c => discontinuities (_time c)) clocks)
              (fun r m => lift (setitem r (Np.searchsorted_left u m) 2))
              (Np.ones (List.length u))) as (r & Er & Lr & Fr).
  - split.
    + apply repeat_length.
    + unfold Np.ones. clear. induction (List.length u); cbn; constructor; auto.
  - intros r m Hm [Lr Fr]. apply in_flat_map in Hm. destruct Hm as (c & Hc & Hm).
    apply discontinuities_In in Hm.
    destruct (unique_has (List.concat (map _time clocks)) m Nall) as (y & Hy & Ey).
    { apply in_times. now exists c. }
    exists (update r (Np.searchsorted_left u m) 2). split.
    + unfold lift, setitem. cbn [Py.value snd]. rewrite Lr.
      assert (L : Np.searchsorted_left u m < List.length u).
      { apply searchsorted_left_lt. exists y. split; [exact Hy |].
        now apply eqb_iff in Ey. }
      apply Nat.ltb_lt in L. now rewrite L.
    + split; [now rewrite length_update | apply Forall_update; auto].
  - exists (Np.repeat_each u r). split; [| split; [| split]].
    + now rewrite (value_bind _ _ r Er).
    + apply repeat_each_sorted; [now apply unique_number | now apply unique_sorted].
    + intros x Hx. apply in_times. apply unique_In. exact (repeat_each_In u r x Hx).
    + intros c t Hc Ht.
      destruct (unique_has (List.concat (map _time clocks)) t Nall) as (y & Hy & Ey).
      { apply in_times. now exists c. }
      exists y. split; [| exact Ey]. now apply repeat_each_has.
Qed.

(** The contribution of one clock is computed when the breakpoints reach
    every MJD of the clock and go beyond every repeated one. *)
Lemma contribution_returns (mjds : list R) (c : ClockFile R) :
  List.length (value (_clock c)) = List.length (_time c) ->
  (forall t, In t (_time c) -> exists y, In y mjds /\ le t y) ->
  (forall t, In t (discontinuities (_time c)) -> exists y, In y mjds /\ lt t y) ->
  exists ys : list R,
    Py.value (contribution mjds mjds c) = Ok ys
    /\ List.length ys = List.length mjds.
Proof.
  intros Hl Hcover Hlater. unfold contribution.
  set (z := equal_next (_time c)).
  assert (Lz : List.length z = List.length (_time c) - 1)
    by apply length_equal_next.
  assert (Lv : List.length (to_value (_clock c) u_us) = List.length (_time c)).
  { unfold to_value. now rewrite length_map. }
  destruct (evaluate_warn_returns c mjds Hl) as (ys & Ey & Ly).
  rewrite (value_bind _ _ ys Ey).
  (* the left ends *)
  assert (Il : Forall (fun i => i < List.length (_time c)) (Np.where0 (left_ends z))).
  { apply Forall_forall. intros i Hi. apply where0_spec in Hi.
    assert (i < List.length (left_ends z)) by (apply nth_error_Some; congruence).
    rewrite length_left_ends in *. lia. }
  destruct (take_returns (_time c) _ Il) as (tl & Etl & Htl).
  rewrite (value_bind_lift _ _ tl Etl).
  destruct (take_returns (to_value (_clock c) u_us) (Np.where0 (left_ends z)))
    as (vl & Evl & _).
  { now rewrite Lv. }
  rewrite (value_bind_lift _ _ vl Evl).
  destruct (put_returns ys (map (Np.searchsorted_left mjds) tl) vl) as (ys1 & E1 & L1).
  { apply Forall_forall. intros i Hi. apply in_map_iff in Hi.
    destruct Hi as (t & <- & Ht). rewrite Ly. apply searchsorted_left_lt.
    destruct (Htl t Ht) as (j & _ & Ej). apply Hcover. exact (nth_error_In _ _ Ej). }
  rewrite (value_bind_lift _ _ ys1 E1).
  (* the right ends *)
  assert (Ir : forall i, In i (Np.where0 (right_ends z)) ->
                         nth_error z i = Some true /\ S i < List.length (_time c)).
  { intros i Hi. apply where0_spec, right_ends_true in Hi. split; [exact Hi |].
    assert (i < List.length z) by (apply nth_error_Some; congruence). lia. }
  destruct (take_returns (_time c) (Np.where0 (right_ends z))) as (tr & Etr & Htr).
  { apply Forall_forall. intros i Hi. destruct (Ir i Hi). lia. }
  rewrite (value_bind_lift _ _ tr Etr).
  destruct (take_returns (to_value (_clock c) u_us) (map S (Np.where0 (right_ends z))))
    as (vr & Evr & _).
  { apply Forall_forall. intros i Hi. apply in_map_iff in Hi.
    destruct Hi as (j & <- & Hj). rewrite Lv. now destruct (Ir j Hj). }
  rewrite (value_bind_lift _ _ vr Evr).
  destruct (put_returns ys1 (map (Np.searchsorted_right mjds) tr) vr) as (ys2 & E2 & L2).
  { apply Forall_forall. intros i Hi. apply in_map_iff in Hi.
    destruct Hi as (t & <- & Ht). rewrite L1, Ly. apply searchsorted_right_lt.
    destruct (Htr t Ht) as (j & Hj & Ej). apply Hlater.
    destruct (Ir j Hj) as [Hz _]. exact (equal_next_discontinuity _ j t Hz Ej). }
  exists ys2. split; [exact E2 | congruence].
Qed.

(** [max] and [min] of a list of numbers that is not empty. *)
Lemma fold_max (l : list R) (m : R) :
  number m -> Forall number l ->
  let b := fold_left (fun m y => if gtb y m then y else m) l m in
  In b (m :: l) /\ le m b /\ forall y, In y l -> le y b.
Proof.
  revert m. induction l as [| y l IH]; intros m Nm Nl; cbn.
  - split; [now left |]. split; [now apply le_refl | contradiction].
  - inversion Nl as [| ? ? Ny Nl']; subst.
    assert (Lmy : number (if gtb y m then y else m)
                  /\ le m (if gtb y m then y else m)
                  /\ le y (if gtb y m then y else m)).
    { unfold gtb. destruct (ltb m y) eqn:E.
      - split; [exact Ny |]. split; [now apply lt_le | now apply le_refl].
      - split; [exact Nm |]. split; [now apply le_refl |].
        now apply (not_lt_iff_le m y Nm Ny). }
    destruct Lmy as (N' & Lm' & Ly').
    destruct (IH (if gtb y m then y else m) N' Nl') as (Hb & Lm & Ll).
    set (b := fold_left _ l _) in *.
    split; [| split].
    + destruct Hb as [Hb | Hb]; [| right; now right].
      rewrite <- Hb. destruct (gtb y m); [right; now left | now left].
    + now apply le_trans with (if gtb y m then y else m).
    + intros x [-> | Hx]; [| now apply Ll].
      now apply le_trans with (if gtb x m then x else m).
Qed.

Lemma fold_min (l : list R) (m : R) :
  number m -> Forall number l ->
  let e := fold_left (fun m y => if ltb y m then y else m) l m in
  In e (m :: l) /\ le e m /\ forall y, In y l -> le e y.
Proof.
  revert m. induction l as [| y l IH]; intros m Nm Nl; cbn.
  - split; [now left |]. split; [now apply le_refl | contradiction].
  - inversion Nl as [| ? ? Ny Nl']; subst.
    assert (Lmy : number (if ltb y m then y else m)
                  /\ le (if ltb y m then y else m) m
                  /\ le (if ltb y m then y else m) y).
    { destruct (ltb y m) eqn:E.
      - split; [exact Ny |]. split; [now apply lt_le | now apply le_refl].
      - split; [exact Nm |]. split; [now apply le_refl |].
        now apply (not_lt_iff_le y m Ny Nm). }
    destruct Lmy as (N' & Lm' & Ly').
    destruct (IH (if ltb y m then y else m) N' Nl') as (He & Lm & Ll).
    set (e := fold_left _ l _) in *.
    split; [| split].
    + destruct He as [He | He]; [| right; now right].
      rewrite <- He. destruct (ltb y m); [right; now left | now left].
    + now apply le_trans with (if ltb y m then y else m).
    + intros x [-> | Hx]; [| now apply Ll].
      now apply le_trans with (if ltb x m then x else m).
Qed.

Lemma py_max_spec (l : list R) :
  l <> [] -> Forall number l ->
  exists b, py_max l = Ok b /\ In b l /\ forall y, In y l -> le y b.
Proof.
  destruct l as [| x l]; [contradiction |]. intros _ Nl.
  inversion Nl as [| ? ? Nx Nl']; subst.
  destruct (fold_max l x Nx Nl') as (Hb & Lx & Ll).
  eexists. split; [reflexivity |]. split; [exact Hb |].
  intros y [<- | Hy]; [exact Lx | now apply Ll].
Qed.

Lemma py_min_spec (l : list R) :
  l <> [] -> Forall number l ->
  exists e, py_min l = Ok e /\ In e l /\ forall y, In y l -> le e y.
Proof.
  destruct l as [| x l]; [contradiction |]. intros _ Nl.
  inversion Nl as [| ? ? Nx Nl']; subst.
  destruct (fold_min l x Nx Nl') as (He & Lx & Ll).
  eexists. split; [reflexivity |]. split; [exact He |].
  intros y [<- | Hy]; [exact Lx | now apply Ll].
Qed.

Lemma comprehension_returns {A B} (f : A -> result B) (g : A -> B) (l : list A) :
  (forall x, In x l -> f x = Ok (g x)) -> comprehension f l = Ok (map g l).
Proof.
  induction l as [| x l IH]; intro Hf; [reflexivity |]. cbn.
  rewrite (Hf x (or_introl eq_refl)), IH; [reflexivity |].
  intros y Hy. apply Hf. now right.
Qed.

Lemma getitem_head (l : list R) : l <> [] -> getitem l 0 = Ok (hd zero l).
Proof. destruct l; [contradiction | reflexivity]. Qed.

Lemma getlast_last (l : list R) : l <> [] -> getlast l = Ok (last l zero).
Proof.
  destruct l as [| x l]; [contradiction |]. intros _. unfold getlast. f_equal.
  destruct l as [| y l]; [reflexivity |].
  change (last (x :: y :: l) zero) with (last (y :: l) zero).
  apply last_cons_default.
Qed.

Lemma hd_In (l : list R) : l <> [] -> In (hd zero l) l.
Proof. destruct l; [contradiction | now left]. Qed.

Lemma last_In (l : list R) : l <> [] -> In (last l zero) l.
Proof.
  induction l as [| x [| y l] IH]; [contradiction | now left |].
  intros _. right. apply IH. discriminate.
Qed.

Lemma length_slice {A} (l : list A) (a b : nat) :
  List.length (slice l a b) = Nat.min (b - a) (List.length l - a).
Proof. unfold slice. now rewrite length_firstn, length_skipn. Qed.

Lemma Constructed_returns (mjd : list R) (q : Quantity R) (name : option string) :
  List.length mjd = List.length (value q) ->
  Forall (unchanged pulsar_mjd) mjd ->
  exists r : ClockFile R,
    Py.value (ConstructedClockFile pulsar_mjd mjd q name) = Ok r /\ time r = mjd.
Proof.
  intros Hl Hu. unfold ConstructedClockFile.
  rewrite Hl, Nat.eqb_refl, (Time_mjd_unchanged pulsar_mjd mjd Hu). cbn.
  eexists. split; reflexivity.
Qed.

(** A slice of an array holds entries of the array. *)
Lemma Forall_slice {A} (P : A -> Prop) (l : list A) (a b : nat) :
  Forall P l -> Forall P (slice l a b).
Proof.
  intro F. unfold slice. apply Forall_forall. intros x Hx.
  rewrite Forall_forall in F. apply F.
  rewrite <- (firstn_skipn a l). apply in_or_app. right.
  rewrite <- (firstn_skipn (b - a) (skipn a l)). apply in_or_app. now left.
Qed.

(** The part of [merge] before the trimming. *)
Lemma well_formed_numbers (clocks : list (ClockFile R)) :
  Forall well_formed clocks ->
  forall c, In c clocks -> Forall number (_time c).
Proof.
  intros Hwf c Hc. rewrite Forall_forall in Hwf. now destruct (Hwf c Hc).
Qed.

Lemma merge_sums_return (clocks : list (ClockFile R)) :
  clocks <> [] -> Forall well_formed clocks -> jumps_not_last clocks ->
  exists (mjds corr : list R),
    Py.value (merged_mjds clocks) = Ok mjds
    /\ non_decreasing mjds
    /\ (forall x, In x mjds -> exists c, In c clocks /\ In x (_time c))
    /\ (forall c t, In c clocks -> In t (_time c) ->
        exists y, In y mjds /\ eqb t y = true)
    /\ Py.value (for_each clocks
                   (fun corr c => this_corr <- contribution mjds mjds c ;;
                                  ret (accumulate corr this_corr))
                   (Np.zeros (List.length mjds))) = Ok corr
    /\ List.length corr = List.length mjds.
Proof.
  intros Hne Hwf Hj.
  destruct (merged_mjds_returns clocks Hne (well_formed_numbers clocks Hwf))
    as (mjds & Em & Hs & Hin & Hcover).
  destruct (for_each_returns (fun corr => List.length corr = List.length mjds)
              clocks
              (fun corr c => this_corr <- contribution mjds mjds c ;;
                             ret (accumulate corr this_corr))
              (Np.zeros (List.length mjds))) as (corr & Ec & Lc).
  - apply repeat_length.
  - intros corr c Hc Lc.
    destruct (contribution_returns mjds c) as (ys & Ey & Ly).
    + rewrite Forall_forall in Hwf. now destruct (Hwf c Hc) as (_ & _ & Hl).
    + intros t Ht. destruct (Hcover c t Hc Ht) as (y & Hy & E).
      exists y. split; [exact Hy |]. now apply eqb_iff in E.
    + intros t Ht. destruct (Hj c t Hc Ht) as (c' & t' & Hc' & Ht' & L).
      destruct (Hcover c' t' Hc' Ht') as (y & Hy & E).
      exists y. split; [exact Hy |]. apply lt_le_trans with t'; [exact L |].
      now apply eqb_iff in E.
    + exists (accumulate corr ys). split.
      * now rewrite (value_bind _ _ ys Ey).
      * unfold accumulate. rewrite length_zip_with, length_map. lia.
  - exists mjds, corr. repeat split; assumption.
Qed.

(** C4, as the code has it.  Take a list of clocks that is not empty, whose
    members satisfy the invariants, in which every repeated MJD is followed
    by a later MJD of some clock, and whose MJDs the conversion of [Time]
    leaves unchanged.  Then [merge] with [trim=False]
    returns a series whose breakpoints are non-decreasing and are the MJDs of
    the clocks: every MJD of every clock is among them, and each of them is
    an MJD of some clock.  If moreover every clock has a sample, [merge] with
    [trim=True] returns the series whose breakpoints are those between [b],
    the largest first MJD, and [e], the smallest last MJD, both bounds
    included and in the same order; when [b <= e] both bounds are among
    them. *)
Theorem merge_trim_domain (clocks : list (ClockFile R)) :
  clocks <> [] ->
  Forall well_formed clocks ->
  jumps_not_last clocks ->
  Forall (unchanged pulsar_mjd) (List.concat (map _time clocks)) ->
  exists untrimmed : ClockFile R,
    Py.value (merge pulsar_mjd clocks false) = Ok untrimmed
    /\ non_decreasing (time untrimmed)
    /\ (forall c t, In c clocks -> In t (_time c) ->
        exists t', In t' (time untrimmed) /\ eqb t t' = true)
    /\ (forall t', In t' (time untrimmed) ->
        exists c, In c clocks /\ In t' (_time c))
    /\ (Forall (fun c => _time c <> []) clocks ->
        exists (trimmed : ClockFile R) (b e : R),
          Py.value (merge pulsar_mjd clocks true) = Ok trimmed
          /\ In b (map (fun c => hd zero (_time c)) clocks)
          /\ (forall c, In c clocks -> le (hd zero (_time c)) b)
          /\ In e (map (fun c => last (_time c) zero) clocks)
          /\ (forall c, In c clocks -> le e (last (_time c) zero))
          /\ time trimmed
             = filter (fun t => leb b t && leb t e) (time untrimmed)
          /\ (le b e ->
              exists tb te : R,
                In tb (time trimmed) /\ eqb b tb = true /\
                In te (time trimmed) /\ eqb e te = true)).
Proof.
  intros Hne Hwf Hj Hu.
  destruct (merge_sums_return clocks Hne Hwf Hj)
    as (mjds & corr & Em & Hs & Hin & Hcover & Ec & Lc).
  assert (Um : Forall (unchanged pulsar_mjd) mjds).
  { apply Forall_forall. intros x Hx. rewrite Forall_forall in Hu. apply Hu.
    apply in_times. exact (Hin x Hx). }
  pose proof (Time_mjd_unchanged pulsar_mjd mjds Um) as Tm.
  destruct (Constructed_returns mjds (mkQuantity corr u_s)
              (Some ("Merged from " ++ repr_list (map filename clocks))%string))
    as (r & Er & Tr); [symmetry; exact Lc | exact Um |].
  exists r. split; [| split; [| split; [| split]]].
  - unfold merge.
    rewrite (value_bind _ _ mjds Em), (value_bind_lift _ _ mjds Tm),
      (value_bind _ _ corr Ec).
    now rewrite bind_ret_l.
  - now rewrite Tr.
  - rewrite Tr. exact Hcover.
  - rewrite Tr. exact Hin.
  - intro Hsome. rewrite Forall_forall in Hsome.
    pose proof (well_formed_numbers clocks Hwf) as Hnum.
    assert (Nin : forall c x, In c clocks -> In x (_time c) -> number x).
    { intros c x Hc Hx. specialize (Hnum c Hc). rewrite Forall_forall in Hnum.
      now apply Hnum. }
    destruct (py_max_spec (map (fun c => hd zero (_time c)) clocks))
      as (b & Eb & Hb & Lb).
    { destruct clocks; [contradiction | discriminate]. }
    { apply Forall_forall. intros x Hx. apply in_map_iff in Hx.
      destruct Hx as (c & <- & Hc). apply (Nin c _ Hc). apply hd_In. auto. }
    destruct (py_min_spec (map (fun c => last (_time c) zero) clocks))
      as (e & Ee & He & Le).
    { destruct clocks; [contradiction | discriminate]. }
    { apply Forall_forall. intros x Hx. apply in_map_iff in Hx.
      destruct Hx as (c & <- & Hc). apply (Nin c _ Hc). apply last_In. auto. }
    assert (Nb : number b).
    { apply in_map_iff in Hb. destruct Hb as (c & <- & Hc).
      apply (Nin c _ Hc). apply hd_In. auto. }
    assert (Nm : Forall number mjds).
    { apply Forall_forall. intros x Hx. destruct (Hin x Hx) as (c & Hc & Hxc).
      exact (Nin c x Hc Hxc). }
    set (il := Np.searchsorted_left mjds b).
    set (ir := Np.searchsorted_right mjds e).
    destruct (Constructed_returns (slice mjds il ir)
                (mkQuantity (slice corr il ir) u_s)
                (Some ("Merged from " ++ repr_list (map filename clocks))%string))
      as (r' & Er' & Tr').
    { change (List.length (slice mjds il ir) = List.length (slice corr il ir)).
      now rewrite !length_slice, Lc. }
    { now apply Forall_slice. }
    assert (Ef : time r' = filter (fun t => leb b t && leb t e) (time r)).
    { rewrite Tr', Tr. now apply slice_searchsorted. }
    exists r', b, e. split; [| split; [| split; [| split; [| split; [| split]]]]].
    + unfold merge.
      rewrite (value_bind _ _ mjds Em), (value_bind_lift _ _ mjds Tm),
        (value_bind _ _ corr Ec).
      cbv iota. rewrite !bind_assoc.
      rewrite (value_bind_lift _ _ (map (fun c => hd zero (_time c)) clocks)).
      * rewrite !bind_assoc, (value_bind_lift _ _ b Eb), !bind_assoc.
        rewrite (value_bind_lift _ _ (map (fun c => last (_time c) zero) clocks)).
        -- rewrite !bind_assoc, (value_bind_lift _ _ e Ee). now rewrite bind_ret_l.
        -- apply comprehension_returns. intros c Hc. apply getlast_last. auto.
      * apply comprehension_returns. intros c Hc. apply getitem_head. auto.
    + exact Hb.
    + intros c Hc. apply Lb. apply in_map_iff. now exists c.
    + exact He.
    + intros c Hc. apply Le. apply in_map_iff. now exists c.
    + exact Ef.
    + intro Lbe.
      apply in_map_iff in Hb. destruct Hb as (cb & <- & Hcb).
      apply in_map_iff in He. destruct He as (ce & <- & Hce).
      destruct (Hcover cb (hd zero (_time cb)) Hcb (hd_In _ (Hsome cb Hcb)))
        as (tb & Htb & Etb).
      destruct (Hcover ce (last (_time ce) zero) Hce (last_In _ (Hsome ce Hce)))
        as (te & Hte & Ete).
      exists tb, te. rewrite Ef, Tr, !filter_In.
      apply eqb_iff in Etb as Etb'. apply eqb_iff in Ete as Ete'.
      destruct Etb' as [B1 B2]. destruct Ete' as [E1 E2].
      repeat split; try assumption; apply andb_true_iff; split.
      * exact B1.
      * exact (le_trans _ _ _ B2 Lbe).
      * exact (le_trans _ _ _ Lbe E1).
      * exact E2.
Qed.

End MergeFacts.

(* ================================================================== *)
(** * [evaluate] and [merge] on example series *)
(* ================================================================== *)

Section SeriesFacts.

Import ClockFile Series.

(** The invariants of a series can be tested. *)
Lemma well_formed_series {R : Type} `{Ordered R}
  (name : string) (mjd corr : list R) :
  forallb (fun x => eqb x x) mjd = true ->
  sortedb mjd = true ->
  List.length corr = List.length mjd ->
  well_formed (series name mjd corr).
Proof.
  intros Hn Hs Hl. split; [| split; [| exact Hl]].
  - apply Forall_forall. intros x Hx. rewrite forallb_forall in Hn.
    exact (Hn x Hx).
  - apply sortedb_spec. exact Hs.
Qed.

Lemma evaluate_limits_witness :
  (evaluate empty64 [0.5; 5]%float "error"
   = raise (RuntimeError "No data points in clock file 'empty'")
   /\ evaluate empty64 [0.5; 5]%float "warn"
      = ([Warning "No data points in clock file 'empty'"], Ok [0; 0]%float))
  /\
  (evaluate A64 [0.5; 2.5; 5]%float "error"
   = raise (RuntimeError "Data points out of range in clock file 'A'")
   /\ exists ys : list float,
        Py.value (evaluate A64 [0.5; 2.5; 5]%float "warn") = Ok ys
        /\ nth_error ys 0 = Some 10%float /\ nth_error ys 2 = Some 40%float).
Proof.
  split.
  - apply (evaluate_limits (H0:=float_Ordered) empty64 [0.5; 5]%float).
    apply (well_formed_series (H0:=float_Ordered)); reflexivity.
  - destruct (evaluate_limits (H0:=float_Ordered) A64 [0.5; 2.5; 5]%float)
      as (He & ys & Ey & _ & _ & _ & Hc).
    { apply (well_formed_series (H0:=float_Ordered)); reflexivity. }
    split.
    + apply He. exists 0.5%float. split; [now left | now left].
    + exists ys. split; [exact Ey |]. split.
      * apply (Hc 0%nat 0.5%float eq_refl). reflexivity.
      * apply (Hc 2%nat 5%float eq_refl). reflexivity.
Defined.

(** [evaluate] on the floats. *)
Lemma evaluate_examples :
  evaluate A64 [0.5; 1; 1.5; 2; 2.5; 3; 4]%float "warn"
  = ([Warning "Data points out of range in clock file 'A'"],
     Ok [10; 10; 15; 30; 35; 40; 40]%float)
  /\ evaluate A64 [0.5; 1]%float "error"
     = raise (RuntimeError "Data points out of range in clock file 'A'")
  /\ evaluate empty64 [0.5; 1]%float "error"
     = raise (RuntimeError "No data points in clock file 'empty'")
  /\ evaluate empty64 [0.5; 1]%float "warn"
     = ([Warning "No data points in clock file 'empty'"], Ok [0; 0]%float).
Proof. repeat split. Qed.

(** [merge] with [trim=True] raises on a series without samples, which is a
    valid series, and [merge] raises on an empty list. *)
Lemma merge_trim_raises_on_empty_series :
  Py.value (merge plain_days [empty64; A64] true)
  = Raise (IndexError "index out of range")
  /\ Py.value (merge plain_days [empty; A] true)
     = Raise (IndexError "index out of range")
  /\ well_formed empty64
  /\ well_formed A64
  /\ Py.value (merge plain_days (@nil (ClockFile float)) true)
     = Raise (ValueError "need at least one array to concatenate").
Proof.
  split; [reflexivity |]. split; [reflexivity |].
  split; [| split; [| reflexivity]];
    apply (well_formed_series (H0:=float_Ordered)); reflexivity.
Qed.

(** Two continuous series on different ranges: the merged corrections are
    the sums of the interpolated inputs at every breakpoint, the ends of the
    narrower series being held constant outside its range. *)
Lemma merge_continuous_example :
  reduced (samples (merge plain_days [B; C] false))
  = Some ([0; 1; 5 # 2; 3; 4]%Q, [11; 57 # 5; 15; 49 # 3; 17]%Q)
  /\ reduced (samples (merge plain_days [B; C] true))
     = Some ([1; 5 # 2; 3]%Q, [57 # 5; 15; 49 # 3]%Q)
  /\ reduced (samples (merge plain_days [C] false)) = reduced (samples (Py.ret C)).
Proof. repeat split. Qed.

Lemma merge_trim_domain_witness :
  exists untrimmed : ClockFile float,
    Py.value (merge plain_days [A64; B64] false) = Ok untrimmed
    /\ non_decreasing (time untrimmed)
    /\ exists (trimmed : ClockFile float) (b e : float),
         Py.value (merge plain_days [A64; B64] true) = Ok trimmed
         /\ time trimmed
            = filter (fun t => leb b t && leb t e) (time untrimmed).
Proof.
  destruct (merge_trim_domain (H0:=float_Ordered) plain_days [A64; B64])
    as (untrimmed & Eu & Hs & _ & _ & Ht).
  - discriminate.
  - repeat constructor;
      apply (well_formed_series (H0:=float_Ordered)); reflexivity.
  - intros c t [<- | [<- | []]] Ht.
    + vm_compute in Ht. destruct Ht as [<- | []].
      exists A64, 3%float. split; [now left |]. split; [cbn; tauto | reflexivity].
    + vm_compute in Ht. contradiction.
  - repeat constructor.
  - exists untrimmed. split; [exact Eu |]. split; [exact Hs |].
    destruct Ht as (trimmed & b & e & Et & _ & _ & _ & _ & Ef & _).
    + repeat constructor; discriminate.
    + now exists trimmed, b, e.
Defined.

(** The breakpoints of the two results on the floats. *)
Lemma merge_trim_example :
  option_map fst (samples (merge plain_days [A64; B64] false))
  = Some [0; 1; 2; 2; 2.5; 3; 4]%float
  /\ option_map fst (samples (merge plain_days [A64; B64] true))
     = Some [1; 2; 2; 2.5; 3]%float.
Proof. split; reflexivity. Qed.

(** C2 fails on the code.  [merge([A])] without trimming, for the series
    [A] with samples (1, 10), (2, 20), (2, 30), (3, 40): the merged series
    has the breakpoints of [A] but the corrections 10, 20, 30, 30.  The
    sample at MJD 3 is 30 and not 40: the right-hand value of the jump at
    MJD 2 has been written one position too far. *)
Theorem merge_single_differs :
  reduced (samples (merge plain_days [A] false))
  = Some ([1; 2; 2; 3]%Q, [10; 20; 30; 30]%Q)
  /\ samples (Py.ret A) = Some ([1; 2; 2; 3]%Q, [10; 20; 30; 40]%Q)
  /\ match samples (merge plain_days [A64] false) with
     | Some (t, c) =>
         t = [1; 2; 2; 3]%float
         /\ PrimFloat.ltb (nth 3 c 0%float) 31 = true
         /\ nth 3 (value (_clock A64)) 0%float = 40%float
     | None => False
     end.
Proof. repeat split. Qed.

(** C1 fails on the code.  [merge([J, K])] for [J] with samples (1, 0),
    (1, 5), (2, 7) and [K] with samples (1, 0), (2, 0), (2, 100), (3, 100):
    the merged series has the samples (1, 0), (1, 5), (2, 5), (2, 107).  At
    MJD 3/2, strictly between two breakpoints, it evaluates to 5 while [J]
    and [K] evaluate to 6 and 0; at MJD 2, where only [K] jumps, by 100, its
    two values differ by 102. *)
Theorem merge_sum_violated :
  reduced (samples (merge plain_days [J; K] true))
  = Some ([1; 1; 2; 2]%Q, [0; 5; 5; 107]%Q)
  /\ option_map (map Qred) (corrections_at (merge plain_days [J; K] true) [3 # 2]%Q)
     = Some [5%Q]
  /\ option_map (map Qred) (corrections_at (Py.ret J) [3 # 2]%Q) = Some [6%Q]
  /\ option_map (map Qred) (corrections_at (Py.ret K) [3 # 2]%Q) = Some [0%Q]
  /\ discontinuities (_time K) = [2%Q]
  /\ discontinuities (_time J) = [1%Q]
  /\ match samples (merge plain_days [J64; K64] true) with
     | Some (t, c) =>
         t = [1; 1; 2; 2]%float
         /\ PrimFloat.ltb 101 (PrimFloat.sub (nth 3 c 0) (nth 2 c 0))%float = true
     | None => False
     end
  /\ corrections_at (merge plain_days [J64; K64] true) [1.5%float] = Some [5%float]
  /\ corrections_at (Py.ret J64) [1.5%float] = Some [6%float]
  /\ corrections_at (Py.ret K64) [1.5%float] = Some [0%float].
Proof. repeat split. Qed.

End SeriesFacts.

(* ================================================================== *)
(** * Evaluation at the samples *)
(* ================================================================== *)

Section EvaluateMore.

Import ClockFile.

Context {R : Type} `{Ordered R}.

Lemma scan_index (l : list R) (i : nat) (x : R) :
  non_decreasing l -> number x -> nth_error l i = Some x ->
  (forall b, nth_error l (S i) = Some b -> lt x b) ->
  Np.scan x l = S i.
Proof.
  revert i. induction l as [| y l IH]; intros i Hs Nx Hx Hn.
  - destruct i; discriminate Hx.
  - destruct i as [| i]; cbn in Hx.
    + injection Hx as ->. cbn [Np.scan]. unfold geb.
      pose proof (le_refl x Nx) as L. unfold le in L. rewrite L. f_equal.
      destruct l as [| b l]; [reflexivity |]. cbn [Np.scan]. unfold geb.
      specialize (Hn b eq_refl). destruct (leb b x) eqn:E; [| reflexivity].
      contradiction (lt_not_le x b Hn).
    + cbn [Np.scan]. unfold geb.
      assert (L : le y x).
      { apply (non_decreasing_head y l Hs). exact (nth_error_In _ _ Hx). }
      unfold le in L. rewrite L. f_equal.
      apply IH; auto. exact (non_decreasing_tail y l Hs).
Qed.

Lemma last_with_head {A} (a : A) (l : list A) : last l a = last (a :: l) a.
Proof. now destruct l. Qed.

Lemma non_decreasing_last (l : list R) (d x : R) :
  number x -> non_decreasing l -> In x l -> le x (last l d).
Proof.
  intro Nx. induction l as [| a [| b l] IH]; intros Hs Hx.
  - contradiction.
  - destruct Hx as [-> | []]. now apply le_refl.
  - change (last (a :: b :: l) d) with (last (b :: l) d).
    destruct Hx as [-> | Hx].
    + apply (non_decreasing_head x (b :: l) Hs).
      rewrite (last_cons_default b l d zero). apply last_In. discriminate.
    + apply IH; [exact (non_decreasing_tail a _ Hs) | exact Hx].
Qed.

Lemma non_decreasing_le_last (a : R) (l : list R) (x : R) :
  number x -> non_decreasing (a :: l) -> In x (a :: l) -> le x (last l a).
Proof. rewrite last_with_head. apply non_decreasing_last. Qed.

Lemma hd_nth {A} (d : A) (l : list A) : hd d l = nth 0 l d.
Proof. now destruct l. Qed.

(** [np.interp] at a sample point, the last one of its value: the sample. *)
Lemma interp1_at_sample (xp fp : list R) (i : nat) (x : R) :
  non_decreasing xp -> number x -> nth_error xp i = Some x ->
  (forall b, nth_error xp (S i) = Some b -> lt x b) ->
  Np.interp1 xp fp x = nth i fp zero.
Proof.
  intros Hs Nx Hx Hn.
  assert (Lxx : ltb x x = false).
  { apply (not_lt_iff_le x x Nx Nx). now apply le_refl. }
  destruct xp as [| x0 tl]; [destruct i; discriminate Hx |].
  assert (L0 : ltb x x0 = false).
  { assert (L : le x0 x).
    { destruct i as [| i]; cbn in Hx; [injection Hx as ->; now apply le_refl |].
      apply (non_decreasing_head x0 tl Hs). exact (nth_error_In _ _ Hx). }
    apply (not_lt_iff_le x x0 Nx (proj1 (le_number _ _ L))). exact L. }
  destruct tl as [| x1 tl].
  - destruct i as [| i]; [| destruct i; discriminate Hx].
    injection Hx as ->. unfold Np.interp1, gtb. rewrite Lxx. apply hd_nth.
  - unfold Np.interp1. rewrite (isnan_false x Nx). unfold Np.binary_search, gtb.
    assert (Ll : ltb (last (x1 :: tl) x0) x = false).
    { pose proof (non_decreasing_le_last x0 (x1 :: tl) x Nx Hs
                    (nth_error_In _ _ Hx)) as L.
      apply (not_lt_iff_le _ x (proj2 (le_number _ _ L)) Nx). exact L. }
    rewrite Ll, L0.
    assert (Ej : Np.scan x (x1 :: tl) = i).
    { destruct i as [| i].
      - injection Hx as ->. cbn [Np.scan]. unfold geb.
        specialize (Hn x1 eq_refl). destruct (leb x1 x) eqn:E; [| reflexivity].
        contradiction (lt_not_le x x1 Hn).
      - apply scan_index; auto. exact (non_decreasing_tail x0 _ Hs). }
    rewrite Ej.
    assert (En : nth i (x0 :: x1 :: tl) zero = x) by now apply nth_error_nth.
    rewrite En. unfold number in Nx. rewrite Nx.
    now destruct (i =? _).
Qed.

(** X1.  On a well-formed series, [evaluate] at the MJD of a sample returns the
    correction of that sample, without a warning and whatever [limits] is;
    at an MJD that several samples share it returns the correction of the
    last of them (the value to the right of the jump). *)
Theorem evaluate_at_sample (self : ClockFile R) (i : nat) (x c : R)
  (limits : string) :
  well_formed self ->
  nth_error (_time self) i = Some x ->
  nth_error (to_value (_clock self) u_us) i = Some c ->
  (forall b, nth_error (_time self) (S i) = Some b -> lt x b) ->
  evaluate self [x] limits = ([], Ok [c]).
Proof.
  intros (Hn & Hs & Hl) Hx Hc Hnext.
  assert (Nx : number x).
  { rewrite Forall_forall in Hn. apply Hn. exact (nth_error_In _ _ Hx). }
  destruct (_time self) as [| first others] eqn:Et; [destruct i; discriminate Hx |].
  rewrite (evaluate_nonempty self [x] limits first others Et) by now rewrite Et.
  assert (L0 : ltb x first = false).
  { apply (not_lt_iff_le x first Nx).
    - inversion Hn; assumption.
    - destruct i as [| i]; cbn in Hx; [injection Hx as ->; now apply le_refl |].
      apply (non_decreasing_head first others Hs). exact (nth_error_In _ _ Hx). }
  assert (Ll : gtb x (last others first) = false).
  { unfold gtb.
    pose proof (non_decreasing_le_last first others x Nx Hs (nth_error_In _ _ Hx)) as L.
    apply (not_lt_iff_le _ x (proj2 (le_number _ _ L)) Nx). exact L. }
  cbn [map Np.any existsb]. rewrite L0, Ll. cbn [orb andb].
  do 3 f_equal. rewrite Et.
  rewrite (interp1_at_sample (first :: others) _ i x Hs Nx Hx Hnext).
  now apply nth_error_nth.
Qed.

End EvaluateMore.


(* ================================================================== *)
(** * Merging series without jumps *)
(* ================================================================== *)

Section MergeMore.

Import ClockFile.

Context {R : Type} `{Number R}.
Variable pulsar_mjd : PulsarMJD.TimeFormat R.





















End MergeMore.


(* ================================================================== *)
(** * The TEMPO parser on whole files *)
(* ================================================================== *)

Section TempoMore.

Import TempoClockFile.

Variable float_of_string : string -> option float.
Variable pulsar_mjd : PulsarMJD.TimeFormat float.

Abbreviation line_step := (line_step float_of_string).
Abbreviation parse_mjd := (parse_mjd float_of_string).
Abbreviation __init__ := (__init__ float_of_string pulsar_mjd).
Abbreviation sample := (tempo_sample float_of_string).
Abbreviation samples := (tempo_samples float_of_string).

Lemma seen_header_add_comment (st : state) (s : string) :
  seen_header (add_comment st s) = seen_header st.
Proof. unfold add_comment. destruct (rev (comments st)); reflexivity. Qed.

Lemma length_comments_add_comment (st : state) (s : string) :
  List.length (comments (add_comment st s)) = List.length (comments st).
Proof.
  unfold add_comment. destruct (rev (comments st)) as [| final before] eqn:E.
  - reflexivity.
  - cbn [comments set_comments]. rewrite length_app, length_rev. cbn.
    rewrite <- (length_rev (comments st)), E. cbn. lia.
Qed.

(** One line after the header: the state it leaves. *)
Lemma line_step_after_header (obscode : option string) (st : state) (l : string) :
  seen_header st = 2 ->
  startswith l "INCLUDE" = false ->
  exists st' : state,
    line_step obscode st l = ret st'
    /\ seen_header st' = 2
    /\ mjds st' = mjds st ++ match sample obscode l with
                             | Some s => [fst s]
                             | None => []
                             end
    /\ clkcorrs st' = clkcorrs st ++ match sample obscode l with
                                     | Some s => [snd s]
                                     | None => []
                                     end.
Proof.
  intros Hh Hi. unfold TempoClockFile.line_step, tempo_sample.
  destruct (startswith l "#").
  { eexists. split; [reflexivity |].
    now rewrite seen_header_add_comment, mjds_add_comment, clkcorrs_add_comment,
      !app_nil_r. }
  rewrite Hh, Hi. cbn [Nat.ltb Nat.leb].
  destruct (other_site obscode (parse_csite l)).
  { eexists. split; [reflexivity |]. cbn. now rewrite !app_nil_r. }
  destruct (parse_mjd l) as [m |].
  - destruct (float_of_string (substr l 9 21)), (float_of_string (substr l 21 33));
      (eexists; split; [reflexivity |]);
      rewrite seen_header_add_comment, mjds_add_comment, clkcorrs_add_comment;
      cbn; rewrite ?app_nil_r; auto.
  - eexists. split; [reflexivity |].
    rewrite seen_header_add_comment, mjds_add_comment, clkcorrs_add_comment.
    cbn. now rewrite !app_nil_r.
Qed.

Lemma lines_after_header (obscode : option string) (ls : list string) (st : state) :
  seen_header st = 2 ->
  Forall (fun l => startswith l "INCLUDE" = false) ls ->
  exists st' : state,
    for_each ls (line_step obscode) st = ret st'
    /\ seen_header st' = 2
    /\ mjds st' = mjds st ++ map fst (samples obscode ls)
    /\ clkcorrs st' = clkcorrs st ++ map snd (samples obscode ls).
Proof.
  intros Hh Hls. revert st Hh. induction Hls as [| l ls Hl _ IH]; intros st Hh.
  - exists st. cbn. now rewrite !app_nil_r.
  - destruct (line_step_after_header obscode st l Hh Hl) as (st1 & E1 & H1 & M1 & C1).
    destruct (IH st1 H1) as (st' & E' & H' & M' & C').
    exists st'. split; [| split; [exact H' |]].
    + cbn [for_each]. now rewrite E1, bind_ret_l.
    + rewrite M', C', M1, C1. cbn [tempo_samples].
      destruct (sample obscode l) as [s |]; cbn [map];
        rewrite <- !app_assoc; auto.
Qed.

(** [zap_leading_zeros]. *)
Lemma zap_leading_zeros_spec (mjds clk : list float) :
  List.length clk = List.length mjds ->
  let (mjds', clk') := zap_leading_zeros mjds clk in
  List.length clk' = List.length mjds'
  /\ List.length mjds' <= List.length mjds
  /\ (forall m, hd_error mjds' = Some m -> PrimFloat.eqb m 0 = false).
Proof.
  revert clk. induction mjds as [| m mjds IH]; intros clk Hl.
  - cbn. repeat split; auto. discriminate.
  - cbn [zap_leading_zeros]. destruct (PrimFloat.eqb m 0) eqn:E.
    + specialize (IH (rest clk)).
      destruct (zap_leading_zeros mjds (rest clk)) as [mjds' clk'].
      destruct IH as (L & L' & Hz).
      { rewrite length_rest, Hl. cbn. lia. }
      repeat split; auto. cbn. lia.
    + repeat split; auto. intros m' [= <-]. exact E.
Qed.

(** A loop that returns keeps every invariant that its turns keep. *)
Lemma for_each_invariant {A S} (P : S -> Prop) (l : list A)
  (body : S -> A -> M S) (s s' : S) (w : list record) :
  P s ->
  (forall s x w s', P s -> body s x = (w, Ok s') -> P s') ->
  for_each l body s = (w, Ok s') -> P s'.
Proof.
  intros Hs Hb. revert s w Hs. induction l as [| x l IH]; intros s w Hs.
  - intros [= <- <-]. exact Hs.
  - cbn [for_each]. unfold Py.bind at 1.
    destruct (body s x) as [w1 [s1 |]] eqn:E1; [| discriminate].
    destruct (for_each l body s1) as [w2 r2] eqn:E2.
    intros [= <- ->]. exact (IH s1 w2 (Hb s x w1 s1 Hs E1) E2).
Qed.

Lemma aligned_add_comment (st : state) (s : string) :
  aligned st -> aligned (add_comment st s).
Proof.
  unfold aligned.
  now rewrite length_comments_add_comment, mjds_add_comment, clkcorrs_add_comment.
Qed.

Lemma line_step_aligned (obscode : option string) (st st' : state) (l : string)
  (w : list record) :
  aligned st -> line_step obscode st l = (w, Ok st') -> aligned st'.
Proof.
  intros I. unfold TempoClockFile.line_step.
  destruct (startswith l "#").
  { intros [= <- <-]. now apply aligned_add_comment. }
  destruct (seen_header st <? 2).
  { destruct (negb _); [discriminate |]. intros [= <- <-]. exact I. }
  destruct (startswith l "INCLUDE"); [discriminate |].
  destruct (other_site obscode (parse_csite l)).
  { intros [= <- <-]. exact I. }
  destruct I as [Ic Ik].
  destruct (parse_mjd l) as [m |].
  - destruct (float_of_string (substr l 9 21)), (float_of_string (substr l 21 33));
      intros [= <- <-]; apply aligned_add_comment; unfold aligned; cbn;
      rewrite ?length_app; cbn; auto; lia.
  - intros [= <- <-]. apply aligned_add_comment. now split.
Qed.

Lemma read_lines_state (fs : filesystem) (filename : string)
  (site : option string) (st : state) (w : list record) :
  read_lines float_of_string fs filename site = (w, Ok st) ->
  exists w0, for_each (lines (fs filename)) (line_step site) start = (w0, Ok st).
Proof.
  unfold read_lines, Py.bind at 1.
  destruct (for_each _ _ start) as [w0 [st0 |]]; [| discriminate].
  destruct (fails (fs filename)); cbn; intros [= _ <-]; now exists w0.
Qed.

(** The MJDs that the loop stores have passed the range check. *)
Lemma line_step_range (obscode : option string) (st st' : state) (l : string)
  (w : list record) :
  Forall passes_range_check (mjds st) ->
  line_step obscode st l = (w, Ok st') ->
  Forall passes_range_check (mjds st').
Proof.
  intros I. unfold TempoClockFile.line_step.
  destruct (startswith l "#").
  { intros [= <- <-]. now rewrite mjds_add_comment. }
  destruct (seen_header st <? 2).
  { destruct (negb _); [discriminate |]. intros [= <- <-]. exact I. }
  destruct (startswith l "INCLUDE"); [discriminate |].
  destruct (other_site obscode (parse_csite l)).
  { intros [= <- <-]. exact I. }
  destruct (parse_mjd l) as [m |] eqn:Ep.
  - assert (Hm : passes_range_check m).
    { revert Ep. unfold TempoClockFile.parse_mjd.
      destruct (float_of_string (substr l 0 9)) as [x |]; [| discriminate].
      destruct (PrimFloat.ltb x 39000) eqn:E1, (PrimFloat.eqb x 0) eqn:E2;
        cbn [andb negb orb]; try discriminate;
        destruct (PrimFloat.ltb 100000 x); try discriminate;
        intros [= <-]; unfold passes_range_check; auto. }
    destruct (float_of_string (substr l 9 21)), (float_of_string (substr l 21 33));
      intros [= <- <-]; rewrite mjds_add_comment; cbn [mjds set_mjd];
      try exact I; apply Forall_app; split; auto.
  - intros [= <- <-]. now rewrite mjds_add_comment.
Qed.

(** The first MJD that [zap_leading_zeros] leaves is one of the MJDs. *)
Lemma zap_leading_zeros_In (mjds clk : list float) (m : float) :
  hd_error (fst (zap_leading_zeros mjds clk)) = Some m -> In m mjds.
Proof.
  revert clk. induction mjds as [| x mjds IH]; intro clk; [discriminate |].
  cbn [zap_leading_zeros]. destruct (PrimFloat.eqb x 0).
  - intro E. right. exact (IH _ E).
  - intros [= <-]. now left.
Qed.

(** X3.  A series that the TEMPO parser returns has as many corrections as
    MJDs, in microseconds, and it carries at least one comment entry per
    sample (one per sample stored, the entries of the leading zero MJDs that
    were dropped included).  Its first MJD, if any, is not zero, provided
    that [Time] holds MJD zero for no pulsar MJD that is not below [39000]:
    the parser hands to [Time] an array that does not begin with zero, made
    of MJDs that have passed the range check. *)
Theorem tempo_result_invariants
  (fs : filesystem) (filename : string) (kw : kwargs)
  (w : list record) (r : ClockFile.ClockFile float) :
  __init__ fs filename kw = (w, Ok r) ->
  List.length (ClockFile.value (ClockFile._clock r)) = List.length (ClockFile._time r)
  /\ ClockFile.unit (ClockFile._clock r) = ClockFile.u_us
  /\ ((forall x y : float,
         PulsarMJD.mjd_of pulsar_mjd x = Some y ->
         PrimFloat.ltb x 39000 = false -> PrimFloat.eqb y 0 = false) ->
      forall m, hd_error (ClockFile._time r) = Some m -> PrimFloat.eqb m 0 = false)
  /\ exists cs : list (option string),
       ClockFile.comments r = Some cs
       /\ List.length (ClockFile._time r) <= List.length cs.
Proof.
  unfold TempoClockFile.__init__, Py.bind at 1.
  destruct (read_lines float_of_string fs filename (obscode kw))
    as [w0 [st |]] eqn:Er; [| discriminate].
  destruct (read_lines_state _ _ _ _ _ Er) as (w1 & Ef).
  assert (Ia : aligned st).
  { apply (for_each_invariant aligned (lines (fs filename))
             (line_step (obscode kw)) start st w1); [now split | | exact Ef].
    intros s x w' s'. apply line_step_aligned. }
  assert (Is : mjd_is_scalar st).
  { apply (for_each_scalar float_of_string (obscode kw) (lines (fs filename))
             start st w1); [| exact Ef].
    intro C. now contradiction C. }
  assert (Ir : Forall passes_range_check (mjds st)).
  { apply (for_each_invariant (fun s => Forall passes_range_check (mjds s))
             (lines (fs filename)) (line_step (obscode kw)) start st w1);
      [constructor | | exact Ef].
    intros s x w' s'. apply line_step_range. }
  destruct Ia as [Ic Ik]. unfold finish.
  destruct (bogus_last_correction kw && negb (List.length (mjds st) =? 0)) eqn:Eb.
  - apply andb_true_iff in Eb. destruct Eb as [_ Eb].
    assert (Hn : mjds st <> []).
    { intro E. rewrite E in Eb. discriminate Eb. }
    destruct (Is Hn) as [-> | [x ->]]; cbn; discriminate.
  - rewrite bind_ret_l. cbn [fst snd].
    pose proof (zap_leading_zeros_spec (mjds st) (clkcorrs st) Ic) as Z.
    pose proof (zap_leading_zeros_In (mjds st) (clkcorrs st)) as Zi.
    destruct (zap_leading_zeros (mjds st) (clkcorrs st)) as [mjds' clk'].
    destruct Z as (L & L' & Hz). cbn [fst] in Zi.
    destruct (PulsarMJD.Time_mjd pulsar_mjd mjds') as [t | e] eqn:Et;
      [| discriminate].
    pose proof (Time_mjd_length pulsar_mjd mjds' t Et) as Lt.
    cbn. intros [= _ <-]. cbn. split; [lia |]. split; [reflexivity |]. split.
    + intros Hz' m Hm.
      destruct (Time_mjd_nth pulsar_mjd mjds' t 0 m Et) as (x & Hx & Ex).
      { destruct t; [discriminate | exact Hm]. }
      assert (Hx' : hd_error mjds' = Some x) by (destruct mjds'; exact Hx).
      apply (Hz' x m Ex).
      pose proof (Hz x Hx') as Nz.
      rewrite Forall_forall in Ir. destruct (Ir x (Zi x Hx')) as [Z0 | Z1];
        [rewrite Z0 in Nz; discriminate Nz | exact Z1].
    + exists (comments st). split; [reflexivity | lia].
Qed.

(** X4.  After the two header lines, no line that does not begin with
    [INCLUDE] makes the loop over the lines raise, whatever it holds.  With
    [bogus_last_correction=False] the constructor then hands to [Time], in
    the order of the file, the MJDs of the lines that are no comment, pass
    the site filter, have an MJD that passes the range check and at least
    one correction field that parses, less the leading samples at MJD zero.
    It raises if [Time] raises, with the exception of [Time]; otherwise it
    returns the series of the MJDs that [Time] holds, with the corrections
    of these lines. *)
Theorem tempo_samples_in_file_order
  (fs : filesystem) (filename : string) (site : option string)
  (head body : list string) (st : state) (w : list record) :
  lines (fs filename) = head ++ body ->
  for_each head (line_step site) start = (w, Ok st) ->
  seen_header st = 2 ->
  Forall (fun l => startswith l "INCLUDE" = false) body ->
  let stored := zap_leading_zeros (mjds st ++ map fst (samples site body))
                  (clkcorrs st ++ map snd (samples site body)) in
  match PulsarMJD.Time_mjd pulsar_mjd (fst stored) with
  | Ok t =>
      exists r : ClockFile.ClockFile float,
        Py.value (__init__ fs filename (mkKwargs site false)) = Ok r
        /\ ClockFile._time r = t
        /\ ClockFile._clock r = ClockFile.mkQuantity (snd stored) ClockFile.u_us
  | Raise e =>
      Py.value (__init__ fs filename (mkKwargs site false)) = Raise e
  end.
Proof.
  intros Hl Hh Hs Hb stored. subst stored.
  destruct (lines_after_header site body st Hs Hb) as (st' & E' & _ & M' & C').
  unfold TempoClockFile.__init__, read_lines. cbn [obscode bogus_last_correction].
  rewrite Hl, for_each_app, Hh, bind_Ok, E'. cbn [fst snd Py.ret].
  rewrite bind_assoc, (value_bind (w ++ [], Ok st') _ st' eq_refl), bind_assoc.
  rewrite (value_bind _ _ tt) by (now destruct (fails (fs filename))).
  rewrite bind_ret_l. unfold finish. cbn [andb]. rewrite bind_ret_l. cbn [fst snd].
  rewrite <- M', <- C'.
  destruct (zap_leading_zeros (mjds st') (clkcorrs st')) as [mjds' clk'].
  cbn [fst snd].
  destruct (PulsarMJD.Time_mjd pulsar_mjd mjds') as [t | e]; [| reflexivity].
  eexists. split; [reflexivity |]. split; reflexivity.
Qed.

(** X5.  Until both header lines have been seen, a line that is neither a
    comment nor the header line that is due makes the constructor raise
    [ValueError]; a blank line does. *)
Theorem tempo_header_required
  (fs : filesystem) (filename : string) (kw : kwargs)
  (before after : list string) (l : string) (st : state) (w : list record) :
  lines (fs filename) = before ++ l :: after ->
  for_each before (line_step (obscode kw)) start = (w, Ok st) ->
  seen_header st < 2 ->
  startswith l "#" = false ->
  list_eqb String.eqb (map upper (split l)) (header_words (seen_header st)) = false ->
  __init__ fs filename kw = (w, Raise (ValueError header_msg)).
Proof.
  intros Hl Hb Hh Hc Hw.
  unfold TempoClockFile.__init__, read_lines. rewrite Hl, for_each_app, Hb.
  cbn [for_each]. rewrite bind_Ok. unfold TempoClockFile.line_step.
  apply Nat.ltb_lt in Hh. rewrite Hc, Hh, Hw. cbn. now rewrite app_nil_r.
Qed.

(** X6.  A file that cannot be opened is no error for the TEMPO parser: it
    logs the failure and returns a series without samples, whatever the
    options are; so does [read] with the format [tempo]. *)
Theorem tempo_missing_file
  (hdrline_re : string -> bool)
  (clkcorr_re : string -> option (string * string * string))
  (fs : filesystem) (filename : string) (kw : kwargs) :
  lines (fs filename) = [] ->
  fails (fs filename) = true ->
  let empty := {| ClockFile.filename := filename;
                  ClockFile._time := [];
                  ClockFile._clock := ClockFile.mkQuantity [] ClockFile.u_us;
                  ClockFile.comments := Some [];
                  ClockFile.leading_comment := None |} in
  __init__ fs filename kw
  = ([Error (not_found_msg filename (obscode kw))], Ok empty)
  /\ ClockFile.read (_formats float_of_string hdrline_re clkcorr_re pulsar_mjd)
       fs filename "tempo" kw
     = ([Error (not_found_msg filename (obscode kw))], Ok empty).
Proof.
  intros Hl Hf empty.
  assert (E : __init__ fs filename kw
              = ([Error (not_found_msg filename (obscode kw))], Ok empty)).
  { unfold TempoClockFile.__init__, read_lines, finish. rewrite Hl, Hf.
    cbn [for_each]. rewrite bind_ret_l.
    destruct (bogus_last_correction kw); reflexivity. }
  split; [exact E |].
  unfold ClockFile.read. rewrite formats_registered. cbn [String.eqb Ascii.eqb Bool.eqb].
  rewrite E. reflexivity.
Qed.

Lemma for_each_ext {A S} (l : list A) (body body' : S -> A -> M S) (s : S) :
  (forall s x, body s x = body' s x) -> for_each l body s = for_each l body' s.
Proof.
  intro E. revert s. induction l as [| x l IH]; intro s; [reflexivity |].
  cbn [for_each]. rewrite E. apply bind_ext. exact IH.
Qed.

(** X7.  The site filter of the TEMPO parser ignores the case of the site
    code asked for: two codes with the same lower case select the same
    samples. *)
Theorem tempo_obscode_case_insensitive
  (fs : filesystem) (filename : string) (code code' : string) (bogus : bool) :
  lower code = lower code' ->
  Py.value (__init__ fs filename (mkKwargs (Some code) bogus))
  = Py.value (__init__ fs filename (mkKwargs (Some code') bogus)).
Proof.
  intro Hc. unfold TempoClockFile.__init__, read_lines.
  cbn [obscode bogus_last_correction].
  assert (E : forall st l, line_step (Some code) st l = line_step (Some code') st l).
  { intros st l. unfold TempoClockFile.line_step, other_site. now rewrite Hc. }
  rewrite (for_each_ext _ _ _ _ E).
  destruct (for_each _ (line_step (Some code')) start) as [w [st |]]; [| reflexivity].
  rewrite !bind_assoc, !(value_bind (w, Ok st) _ st eq_refl), !bind_assoc.
  rewrite !(value_bind _ _ tt) by (now destruct (fails (fs filename))).
  reflexivity.
Qed.

End TempoMore.

(* ================================================================== *)
(** * The TEMPO2 parser on whole files *)
(* ================================================================== *)

Section Tempo2More.

Import Tempo2ClockFile.

Variable float_of_string : string -> option float.
Variable hdrline_re : string -> bool.
Variable clkcorr_re : string -> option (string * string * string).
Variable pulsar_mjd : PulsarMJD.TimeFormat float.

Abbreviation line_step2 := (line_step float_of_string clkcorr_re).
Abbreviation init2 := (__init__ float_of_string hdrline_re clkcorr_re pulsar_mjd).
Abbreviation sample2 := (tempo2_sample float_of_string clkcorr_re).
Abbreviation samples2 := (tempo2_samples float_of_string clkcorr_re).
Abbreviation unparsable2 := (tempo2_unparsable float_of_string clkcorr_re).

Lemma tempo2_add_comment (st : state) (s : string) :
  comments st = [] ->
  mjd (add_comment st s) = mjd st
  /\ clk (add_comment st s) = clk st
  /\ comments (add_comment st s) = [].
Proof. unfold add_comment. intros ->. cbn. auto. Qed.

(** One line after the header. *)
Lemma tempo2_line_step (st : state) (l : string) :
  comments st = [] ->
  if unparsable2 l then
    line_step2 st l = raise (ValueError conversion_msg)
  else
    exists st' : state,
      line_step2 st l = ret st'
      /\ comments st' = []
      /\ mjd st' = mjd st ++ match sample2 l with Some s => [fst s] | None => [] end
      /\ clk st' = clk st ++ match sample2 l with Some s => [snd s] | None => [] end.
Proof.
  intro Hc. unfold tempo2_unparsable, tempo2_sample, Tempo2ClockFile.line_step.
  destruct (startswith l "#"); cbn [negb andb].
  { destruct (tempo2_add_comment st l Hc) as (M & C & K).
    eexists. split; [reflexivity |]. now rewrite M, C, K, !app_nil_r. }
  destruct (clkcorr_re l) as [[[g1 g2] g3] |].
  - unfold to_float.
    destruct (float_of_string g1) as [m |]; [| reflexivity].
    destruct (float_of_string g2) as [c |]; [| reflexivity].
    rewrite !bind_ret_l.
    destruct (tempo2_add_comment
                (mkState (mjd st ++ [m]) (clk st ++ [c]) (leading_comment st)
                   (comments st)) g3 Hc) as (M & C & K).
    eexists. split; [reflexivity |]. now rewrite M, C, K.
  - destruct (tempo2_add_comment st l Hc) as (M & C & K).
    eexists. split; [reflexivity |]. now rewrite M, C, K, !app_nil_r.
Qed.

Lemma tempo2_loop (ls : list string) (st : state) :
  comments st = [] ->
  if existsb unparsable2 ls then
    Py.value (for_each ls line_step2 st) = Raise (ValueError conversion_msg)
  else
    exists st' : state,
      for_each ls line_step2 st = ret st'
      /\ comments st' = []
      /\ mjd st' = mjd st ++ map fst (samples2 ls)
      /\ clk st' = clk st ++ map snd (samples2 ls).
Proof.
  revert st. induction ls as [| l ls IH]; intros st Hc.
  - exists st. cbn. now rewrite !app_nil_r.
  - cbn [existsb for_each tempo2_samples].
    pose proof (tempo2_line_step st l Hc) as Hl.
    destruct (unparsable2 l); cbn [orb].
    + now rewrite Hl.
    + destruct Hl as (st1 & E1 & K1 & M1 & C1). rewrite E1, bind_ret_l.
      specialize (IH st1 K1). destruct (existsb unparsable2 ls); [exact IH |].
      destruct IH as (st' & E' & K' & M' & C').
      exists st'. split; [exact E' |]. split; [exact K' |].
      rewrite M', C', M1, C1.
      destruct (sample2 l) as [s |]; cbn [map]; rewrite <- !app_assoc; auto.
Qed.

(** The body of the [try] statement. *)
Lemma tempo2_read_lines (f : stream) :
  let opened := negb (fails f) || negb (List.length (lines f) =? 0) in
  if opened && negb (hdrline_re (hd "" (lines f))) then
    read_lines float_of_string hdrline_re clkcorr_re f = raise (ValueError header_msg)
  else if fails f then
    read_lines float_of_string hdrline_re clkcorr_re f = ret (mkState [] [] "" [])
  else if existsb unparsable2 (tl (lines f)) then
    Py.value (read_lines float_of_string hdrline_re clkcorr_re f)
    = Raise (ValueError conversion_msg)
  else
    exists st : state,
      read_lines float_of_string hdrline_re clkcorr_re f = ret st
      /\ comments st = []
      /\ mjd st = map fst (samples2 (tl (lines f)))
      /\ clk st = map snd (samples2 (tl (lines f))).
Proof.
  unfold read_lines. destruct f as [ls failing]. cbn [lines fails].
  pose proof (tempo2_loop (tl ls) (mkState [] [] "" []) eq_refl) as L.
  destruct ls as [| h body], failing; cbn [negb orb andb List.length Nat.eqb hd tl] in *;
    try reflexivity;
    try (destruct (hdrline_re _); cbn [negb]; try reflexivity; exact L).
Qed.

(** With as many corrections as MJDs, dropping the last sample of a list
    that is not empty is dropping the last sample. *)
Lemma drop_last_sample (bogus : bool) (m c : list float) :
  List.length c = List.length m ->
  (if bogus && negb (List.length m =? 0) then (Py.init m, Py.init c) else (m, c))
  = (if bogus then Py.init m else m, if bogus then Py.init c else c).
Proof.
  intro Hl. destruct bogus; [| reflexivity].
  destruct m; [| reflexivity]. now destruct c.
Qed.

(** What follows the [try] statement, once the lines have been read. *)
Lemma tempo2_finish (filename : string) (bogus : bool) (st : state) :
  List.length (clk st) = List.length (mjd st) ->
  let drop_last (l : list float) := if bogus then Py.init l else l in
  let stored := zap_leading_zeros (drop_last (mjd st)) (drop_last (clk st)) in
  (let (mjd0, clk0) :=
     if bogus && negb (List.length (mjd st) =? 0)
     then (Py.init (mjd st), Py.init (clk st)) else (mjd st, clk st) in
   let (mjd1, clk1) := zap_leading_zeros mjd0 clk0 in
   t <- lift (PulsarMJD.Time_mjd pulsar_mjd mjd1) ;;
   ret {| ClockFile.filename := filename;
          ClockFile._time := t;
          ClockFile._clock := ClockFile.mkQuantity clk1 ClockFile.u_s;
          ClockFile.comments := Some (map Some (comments st));
          ClockFile.leading_comment := Some (leading_comment st) |})
  = match PulsarMJD.Time_mjd pulsar_mjd (fst stored) with
    | Ok t =>
        ret {| ClockFile.filename := filename;
               ClockFile._time := t;
               ClockFile._clock := ClockFile.mkQuantity (snd stored) ClockFile.u_s;
               ClockFile.comments := Some (map Some (comments st));
               ClockFile.leading_comment := Some (leading_comment st) |}
    | Raise e => raise e
    end.
Proof.
  intros Hl drop_last stored. subst stored drop_last.
  rewrite (drop_last_sample bogus _ _ Hl).
  destruct (zap_leading_zeros _ _) as [m' c']. cbn [fst snd].
  now destruct (PulsarMJD.Time_mjd pulsar_mjd m').
Qed.

(** X8.  The TEMPO2 parser raises in three cases only: the file was opened
    and its first line is not matched by [hdrline_re] (an empty file has the
    empty string for first line), a [ValueError]; or the file was read to the
    end and, in a line after the first that does not begin with [#],
    [clkcorr_re] finds two numbers of which [float] rejects one, a
    [ValueError] too; or [Time] refuses one of the MJDs that the parser hands
    to it, and then the exception is that of [Time].  In every other case it
    returns a series, of the MJDs that [Time] holds. *)
Theorem tempo2_failures (fs : filesystem) (filename : string) (kw : kwargs) :
  let f := fs filename in
  let opened := negb (fails f) || negb (List.length (lines f) =? 0) in
  let bad_header := opened && negb (hdrline_re (hd "" (lines f))) in
  let bad_number := negb (fails f) && existsb unparsable2 (tl (lines f)) in
  let drop_last (l : list float) :=
    if bogus_last_correction kw then Py.init l else l in
  let found := if fails f then [] else samples2 (tl (lines f)) in
  let stored := zap_leading_zeros (drop_last (map fst found))
                  (drop_last (map snd found)) in
  match Py.value (init2 fs filename kw) with
  | Raise e =>
      (e = ValueError header_msg /\ bad_header = true)
      \/ (e = ValueError conversion_msg /\ bad_header = false /\ bad_number = true)
      \/ (PulsarMJD.Time_mjd pulsar_mjd (fst stored) = Raise e
          /\ bad_header = false /\ bad_number = false)
  | Ok r =>
      PulsarMJD.Time_mjd pulsar_mjd (fst stored) = Ok (ClockFile._time r)
      /\ bad_header = false /\ bad_number = false
  end.
Proof.
  cbv zeta. unfold Tempo2ClockFile.__init__. set (f := fs filename).
  pose proof (tempo2_read_lines f) as L. cbv zeta in L.
  destruct (_ && negb (hdrline_re (hd "" (lines f)))); cbv iota in L.
  { rewrite L. left. now split. }
  destruct (fails f); cbn [negb andb]; cbv iota in L.
  { rewrite L, bind_ret_l. unfold log_error. rewrite bind_Ok. cbn [mjd clk fst snd].
    destruct (bogus_last_correction kw); now split. }
  destruct (existsb unparsable2 (tl (lines f))); cbv iota in L.
  { destruct (read_lines _ _ _ f) as [w [st |]]; cbn in L |- *; [discriminate L |].
    injection L as ->. right. left. now repeat split. }
  destruct L as (st & -> & _ & M & C). rewrite !bind_ret_l.
  rewrite (tempo2_finish filename (bogus_last_correction kw) st)
    by now rewrite M, C, !length_map.
  rewrite M, C.
  destruct (PulsarMJD.Time_mjd pulsar_mjd _) as [t | e]; cbn.
  - now split.
  - right. right. now split.
Qed.

(** X9.  Take a TEMPO2 file whose first line is a header and whose other
    lines hold no number that [float] rejects.  The parser hands to [Time]
    the MJDs of its lines that do not begin with [#] and in which
    [clkcorr_re] finds two numbers, in the order of the file; with
    [bogus_last_correction] the last sample is left out; then the leading
    samples at MJD zero are dropped.  If [Time] raises, the constructor
    raises the same; otherwise it returns the series of the MJDs that [Time]
    holds, with the corrections of these lines in seconds.  It logs no
    warning and no error.  The list of comments stays empty: the comments all
    go to the leading comment. *)
Theorem tempo2_samples_in_file_order
  (fs : filesystem) (filename : string) (kw : kwargs)
  (header : string) (body : list string) :
  lines (fs filename) = header :: body ->
  fails (fs filename) = false ->
  hdrline_re header = true ->
  existsb unparsable2 body = false ->
  let drop_last (l : list float) :=
    if bogus_last_correction kw then Py.init l else l in
  let stored := zap_leading_zeros (drop_last (map fst (samples2 body)))
                  (drop_last (map snd (samples2 body))) in
  match PulsarMJD.Time_mjd pulsar_mjd (fst stored) with
  | Ok t =>
      exists r : ClockFile.ClockFile float,
        init2 fs filename kw = ([], Ok r)
        /\ ClockFile._time r = t
        /\ ClockFile._clock r = ClockFile.mkQuantity (snd stored) ClockFile.u_s
        /\ ClockFile.comments r = Some []
  | Raise e => init2 fs filename kw = ([], Raise e)
  end.
Proof.
  intros Hl Hf Hh Hb drop_last stored. subst stored drop_last.
  unfold Tempo2ClockFile.__init__.
  pose proof (tempo2_read_lines (fs filename)) as L. cbv zeta in L.
  rewrite Hl, Hf in L. cbn [negb orb andb hd tl] in L. rewrite Hh, Hb in L.
  cbn [negb] in L. destruct L as (st & E & K & M & C).
  rewrite E, Hf, !bind_ret_l.
  rewrite (tempo2_finish filename (bogus_last_correction kw) st)
    by now rewrite M, C, !length_map.
  rewrite M, C, K.
  destruct (PulsarMJD.Time_mjd pulsar_mjd _) as [t | e]; [| reflexivity].
  eexists. repeat split.
Qed.

(** X10.  A file that cannot be opened is no error for the TEMPO2 parser: it
    logs the failure and returns a series without samples, whatever the
    options are; so does [read] with the format [tempo2]. *)
Theorem tempo2_missing_file (fs : filesystem) (filename : string) (kw : kwargs) :
  lines (fs filename) = [] ->
  fails (fs filename) = true ->
  let empty := {| ClockFile.filename := filename;
                  ClockFile._time := [];
                  ClockFile._clock := ClockFile.mkQuantity [] ClockFile.u_s;
                  ClockFile.comments := Some [];
                  ClockFile.leading_comment := Some "" |} in
  init2 fs filename kw = ([Error (not_found_msg filename)], Ok empty)
  /\ ClockFile.read (_formats float_of_string hdrline_re clkcorr_re pulsar_mjd)
       fs filename "tempo2" kw
     = ([Error (not_found_msg filename)], Ok empty).
Proof.
  intros Hl Hf empty.
  assert (E : init2 fs filename kw = ([Error (not_found_msg filename)], Ok empty)).
  { unfold Tempo2ClockFile.__init__, read_lines. rewrite Hl, Hf, bind_ret_l.
    destruct (bogus_last_correction kw); reflexivity. }
  split; [exact E |].
  unfold ClockFile.read. rewrite formats_registered. cbn [String.eqb Ascii.eqb Bool.eqb].
  rewrite E. reflexivity.
Qed.

(** X11.  A series that the TEMPO2 parser returns has as many corrections as
    MJDs, in seconds, and its list of comments is empty.  Its first MJD, if
    any, is not zero, provided that [Time] holds MJD zero for no pulsar MJD
    other than zero: the parser hands to [Time] an array that does not begin
    with zero. *)
Theorem tempo2_result_invariants
  (fs : filesystem) (filename : string) (kw : kwargs)
  (w : list record) (r : ClockFile.ClockFile float) :
  init2 fs filename kw = (w, Ok r) ->
  List.length (ClockFile.value (ClockFile._clock r)) = List.length (ClockFile._time r)
  /\ ClockFile.unit (ClockFile._clock r) = ClockFile.u_s
  /\ ((forall x y : float,
         PulsarMJD.mjd_of pulsar_mjd x = Some y ->
         PrimFloat.eqb x 0 = false -> PrimFloat.eqb y 0 = false) ->
      forall m, hd_error (ClockFile._time r) = Some m -> PrimFloat.eqb m 0 = false)
  /\ ClockFile.comments r = Some [].
Proof.
  intro E. apply (f_equal Py.value) in E. change (Py.value (w, Ok r)) with (Ok r) in E.
  revert E. unfold Tempo2ClockFile.__init__. set (f := fs filename). clearbody f.
  pose proof (tempo2_read_lines f) as L. cbv zeta in L.
  assert (G : forall st : state,
             comments st = [] -> List.length (clk st) = List.length (mjd st) ->
             Py.value
               (let (mjd0, clk0) :=
                  if bogus_last_correction kw && negb (List.length (mjd st) =? 0)
                  then (Py.init (mjd st), Py.init (clk st)) else (mjd st, clk st) in
                let (mjd1, clk1) := zap_leading_zeros mjd0 clk0 in
                t <- lift (PulsarMJD.Time_mjd pulsar_mjd mjd1) ;;
                ret {| ClockFile.filename := filename;
                       ClockFile._time := t;
                       ClockFile._clock := ClockFile.mkQuantity clk1 ClockFile.u_s;
                       ClockFile.comments := Some (map Some (comments st));
                       ClockFile.leading_comment := Some (leading_comment st) |})
             = Ok r ->
             List.length (ClockFile.value (ClockFile._clock r))
             = List.length (ClockFile._time r)
             /\ ClockFile.unit (ClockFile._clock r) = ClockFile.u_s
             /\ ((forall x y : float,
                    PulsarMJD.mjd_of pulsar_mjd x = Some y ->
                    PrimFloat.eqb x 0 = false -> PrimFloat.eqb y 0 = false) ->
                 forall m, hd_error (ClockFile._time r) = Some m ->
                           PrimFloat.eqb m 0 = false)
             /\ ClockFile.comments r = Some []).
  { intros st K Hlen.
    destruct (if bogus_last_correction kw && negb (List.length (mjd st) =? 0)
              then (Py.init (mjd st), Py.init (clk st)) else (mjd st, clk st))
      as [m c] eqn:Ed.
    assert (Hmc : List.length c = List.length m).
    { destruct (bogus_last_correction kw && negb (List.length (mjd st) =? 0));
        injection Ed as <- <-; [| exact Hlen].
      now rewrite !length_init, Hlen. }
    pose proof (zap_leading_zeros_spec m c Hmc) as Z.
    destruct (zap_leading_zeros m c) as [m' c']. destruct Z as (Z1 & _ & Z3).
    destruct (PulsarMJD.Time_mjd pulsar_mjd m') as [t | e] eqn:Et; [| discriminate].
    pose proof (Time_mjd_length pulsar_mjd m' t Et) as Lt.
    cbn. intros [= <-]. cbn. rewrite K.
    split; [lia |]. split; [reflexivity |]. split; [| reflexivity].
    intros Hz m0 Hm0.
    destruct (Time_mjd_nth pulsar_mjd m' t 0 m0 Et) as (x & Hx & Ex).
    { destruct t; [discriminate | exact Hm0]. }
    apply (Hz x m0 Ex). apply Z3. destruct m'; exact Hx. }
  destruct (_ && negb (hdrline_re (hd "" (lines f)))); cbv iota in L.
  { rewrite L. discriminate. }
  destruct (fails f); cbv iota in L.
  { rewrite L, bind_ret_l, (value_bind (log_error _) _ tt eq_refl).
    apply (G (mkState [] [] "" []) eq_refl eq_refl). }
  destruct (existsb unparsable2 (tl (lines f))); cbv iota in L.
  { destruct (read_lines _ _ _ f) as [w0 [st |]]; cbn in L |- *; [discriminate L |].
    discriminate. }
  destruct L as (st & -> & K & M & C). rewrite !bind_ret_l.
  apply G; [exact K | now rewrite M, C, !length_map].
Qed.

End Tempo2More.

(* ================================================================== *)
(** * Strings and text files *)
(* ================================================================== *)

Section StringFacts.

Lemma append_nil_r (s : string) : (s ++ "")%string = s.
Proof. induction s as [| c s IH]; cbn; [reflexivity | now rewrite IH]. Qed.

Lemma append_assoc (a b c : string) : ((a ++ b) ++ c)%string = (a ++ b ++ c)%string.
Proof. induction a as [| x a IH]; cbn; [reflexivity | now rewrite IH]. Qed.

Lemma substring_prefix (a s : string) (k : nat) :
  String.length a = k -> String.substring 0 k (a ++ s) = a.
Proof.
  intros <-. induction a as [| x a IH]; cbn.
  - now destruct s.
  - now rewrite IH.
Qed.

Lemma substring_skip (a s : string) (n m k : nat) :
  String.length a = k ->
  String.substring (k + n) m (a ++ s) = String.substring n m s.
Proof. intros <-. induction a as [| x a IH]; cbn; auto. Qed.

Lemma get_skip (a s : string) (n k : nat) :
  String.length a = k -> String.get (k + n) (a ++ s) = String.get n s.
Proof. intros <-. induction a as [| x a IH]; cbn; auto. Qed.

Lemma drop_skip (a s : string) (n k : nat) :
  String.length a = k -> drop (k + n) (a ++ s) = drop n s.
Proof. intros <-. induction a as [| x a IH]; cbn; auto. Qed.

Lemma rstrip_app_blank (a b : string) : rstrip b = "" -> rstrip (a ++ b) = rstrip a.
Proof.
  intro Hb. induction a as [| x a IH]; cbn [append rstrip]; [exact Hb |].
  now rewrite IH.
Qed.

Lemma rstrip_app_text (a b : string) :
  rstrip b <> "" -> rstrip (a ++ b) = (a ++ rstrip b)%string.
Proof.
  intro Hb. induction a as [| x a IH]; cbn [append rstrip]; [reflexivity |].
  rewrite IH. destruct a as [| y a]; cbn [append].
  - destruct (rstrip b); [now contradiction Hb | reflexivity].
  - reflexivity.
Qed.

Lemma rstrip_rstrip (s : string) : rstrip (rstrip s) = rstrip s.
Proof.
  induction s as [| x s IH]; [reflexivity |]. cbn [rstrip].
  destruct (rstrip s) as [| y t] eqn:E.
  - destruct (isspace x) eqn:Ex; [reflexivity |]. cbn. now rewrite Ex.
  - cbn [rstrip] in *. now rewrite IH.
Qed.

Lemma list_ascii_app (a b : string) :
  list_ascii_of_string (a ++ b) = list_ascii_of_string a ++ list_ascii_of_string b.
Proof. induction a as [| x a IH]; cbn; [reflexivity | now rewrite IH]. Qed.

Lemma string_of_list_app (l m : list ascii) :
  string_of_list_ascii (l ++ m)
  = (string_of_list_ascii l ++ string_of_list_ascii m)%string.
Proof. induction l as [| x l IH]; cbn; [reflexivity | now rewrite IH]. Qed.

Lemma one_line_app (a b : string) : one_line (a ++ b) = one_line a && one_line b.
Proof. unfold one_line. now rewrite list_ascii_app, forallb_app. Qed.

Lemma numeral_char_plain (c : ascii) :
  numeral_char c = true ->
  line_break c = false /\ c <> "#"%char /\ c <> "I"%char.
Proof.
  intro Hc. repeat split.
  - destruct c as [[|] [|] [|] [|] [|] [|] [|] [|]]; try reflexivity; discriminate Hc.
  - intros ->. discriminate Hc.
  - intros ->. discriminate Hc.
Qed.

Lemma numeral_one_line (s : string) : numeral_text s = true -> one_line s = true.
Proof.
  unfold numeral_text, one_line. induction s as [| c s IH]; cbn; [reflexivity |].
  intro Hs. apply andb_true_iff in Hs. destruct Hs as [Hc Hs].
  destruct (numeral_char_plain c Hc) as (-> & _). cbn. now apply IH.
Qed.

(** A text that begins with a numeral is neither a comment line nor an
    [INCLUDE] directive. *)
Lemma numeral_first (s rest : string) (k : nat) :
  numeral_text s = true -> String.length s = S k ->
  startswith (s ++ rest) "#" = false /\ startswith (s ++ rest) "INCLUDE" = false.
Proof.
  intros Hs Hl. destruct s as [| c s]; [discriminate Hl |].
  unfold numeral_text in Hs. cbn in Hs. apply andb_true_iff in Hs.
  destruct Hs as [Hc _]. destruct (numeral_char_plain c Hc) as (_ & N1 & N2).
  unfold startswith. cbn [append String.prefix]. split.
  - destruct (ascii_dec "#" c) as [E | _]; [now contradiction N1 | reflexivity].
  - destruct (ascii_dec "I" c) as [E | _]; [now contradiction N2 | reflexivity].
Qed.

Lemma one_line_rstrip (s : string) : one_line s = true -> one_line (rstrip s) = true.
Proof.
  unfold one_line. induction s as [| c s IH]; [reflexivity |].
  cbn [list_ascii_of_string forallb]. intro Hs. apply andb_true_iff in Hs.
  destruct Hs as [Hc Hs]. specialize (IH Hs). cbn [rstrip].
  destruct (rstrip s) as [| c' t].
  - destruct (isspace c); [reflexivity |]. cbn. now rewrite Hc.
  - cbn [list_ascii_of_string forallb] in *. now rewrite Hc, IH.
Qed.

(** Lines. *)
Lemma file_lines_aux_line (l rest : string) (w : list ascii) :
  one_line l = true ->
  file_lines_aux (l ++ newline ++ rest) w
  = string_of_list_ascii (rev w ++ list_ascii_of_string l ++ ["010"%char])
    :: file_lines rest.
Proof.
  revert w. induction l as [| c l IH]; intros w Hl.
  - cbn. reflexivity.
  - unfold one_line in Hl. cbn [list_ascii_of_string forallb] in Hl.
    apply andb_true_iff in Hl. destruct Hl as [Hc Hl].
    unfold line_break in Hc. apply negb_true_iff, orb_false_iff in Hc.
    destruct Hc as [Hn Hr].
    cbn [append file_lines_aux]. rewrite Hn, Hr, (IH (c :: w) Hl).
    cbn [rev list_ascii_of_string]. now rewrite <- !app_assoc.
Qed.

Lemma file_lines_line (l rest : string) :
  one_line l = true ->
  file_lines ((l ++ newline) ++ rest) = (l ++ newline)%string :: file_lines rest.
Proof.
  intro Hl. unfold file_lines at 1. rewrite append_assoc, (file_lines_aux_line l rest [] Hl).
  cbn [rev app]. rewrite string_of_list_app, string_of_list_ascii_of_string.
  reflexivity.
Qed.

Lemma file_lines_aux_app (a b : string) (w : list ascii) :
  file_lines_aux ((a ++ newline) ++ b) w
  = file_lines_aux (a ++ newline) w ++ file_lines b.
Proof.
  revert w. induction a as [| c a IH]; intro w.
  - reflexivity.
  - cbn [append file_lines_aux].
    destruct (Ascii.eqb c "010"); [now rewrite IH |].
    destruct (Ascii.eqb c "013"); [| apply IH].
    destruct a as [| c' a].
    + reflexivity.
    + cbn [append]. destruct (Ascii.eqb c' "010") eqn:E.
      * specialize (IH []). cbn [append file_lines_aux] in IH. rewrite E in IH.
        cbn [app]. f_equal. now injection IH.
      * cbn [app]. f_equal. apply IH.
Qed.

Lemma file_lines_app (a b : string) :
  file_lines ((a ++ newline) ++ b) = file_lines (a ++ newline) ++ file_lines b.
Proof. apply file_lines_aux_app. Qed.

Lemma concat_cons (x : string) (l : list string) :
  String.concat "" (x :: l) = (x ++ String.concat "" l)%string.
Proof. destruct l; cbn; [now rewrite append_nil_r | reflexivity]. Qed.

(** A text made of whole lines reads as those lines. *)
Lemma file_lines_concat (ls : list string) :
  Forall (fun l => exists body, l = (body ++ newline)%string /\ one_line body = true) ls ->
  file_lines (String.concat "" ls) = ls.
Proof.
  induction 1 as [| l ls (body & -> & Hb) _ IH]; [reflexivity |].
  now rewrite concat_cons, (file_lines_line body _ Hb), IH.
Qed.

End StringFacts.

(* ================================================================== *)
(** * Writing a TEMPO file and reading it back *)
(* ================================================================== *)

Lemma float_sub_zero (c : float) : PrimFloat.sub c 0 = c.
Proof.
  apply Prim2SF_inj. rewrite sub_spec.
  change (Prim2SF 0) with (S754_zero false).
  destruct (Prim2SF c) as [[|] | [|] | | [|] m e]; reflexivity.
Qed.

Lemma float_zero_is_early (m : float) :
  PrimFloat.eqb m 0 = true -> PrimFloat.ltb m 39000 = true.
Proof.
  rewrite eqb_spec, ltb_spec.
  destruct (Prim2SF m) as [s | s | | s mant e]; intro E.
  - now vm_compute.
  - destruct s; discriminate E.
  - discriminate E.
  - destruct s; discriminate E.
Qed.

Lemma ret_inj {A} (a b : A) : Py.ret a = Py.ret b -> a = b.
Proof. now intros [= ->]. Qed.

Section RoundTrip.

Import ClockFile TempoClockFile.

Variable float_of_string : string -> option float.
Variable pulsar_mjd : PulsarMJD.TimeFormat float.
Variable format_f : nat -> nat -> float -> string.
Variable strftime_date : float -> string.

Abbreviation written_line_of := (tempo_line format_f strftime_date).
Abbreviation written_lines_of := (zip3_lines format_f strftime_date).
Abbreviation survive := (survives float_of_string format_f).
Abbreviation sample_in := (tempo_sample float_of_string).
Abbreviation samples_in := (tempo_samples float_of_string).

(** The comment that follows the date is one line. *)
Lemma written_comment_one_line (k : option string) :
  match k with Some c => one_line c = true | None => True end ->
  one_line match k with
           | None | Some "" => ""
           | Some c => if startswith c newline then rstrip c else rstrip ("  " ++ c)
           end = true.
Proof.
  destruct k as [[| x c] |]; try reflexivity. intro Hc.
  destruct (startswith (String x c) newline); apply one_line_rstrip; [exact Hc |].
  now rewrite one_line_app, Hc.
Qed.

(** One written line: it is a whole line, and it holds its sample. *)
Lemma written_line (site : option string) (code : string) (m c : float)
  (k : option string) :
  String.length code = 1 -> one_line code = true -> accepts site code ->
  survive 9 2 m -> PrimFloat.ltb m 39000 = false -> PrimFloat.ltb 100000 m = false ->
  one_line (strftime_date m) = true ->
  survive 12 3 0%float -> survive 12 3 c ->
  match k with Some c => one_line c = true | None => True end ->
  let l := written_line_of code m c k in
  (exists body, l = (body ++ newline)%string /\ one_line body = true)
  /\ startswith l "INCLUDE" = false
  /\ sample_in site l = Some (m, c).
Proof.
  intros Hcode Hcode1 Hsite (Lm & Nm & Fm) R1 R2 Hd (Lz & Nz & Fz) (Lc & Nc & Fc) Hk l.
  subst l. unfold ClockFile.tempo_line.
  change (@zero float _) with 0%float.
  set (a := format_f 9 2 m) in *. set (z := format_f 12 3 0%float) in *.
  set (b := format_f 12 3 c) in *. set (d := strftime_date m) in *.
  set (K := match k with
            | None | Some "" => ""
            | Some c0 => if startswith c0 newline then rstrip c0 else rstrip ("  " ++ c0)
            end).
  assert (HK : one_line K = true) by (apply written_comment_one_line; exact Hk).
  split; [| split].
  - exists (a ++ z ++ b ++ " " ++ code ++ "    " ++ d ++ K)%string. split.
    + now rewrite !append_assoc.
    + rewrite !one_line_app, Hcode1, Hd, HK.
      now rewrite (numeral_one_line a Nm), (numeral_one_line z Nz),
        (numeral_one_line b Nc).
  - apply (numeral_first a _ 8 Nm Lm).
  - unfold tempo_sample.
    rewrite (proj1 (numeral_first a _ 8 Nm Lm)).
    set (rest := ("    " ++ d ++ K ++ newline)%string).
    assert (E0 : substr (a ++ z ++ b ++ " " ++ code ++ rest) 0 9 = a).
    { unfold substr. apply (substring_prefix a _ 9 Lm). }
    assert (E1 : substr (a ++ z ++ b ++ " " ++ code ++ rest) 9 21 = z).
    { unfold substr. cbn [Nat.sub].
      rewrite (substring_skip a _ 0 12 9 Lm). apply (substring_prefix z _ 12 Lz). }
    assert (E2 : substr (a ++ z ++ b ++ " " ++ code ++ rest) 21 33 = b).
    { unfold substr. cbn [Nat.sub].
      rewrite (substring_skip a _ 12 12 9 Lm), (substring_skip z _ 0 12 12 Lz).
      apply (substring_prefix b _ 12 Lc). }
    assert (E3 : parse_csite (a ++ z ++ b ++ " " ++ code ++ rest) = Some (lower code)).
    { unfold parse_csite, char_at.
      rewrite (get_skip a _ 25 9 Lm), (get_skip z _ 13 12 Lz), (get_skip b _ 1 12 Lc).
      destruct code as [| x [| y code]]; try discriminate Hcode. reflexivity. }
    rewrite E3.
    assert (Es : other_site site (Some (lower code)) = false).
    { destruct Hsite as [-> | (code' & -> & E)]; [reflexivity |].
      cbn. now rewrite E, String.eqb_refl. }
    rewrite Es. unfold parse_mjd. rewrite E0, E1, E2, Fm, Fz, Fc, R1, R2.
    cbn [andb orb]. unfold stored_correction, default, adjust.
    change (PrimFloat.ltb 800 0) with false. cbv iota.
    now rewrite float_sub_zero.
Qed.

(** What the parser reads of the comment of a written line. *)
Lemma written_line_comment (code : string) (m c : float) (k : option string) :
  String.length (format_f 9 2 m) = 9 ->
  String.length (format_f 12 3 0%float) = 12 ->
  String.length (format_f 12 3 c) = 12 ->
  String.length code = 1 ->
  String.length (strftime_date m) = 9 ->
  match k with Some c => one_line c = true | None => True end ->
  Some (rstrip (substr_from (written_line_of code m c k) 50)) = read_back k.
Proof.
  intros La Lz Lb Lcode Ld Hk. unfold ClockFile.tempo_line, substr_from.
  change (@zero float _) with 0%float.
  rewrite (drop_skip _ _ 41 9 La), (drop_skip _ _ 29 12 Lz), (drop_skip _ _ 17 12 Lb).
  change (drop 17 (" " ++ code ++ ?s)) with (drop 16 (code ++ s)).
  rewrite (drop_skip code _ 15 1 Lcode).
  change (drop 15 ("    " ++ ?s)) with (drop 11 s).
  rewrite (drop_skip _ _ 2 9 Ld).
  destruct k as [[| x c'] |]; try reflexivity.
  unfold read_back. f_equal.
  assert (Hs : startswith (String x c') newline = false).
  { unfold one_line in Hk. cbn in Hk. apply andb_true_iff in Hk.
    destruct Hk as [Hx _]. unfold line_break in Hx.
    apply negb_true_iff, orb_false_iff in Hx. destruct Hx as [Hx _].
    unfold startswith, newline. cbn [String.prefix].
    destruct (ascii_dec "010" x) as [<- | _]; [discriminate Hx | reflexivity]. }
  rewrite Hs. destruct (rstrip (String x c')) as [| y t] eqn:Er.
  - rewrite (rstrip_app_blank "  " _ Er). reflexivity.
  - rewrite (rstrip_app_text "  " (String x c')) by (rewrite Er; discriminate).
    rewrite Er. cbn [append drop].
    change (String y (t ++ newline)) with (String y t ++ newline)%string.
    rewrite (rstrip_app_blank (String y t) newline eq_refl), <- Er.
    apply rstrip_rstrip.
Qed.

(** A line that holds a sample adds the comment after its column 50 to the
    list of comments; a comment line before any sample adds none. *)
Lemma sample_line_comment (site : option string) (st st' : state) (l : string) :
  seen_header st = 2 -> startswith l "INCLUDE" = false ->
  sample_in site l <> None ->
  line_step float_of_string site st l = ret st' ->
  TempoClockFile.comments st'
  = TempoClockFile.comments st ++ [Some (rstrip (substr_from l 50))]
  /\ seen_header st' = 2.
Proof.
  intros Hh Hi Hs. unfold TempoClockFile.line_step, tempo_sample in *.
  destruct (startswith l "#"); [now contradiction Hs |].
  rewrite Hh, Hi. cbn [Nat.ltb Nat.leb].
  destruct (other_site site (parse_csite l)); [now contradiction Hs |].
  assert (G : forall s : state,
             seen_header s = 2 ->
             TempoClockFile.comments s = TempoClockFile.comments st ++ [None] ->
             TempoClockFile.comments (add_comment s (substr_from l 50))
             = TempoClockFile.comments st ++ [Some (rstrip (substr_from l 50))]
             /\ seen_header (add_comment s (substr_from l 50)) = 2).
  { intros s Hs2 Hc. rewrite seen_header_add_comment. split; [| exact Hs2].
    unfold add_comment. rewrite Hc, rev_app_distr. cbn [rev app].
    cbn [TempoClockFile.comments set_comments]. now rewrite rev_involutive. }
  destruct (parse_mjd float_of_string l) as [m |]; [| now contradiction Hs].
  destruct (float_of_string (substr l 9 21)), (float_of_string (substr l 21 33));
    try (now contradiction Hs); intro E; apply ret_inj in E; subst st';
    (apply G; [exact Hh | reflexivity]).
Qed.

Lemma sample_lines_comments (site : option string) (ls : list string)
  (st st' : state) :
  seen_header st = 2 ->
  Forall (fun l => startswith l "INCLUDE" = false) ls ->
  Forall (fun l => sample_in site l <> None) ls ->
  for_each ls (line_step float_of_string site) st = ret st' ->
  TempoClockFile.comments st'
  = TempoClockFile.comments st
    ++ map (fun l => Some (rstrip (substr_from l 50))) ls.
Proof.
  intros Hh Hi. revert st Hh.
  induction Hi as [| l ls Hl Hi IH]; intros st Hh Hs.
  - intro E. apply ret_inj in E. subst st'. cbn. now rewrite app_nil_r.
  - inversion Hs as [| ? ? Hs1 Hs']; subst. cbn [for_each].
    destruct (line_step_after_header float_of_string site st l Hh Hl)
      as (st1 & E1 & _).
    rewrite E1, bind_ret_l. intro E.
    destruct (sample_line_comment site st st1 l Hh Hl Hs1 E1) as [C1 H1].
    rewrite (IH st1 H1 Hs' E), C1. cbn [map]. now rewrite <- app_assoc.
Qed.

Lemma comment_lines_keep (site : option string) (ls : list string) (st st' : state) :
  Forall (fun l => startswith l "#" = true) ls ->
  TempoClockFile.comments st = [] ->
  for_each ls (line_step float_of_string site) st = ret st' ->
  TempoClockFile.comments st' = [] /\ seen_header st' = seen_header st
  /\ mjds st' = mjds st /\ clkcorrs st' = clkcorrs st.
Proof.
  intro Hc. revert st. induction Hc as [| l ls Hl _ IH]; intros st Hk.
  - intro E. apply ret_inj in E. now subst st'.
  - cbn [for_each]. unfold TempoClockFile.line_step at 1. rewrite Hl, bind_ret_l.
    intro E. destruct (IH (add_comment st l)) as (K & Hh & Hm & Hcl).
    + unfold add_comment. now rewrite Hk.
    + exact E.
    + now rewrite K, Hh, Hm, Hcl, seen_header_add_comment, mjds_add_comment,
        clkcorrs_add_comment.
Qed.

Lemma written_lines (site : option string) (code : string)
  (mjds corr : list float) (ks : list (option string)) :
  String.length code = 1 -> one_line code = true -> accepts site code ->
  Forall (fun m => survive 9 2 m
                   /\ PrimFloat.ltb m 39000 = false
                   /\ PrimFloat.ltb 100000 m = false
                   /\ one_line (strftime_date m) = true) mjds ->
  survive 12 3 0%float ->
  Forall (survive 12 3) corr ->
  Forall (fun k => match k with Some c => one_line c = true | None => True end) ks ->
  List.length corr = List.length mjds ->
  List.length mjds <= List.length ks ->
  let ls := written_lines_of code mjds corr ks in
  Forall (fun l => exists body, l = (body ++ newline)%string /\ one_line body = true) ls
  /\ Forall (fun l => startswith l "INCLUDE" = false) ls
  /\ Forall (fun l => sample_in site l <> None) ls
  /\ samples_in site ls = combine mjds corr
  /\ (Forall (fun m => String.length (strftime_date m) = 9) mjds ->
      map (fun l => Some (rstrip (substr_from l 50))) ls
      = map read_back (firstn (List.length mjds) ks)).
Proof.
  intros Hcode Hcode1 Hsite Hm Hz. revert corr ks.
  induction Hm as [| m mjds (Sm & R1 & R2 & Hd) _ IH]; intros corr ks Hc Hk Lc Lk.
  - cbn. repeat split; auto.
  - destruct corr as [| c corr]; [discriminate Lc |].
    destruct ks as [| k ks]; [cbn in Lk; lia |].
    inversion Hc as [| ? ? Sc Hc']; subst. inversion Hk as [| ? ? Hk1 Hk']; subst.
    destruct (written_line site code m c k Hcode Hcode1 Hsite Sm R1 R2 Hd Hz Sc Hk1)
      as (W1 & W2 & W3).
    destruct (IH corr ks Hc' Hk') as (I1 & I2 & I3 & I4 & I5).
    { now injection Lc. }
    { cbn in Lk. lia. }
    cbn [ClockFile.zip3_lines tempo_samples combine].
    cbv zeta in W3, I4, I5.
    split; [| split; [| split; [| split]]].
    + constructor; assumption.
    + constructor; assumption.
    + constructor; [| assumption]. rewrite W3. discriminate.
    + now rewrite W3, I4.
    + intro Hdate. inversion Hdate as [| ? ? Hd9 Hdate']; subst.
      cbn [map List.length firstn]. rewrite (I5 Hdate'). f_equal.
      apply written_line_comment; auto.
      * exact (proj1 Sm).
      * exact (proj1 Hz).
      * exact (proj1 Sc).
Qed.

Lemma comment_lines_samples (site : option string) (ls : list string) :
  Forall (fun l => startswith l "#" = true) ls ->
  Forall (fun l => startswith l "INCLUDE" = false) ls /\ samples_in site ls = [].
Proof.
  induction 1 as [| l ls Hl _ (I1 & I2)]; [now split |]. split.
  - constructor; [| exact I1].
    destruct (startswith l "INCLUDE") eqn:E; [| reflexivity].
    rewrite (startswith_include_not_comment l E) in Hl. discriminate Hl.
  - cbn [tempo_samples]. unfold tempo_sample. now rewrite Hl.
Qed.

Lemma tempo_samples_app (site : option string) (l l' : list string) :
  samples_in site (l ++ l') = samples_in site l ++ samples_in site l'.
Proof.
  induction l as [| x l IH]; [reflexivity |]. cbn [app tempo_samples].
  destruct (sample_in site x); cbn [app]; now rewrite IH.
Qed.

Lemma map_fst_combine {A B} (l : list A) (m : list B) :
  List.length m = List.length l -> map fst (combine l m) = l.
Proof.
  revert m. induction l as [| x l IH]; intros [| y m] E; try discriminate E;
    [reflexivity |].
  cbn. f_equal. apply IH. now injection E.
Qed.

Lemma map_snd_combine {A B} (l : list A) (m : list B) :
  List.length m = List.length l -> map snd (combine l m) = m.
Proof.
  revert m. induction l as [| x l IH]; intros [| y m] E; try discriminate E;
    [reflexivity |].
  cbn. f_equal. apply IH. now injection E.
Qed.

Lemma header_lines_read (rest : string) :
  file_lines (tempo_standard_header ++ rest)
  = [(Examples.hdr1 ++ newline)%string; (Examples.hdr2 ++ newline)%string]
    ++ file_lines rest.
Proof. reflexivity. Qed.

Lemma header_lines_parsed (site : option string) :
  for_each [(Examples.hdr1 ++ newline)%string; (Examples.hdr2 ++ newline)%string]
    (line_step float_of_string site) start
  = ret Examples.after_header.
Proof. reflexivity. Qed.

Lemma zap_in_range (mjds clk : list float) :
  Forall (fun m => PrimFloat.ltb m 39000 = false) mjds ->
  zap_leading_zeros mjds clk = (mjds, clk).
Proof.
  intro Hm. destruct Hm as [| m mjds Hm _]; [reflexivity |].
  cbn [zap_leading_zeros]. destruct (PrimFloat.eqb m 0) eqn:E; [| reflexivity].
  rewrite (float_zero_is_early m E) in Hm. discriminate Hm.
Qed.

(** X12.  The text that [write_tempo_clock_file] writes to an open file
    reads back with the TEMPO parser, from a file that holds it and with the
    same site code (or no site filter), provided that the samples survive
    the formats of the writer and that the comments fit: every MJD survives
    [9.2f] and lies in [[39000, 100000]], every correction survives [12.3f],
    the site code is no line break, the comments before the samples are lines
    that begin with [#], and no comment of a sample spans lines.  The parser
    then hands to [Time] the MJDs that were written.  If [Time] raises, the
    constructor raises the same; otherwise it returns, logging no warning
    and no error, the series of the MJDs that [Time] holds for them (the
    MJDs written, when the conversion leaves them unchanged), with the same
    corrections in microseconds.  If these MJDs are in order, [read] returns
    the same series.  If the dates are nine characters long, the comment of
    each sample reads back too, less its trailing white space. *)
Theorem tempo_write_read_round_trip
  (self : ClockFile float) (code : string) (extra_comments : option string)
  (text : string) (fs : filesystem) (filename : string) (site : option string) :
  write_tempo_clock_file format_f strftime_date self (Str code) extra_comments
  = ret text ->
  fs filename = stored text ->
  one_line code = true ->
  accepts site code ->
  samples_survive float_of_string format_f strftime_date self ->
  comments_fit self extra_comments ->
  match PulsarMJD.Time_mjd pulsar_mjd (time self) with
  | Ok t =>
      exists r : ClockFile float,
        __init__ float_of_string pulsar_mjd fs filename (mkKwargs site false)
        = ([], Ok r)
        /\ time r = t
        /\ (Forall (unchanged pulsar_mjd) (time self) -> time r = time self)
        /\ clock r = mkQuantity (to_value (clock self) u_us) u_us
        /\ (Np.all (map (fun d => geb d zero) (Np.diff t)) = true ->
            forall (hdrline_re : string -> bool)
                   (clkcorr_re : string -> option (string * string * string)),
              read (_formats float_of_string hdrline_re clkcorr_re pulsar_mjd)
                fs filename "tempo" (mkKwargs site false) = ([], Ok r))
        /\ (Forall (fun m => String.length (strftime_date m) = 9) (time self) ->
            ClockFile.comments r
            = Some (map read_back
                      (firstn (List.length (time self)) (written_comments self))))
  | Raise e =>
      __init__ float_of_string pulsar_mjd fs filename (mkKwargs site false)
      = ([], Raise e)
  end.
Proof.
  intros Hw Hfs Hcode1 Hsite (Hlen & Hm & Hz & Hc) (He & Hl & Hk).
  unfold write_tempo_clock_file in Hw.
  destruct (String.length code =? 1) eqn:Hcode; [| discriminate Hw].
  apply Nat.eqb_eq in Hcode. cbn [negb] in Hw.
  fold (written_comments self) in Hw.
  set (ks := written_comments self) in *.
  assert (Hks : List.length (time self) <= List.length ks
                /\ Forall (fun k => match k with
                                    | Some c => one_line c = true
                                    | None => True
                                    end) ks).
  { subst ks. unfold written_comments.
    destruct (ClockFile.comments self) as [[| k l] |].
    - rewrite repeat_length, Hlen. split; [lia |]. apply Forall_forall.
      intros k Hk'. apply repeat_spec in Hk'. now subst k.
    - exact Hk.
    - rewrite repeat_length, Hlen. split; [lia |]. apply Forall_forall.
      intros k Hk'. apply repeat_spec in Hk'. now subst k. }
  destruct Hks as [Lk Fk].
  assert (Lc : List.length (to_value (clock self) u_us) = List.length (time self)).
  { unfold to_value. now rewrite length_map. }
  destruct (written_lines site code (time self) (to_value (clock self) u_us) ks
              Hcode Hcode1 Hsite Hm Hz Hc Fk Lc Lk) as (W1 & W2 & W3 & W4 & W5).
  cbv zeta in W1, W2, W3, W4, W5.
  set (ls := written_lines_of code (time self) (to_value (clock self) u_us) ks) in *.
  set (E := match extra_comments with
            | Some e => (strip e ++ newline)%string
            | None => ""
            end) in Hw.
  set (L := match ClockFile.leading_comment self with
            | Some c => (c ++ newline)%string
            | None => ""
            end) in Hw.
  assert (HE : Forall (fun l => startswith l "#" = true) (file_lines E)
               /\ forall rest, file_lines (E ++ rest) = file_lines E ++ file_lines rest).
  { subst E. destruct extra_comments as [e |].
    - split; [exact He | intro rest; apply file_lines_app].
    - split; [constructor | reflexivity]. }
  assert (HL : Forall (fun l => startswith l "#" = true) (file_lines L)
               /\ forall rest, file_lines (L ++ rest) = file_lines L ++ file_lines rest).
  { subst L. destruct (ClockFile.leading_comment self) as [c |].
    - split; [exact Hl | intro rest; apply file_lines_app].
    - split; [constructor | reflexivity]. }
  destruct HE as [CE AE]. destruct HL as [CL AL].
  apply ret_inj in Hw. subst text.
  assert (Hlines : lines (fs filename)
                   = [(Examples.hdr1 ++ newline)%string; (Examples.hdr2 ++ newline)%string]
                     ++ ((file_lines E ++ file_lines L) ++ ls)).
  { rewrite Hfs. unfold stored. cbn [lines].
    now rewrite header_lines_read, AE, AL, (file_lines_concat ls W1), <- app_assoc. }
  assert (CEL : Forall (fun l => startswith l "#" = true) (file_lines E ++ file_lines L))
    by (apply Forall_app; now split).
  destruct (comment_lines_samples site _ CEL) as [IEL _].
  (* the comment lines, then the samples *)
  destruct (lines_after_header float_of_string site (file_lines E ++ file_lines L)
              Examples.after_header eq_refl IEL) as (st1 & E1 & _).
  destruct (comment_lines_keep site _ Examples.after_header st1 CEL eq_refl E1)
    as (K1 & H1 & M1 & C1).
  destruct (lines_after_header float_of_string site ls st1 H1 W2)
    as (st & Est & _ & Mst & Cst).
  pose proof (sample_lines_comments site ls st1 st H1 W2 W3 Est) as Kst.
  rewrite M1, W4, (map_fst_combine _ _ Lc) in Mst.
  rewrite C1, W4, (map_snd_combine _ _ Lc) in Cst.
  rewrite K1 in Kst.
  cbn [mjds clkcorrs Examples.after_header app] in Mst, Cst, Kst.
  assert (Ei : __init__ float_of_string pulsar_mjd fs filename (mkKwargs site false)
               = match PulsarMJD.Time_mjd pulsar_mjd (time self) with
                 | Ok t =>
                     ([], Ok {| filename := filename;
                                _time := t;
                                _clock := mkQuantity (to_value (clock self) u_us) u_us;
                                ClockFile.comments := Some (TempoClockFile.comments st);
                                ClockFile.leading_comment :=
                                  TempoClockFile.leading_comment st |})
                 | Raise e => ([], Raise e)
                 end).
  { unfold __init__, read_lines. cbn [obscode bogus_last_correction].
    rewrite Hlines, for_each_app, header_lines_parsed, bind_ret_l.
    rewrite for_each_app, E1, bind_ret_l, Est.
    rewrite Hfs. cbn [fails stored]. rewrite !bind_ret_l.
    unfold finish. cbn [andb]. rewrite !bind_ret_l. cbn [fst snd].
    rewrite Mst, Cst, zap_in_range.
    - unfold time. now destruct (PulsarMJD.Time_mjd pulsar_mjd (_time self)).
    - eapply Forall_impl; [| exact Hm]. cbn. tauto. }
  pose proof (Time_mjd_unchanged pulsar_mjd (time self)) as Tu.
  destruct (PulsarMJD.Time_mjd pulsar_mjd (time self)) as [t | e]; [| exact Ei].
  eexists. split; [exact Ei |]. split; [reflexivity |].
  split; [| split; [reflexivity |]].
  { intro Hu. specialize (Tu Hu). now injection Tu as ->. }
  split.
  - intros Ho hdrline_re clkcorr_re. unfold read.
    rewrite formats_registered. cbn [String.eqb Ascii.eqb Bool.eqb].
    rewrite Ei, bind_Ok. unfold time in *. cbn [_time]. rewrite Ho. reflexivity.
  - intro Hdate. cbn [ClockFile.comments]. now rewrite Kst, (W5 Hdate).
Qed.

End RoundTrip.

(* ================================================================== *)
(** * The registry of formats *)
(* ================================================================== *)

Section RegistryFacts.

Import ClockFile.

Context {R : Type} `{Number R}.
Variable kwargs : Type.

Lemma lookup_store (key name : string) (cls : constructor R kwargs)
  (d : registry R kwargs) :
  lookup key (store name cls d)
  = if String.eqb key name then Some cls else lookup key d.
Proof.
  induction d as [| [k v] d IH]; cbn.
  - reflexivity.
  - destruct (String.eqb name k) eqn:En; cbn.
    + apply String.eqb_eq in En. subst k.
      now destruct (String.eqb key name).
    + rewrite IH. destruct (String.eqb key k) eqn:Ek; [| reflexivity].
      apply String.eqb_eq in Ek. subst k.
      now rewrite (String.eqb_sym key name), En.
Qed.

(** X13.  The metaclass enters a class that declares a [format] in the
    registry under that name, in place of the class that held the name
    before, if any, and leaves every other name as it was; a class that
    declares no [format] leaves the registry as it was. *)
Theorem ClockFileMeta_registers (_formats : registry R kwargs)
  (cls : class_statement R kwargs) (key : string) :
  lookup key (ClockFileMeta _formats cls)
  = match format_member cls with
    | Some (name, c) => if String.eqb key name then Some c else lookup key _formats
    | None => lookup key _formats
    end.
Proof.
  unfold ClockFileMeta. destruct (format_member cls) as [[name c] |];
    [apply lookup_store | reflexivity].
Qed.

End RegistryFacts.

(* ================================================================== *)
(** * More about [evaluate] *)
(* ================================================================== *)

Section EvaluateEdges.

Import ClockFile.

Context {R : Type} `{Ordered R}.

(** X14.  A value of [limits] other than "warn" and "error" is not refused:
    on a series without samples [evaluate] then raises [IndexError] (at
    [self.time[0]]), and on a series with samples it returns the corrections
    that "warn" returns, but without any warning. *)
Theorem evaluate_other_limits (self : ClockFile R) (t : list R) (limits : string) :
  String.eqb limits "warn" = false ->
  String.eqb limits "error" = false ->
  List.length (value (_clock self)) = List.length (_time self) ->
  match _time self with
  | [] => exists msg, evaluate self t limits = raise (IndexError msg)
  | _ :: _ =>
      evaluate self t limits = ([], Py.value (evaluate self t "warn"))
  end.
Proof.
  intros Hw He Hl. destruct (_time self) as [| first others] eqn:Et.
  - unfold evaluate, evaluate_in_range, time. rewrite Et, Hw, He. cbn.
    eexists. reflexivity.
  - rewrite !(evaluate_nonempty self t _ first others Et) by now rewrite Et.
    rewrite Hw, He. cbn [String.eqb Ascii.eqb Bool.eqb negb andb].
    now rewrite !andb_false_r.
Qed.

(** X15.  [last_correction_mjd] is minus infinity exactly for a series
    without samples; otherwise it is an MJD of the series, none of the MJDs
    is later, and [evaluate] with [limits="error"] refuses every list of
    times that holds a later time. *)
Theorem last_correction_mjd_is_last (self : ClockFile R) :
  well_formed self ->
  match last_correction_mjd self with
  | None => _time self = []
  | Some final =>
      In final (_time self)
      /\ (forall x, In x (_time self) -> le x final)
      /\ (forall (t : list R) (x : R),
            In x t -> lt final x ->
            evaluate self t "error" = raise (RuntimeError (out_of_range_msg self)))
  end.
Proof.
  intros (Hn & Hs & Hl). unfold last_correction_mjd, time.
  destruct (_time self) as [| first others] eqn:Et; [reflexivity |].
  rewrite Forall_forall in Hn. split; [| split].
  - rewrite last_with_head, (last_cons_default first others first zero).
    apply last_In. discriminate.
  - intros x Hx. apply non_decreasing_le_last; auto.
  - intros t x Hx L.
    rewrite (evaluate_nonempty self t "error" first others Et) by now rewrite Et.
    assert (O : Np.any (map (fun x => ltb x first) t)
                || Np.any (map (fun x => gtb x (last others first)) t) = true).
    { apply outside_iff. exists x. split; [exact Hx | now right]. }
    now rewrite O.
Qed.

End EvaluateEdges.

(* ================================================================== *)
(** * Writing a TEMPO2 file and reading it back *)
(* ================================================================== *)

Section Tempo2RoundTrip.

Import ClockFile.

Variable float_of_string : string -> option float.
Variable hdrline_re : string -> bool.
Variable clkcorr_re : string -> option (string * string * string).
Variable format_e : float -> string.
Variable repr : string -> string.
Variable pulsar_mjd : PulsarMJD.TimeFormat float.

Abbreviation row_of := (Np.savetxt_row format_e).
Abbreviation sample2_in := (tempo2_sample float_of_string clkcorr_re).
Abbreviation samples2_in := (tempo2_samples float_of_string clkcorr_re).
Abbreviation unparsable2_in := (tempo2_unparsable float_of_string clkcorr_re).

Lemma startswith_hash (s : string) : startswith (String "#" s) "#" = true.
Proof.
  unfold startswith. cbn [String.prefix].
  destruct (ascii_dec "#" "#") as [_ | N]; [now destruct s | now contradiction N].
Qed.

(** The lines of a header written by [savetxt] all begin with [#]. *)
Lemma replaced_lines (h : string) (w : list ascii) :
  no_carriage_return h = true ->
  (exists w', rev w = "#"%char :: w') ->
  Forall (fun l => startswith l "#" = true)
    (file_lines_aux (replace_line_feeds h "# " ++ newline) w).
Proof.
  revert w. induction h as [| c h IH]; intros w Hh (w' & Hw).
  - cbn. constructor; [| constructor]. rewrite Hw. apply startswith_hash.
  - unfold no_carriage_return in Hh. cbn [list_ascii_of_string forallb] in Hh.
    apply andb_true_iff in Hh. destruct Hh as [Hc Hh]. apply negb_true_iff in Hc.
    cbn [replace_line_feeds]. destruct (Ascii.eqb c "010") eqn:El.
    + cbn [append file_lines_aux]. rewrite El. constructor.
      * cbn [rev]. rewrite Hw. apply startswith_hash.
      * apply (IH [" "%char; "#"%char] Hh). now exists [" "%char].
    + cbn [append file_lines_aux]. rewrite El, Hc.
      apply (IH (c :: w) Hh). exists (w' ++ [c]). cbn [rev]. now rewrite Hw.
Qed.

Lemma file_lines_aux_some (a : string) (w : list ascii) :
  file_lines_aux (a ++ newline) w <> [].
Proof.
  revert w. induction a as [| c a IH]; intro w; [discriminate |].
  cbn [append file_lines_aux].
  destruct (Ascii.eqb c "010"); [discriminate |].
  destruct (Ascii.eqb c "013"); [| apply IH].
  destruct (a ++ newline)%string as [| c' s]; [discriminate |].
  destruct (Ascii.eqb c' "010"); discriminate.
Qed.

Lemma header_block (h rest : string) :
  no_carriage_return h = true ->
  exists (first : string) (others : list string),
    file_lines (("# " ++ replace_line_feeds h "# " ++ newline) ++ rest)
    = first :: others ++ file_lines rest
    /\ Forall (fun l => startswith l "#" = true) others.
Proof.
  intro Hh.
  assert (E : ("# " ++ replace_line_feeds h "# " ++ newline)%string
              = (("# " ++ replace_line_feeds h "# ") ++ newline)%string)
    by (now rewrite append_assoc).
  rewrite E, file_lines_app.
  assert (F : Forall (fun l => startswith l "#" = true)
                (file_lines (("# " ++ replace_line_feeds h "# ") ++ newline))).
  { apply (replaced_lines h [" "%char; "#"%char] Hh). now exists [" "%char]. }
  pose proof (file_lines_aux_some ("# " ++ replace_line_feeds h "# ") []) as N.
  fold (file_lines (("# " ++ replace_line_feeds h "# ") ++ newline)) in N.
  destruct (file_lines (("# " ++ replace_line_feeds h "# ") ++ newline))
    as [| first others]; [now contradiction N |].
  exists first, others. split; [reflexivity | now inversion F].
Qed.

Lemma no_carriage_return_app (a b : string) :
  no_carriage_return (a ++ b) = no_carriage_return a && no_carriage_return b.
Proof. unfold no_carriage_return. now rewrite list_ascii_app, forallb_app. Qed.

(** The rows that survive are whole lines, and the parser reads them. *)
Lemma written_rows (a : list (float * float)) :
  Forall (row_survives float_of_string clkcorr_re format_e) a ->
  Forall (fun l => exists body, l = (body ++ newline)%string /\ one_line body = true)
    (map row_of a)
  /\ existsb unparsable2_in (map row_of a) = false
  /\ samples2_in (map row_of a) = a.
Proof.
  induction 1 as [| [m c] a (O1 & O2 & Hc & (rest & Hr) & F1 & F2) _ (I1 & I2 & I3)].
  - repeat split. constructor.
  - cbn [fst snd] in *. cbn [map existsb tempo2_samples].
    unfold tempo2_unparsable, tempo2_sample. rewrite Hc, Hr. cbn [fst snd].
    rewrite F1, F2. cbn [negb andb orb]. split; [| split].
    + constructor; [| exact I1].
      exists (format_e m ++ " " ++ format_e c)%string. split.
      * unfold Np.savetxt_row. cbn [fst snd]. now rewrite !append_assoc.
      * now rewrite !one_line_app, O1, O2.
    + exact I2.
    + now rewrite I3.
Qed.

Lemma comment_lines_tempo2 (ls : list string) :
  Forall (fun l => startswith l "#" = true) ls ->
  existsb unparsable2_in ls = false /\ samples2_in ls = [].
Proof.
  induction 1 as [| l ls Hl _ (I1 & I2)]; [now split |].
  cbn [existsb tempo2_samples]. unfold tempo2_unparsable, tempo2_sample.
  rewrite Hl. cbn [negb andb orb]. now split.
Qed.

Lemma tempo2_samples_app (l l' : list string) :
  samples2_in (l ++ l') = samples2_in l ++ samples2_in l'.
Proof.
  induction l as [| x l IH]; [reflexivity |]. cbn [app tempo2_samples].
  destruct (sample2_in x); cbn [app]; now rewrite IH.
Qed.

Lemma length_header_line (a b : string) :
  Nat.eqb (String.length ((a ++ newline) ++ b)) 0 = false.
Proof. destruct a; reflexivity. Qed.

(** X16.  The text that [write_tempo2_clock_file] writes reads back with
    the TEMPO2 parser, from a file that holds it, provided that the parser
    takes the first line written for a header, that the header line and the
    comments hold no carriage return, and that the samples survive: the two
    numbers of each are written on one line, in which [clkcorr_re] finds
    them, and [float] reads them back.  The header line and the comments are
    written as lines that begin with [#], which the parser skips.  The parser
    then hands to [Time] the MJDs that were written, less the leading MJDs
    that are zero.  If [Time] raises, the constructor raises the same;
    otherwise it returns, logging no warning and no error, the series of the
    MJDs that [Time] holds for them (these MJDs themselves, when the
    conversion leaves them unchanged), with their corrections in seconds. *)
Theorem tempo2_write_read_round_trip
  (self : ClockFile float) (hdrline : string) (comments : option string)
  (text : string) (fs : filesystem) (filename : string) (site : option string) :
  write_tempo2_clock_file format_e repr self hdrline comments = ret text ->
  fs filename = stored text ->
  hdrline_re (hd "" (file_lines text)) = true ->
  no_carriage_return (strip hdrline) = true ->
  match comments with
  | Some c => no_carriage_return c = true
  | None => True
  end ->
  Forall (row_survives float_of_string clkcorr_re format_e)
    (combine (time self) (to_value (clock self) u_s)) ->
  let kept := zap_leading_zeros (time self) (to_value (clock self) u_s) in
  match PulsarMJD.Time_mjd pulsar_mjd (fst kept) with
  | Ok t =>
      exists r : ClockFile float,
        Tempo2ClockFile.__init__ float_of_string hdrline_re clkcorr_re pulsar_mjd
          fs filename (mkKwargs site false) = ([], Ok r)
        /\ time r = t
        /\ (Forall (unchanged pulsar_mjd) (fst kept) -> time r = fst kept)
        /\ clock r = mkQuantity (snd kept) u_s
  | Raise e =>
      Tempo2ClockFile.__init__ float_of_string hdrline_re clkcorr_re pulsar_mjd
        fs filename (mkKwargs site false) = ([], Raise e)
  end.
Proof.
  intros Hw Hfs Hh Hn Hc Hrows kept. subst kept.
  unfold write_tempo2_clock_file in Hw.
  destruct (startswith hdrline "#"); [| discriminate Hw]. cbn [negb] in Hw.
  unfold Np.columns in Hw.
  destruct (List.length (time self) =? List.length (to_value (clock self) u_s))
    eqn:Hlen; [| discriminate Hw].
  apply Nat.eqb_eq in Hlen. unfold lift in Hw. rewrite bind_Ok in Hw.
  cbn [fst snd Py.ret app] in Hw.
  set (a := combine (time self) (to_value (clock self) u_s)) in *.
  set (h := match comments with
            | Some c => ((strip hdrline ++ newline) ++ c)%string
            | None => (strip hdrline ++ newline)%string
            end) in Hw.
  assert (Nh : no_carriage_return h = true).
  { subst h. destruct comments as [c |].
    - now rewrite !no_carriage_return_app, Hn, Hc.
    - now rewrite no_carriage_return_app, Hn. }
  assert (Lh : Nat.eqb (String.length h) 0 = false).
  { subst h. destruct comments as [c |].
    - apply length_header_line.
    - rewrite <- (append_nil_r (strip hdrline ++ newline)). apply length_header_line. }
  injection Hw as Hw. unfold Np.savetxt in Hw. rewrite Lh in Hw.
  destruct (written_rows a Hrows) as (R1 & R2 & R3).
  destruct (header_block h (String.concat "" (map row_of a)) Nh)
    as (first & others & El & Fo).
  rewrite (file_lines_concat _ R1) in El.
  rewrite Hw in El.
  destruct (comment_lines_tempo2 others Fo) as [U1 S1].
  pose proof (tempo2_read_lines float_of_string hdrline_re clkcorr_re (fs filename))
    as L.
  cbv zeta in L. rewrite Hfs in L. unfold stored in L. cbn [lines fails] in L.
  rewrite El in Hh. rewrite El in L. cbn [hd tl negb orb andb] in Hh, L.
  rewrite Hh, existsb_app, U1, R2 in L. cbn [negb orb] in L.
  destruct L as (st & Est & K & M & C).
  rewrite tempo2_samples_app, S1, R3 in M, C. cbn [app] in M, C.
  unfold a in M, C.
  rewrite map_fst_combine in M by (symmetry; exact Hlen).
  rewrite map_snd_combine in C by (symmetry; exact Hlen).
  unfold Tempo2ClockFile.__init__. rewrite Hfs. unfold stored. rewrite El.
  cbn [fails]. rewrite Est, !bind_ret_l.
  cbn [bogus_last_correction andb]. rewrite M, C.
  destruct (zap_leading_zeros (time self) (to_value (clock self) u_s)) as [m' c'].
  cbn [fst snd].
  pose proof (Time_mjd_unchanged pulsar_mjd m') as Tu.
  destruct (PulsarMJD.Time_mjd pulsar_mjd m') as [t | e]; [| reflexivity].
  eexists. split; [reflexivity |]. split; [reflexivity |].
  split; [| reflexivity].
  intro Hu. specialize (Tu Hu). now injection Tu as ->.
Qed.

End Tempo2RoundTrip.

(* ================================================================== *)
(** * The theorems on examples *)
(* ================================================================== *)

Section MoreWitnesses.

Import ClockFile Series MoreExamples.

Lemma evaluate_at_sample_witness :
  evaluate A64 [2%float] "error" = ([], Ok [30%float])
  /\ evaluate A64 [3%float] "warn" = ([], Ok [40%float]).
Proof.
  assert (W : well_formed A64)
    by (apply (well_formed_series (H0:=float_Ordered)); reflexivity).
  split.
  - apply (evaluate_at_sample (H0:=float_Ordered) A64 2 2%float 30%float "error" W);
      try reflexivity.
    intros b [= <-]. reflexivity.
  - apply (evaluate_at_sample (H0:=float_Ordered) A64 3 3%float 40%float "warn" W);
      try reflexivity.
    intros b [=].
Defined.

Lemma evaluate_other_limits_witness :
  (exists msg, evaluate empty64 [0.5%float] "raise" = raise (IndexError msg))
  /\ evaluate A64 [0.5; 5]%float "raise" = ([], Ok [10; 40]%float).
Proof.
  split.
  - exact (evaluate_other_limits empty64 [0.5%float] "raise" eq_refl eq_refl eq_refl).
  - exact (evaluate_other_limits A64 [0.5; 5]%float "raise" eq_refl eq_refl eq_refl).
Defined.

Lemma last_correction_mjd_is_last_witness :
  In 3%float (_time A64)
  /\ (forall x, In x (_time A64) -> le x 3%float)
  /\ (forall (t : list float) (x : float),
        In x t -> lt 3%float x ->
        evaluate A64 t "error" = raise (RuntimeError (out_of_range_msg A64))).
Proof.
  assert (W : well_formed A64)
    by (apply (well_formed_series (H0:=float_Ordered)); reflexivity).
  exact (last_correction_mjd_is_last (H0:=float_Ordered) A64 W).
Defined.


Lemma tempo_samples_in_file_order_witness :
  exists r : ClockFile float,
    Py.value (TempoClockFile.__init__ Decimal.float_of_string plain_days mixed_file
                "time.dat" (mkKwargs (Some "1") false)) = Ok r
    /\ _time r = [51000; 51001.5]%float
    /\ _clock r = mkQuantity [1.5; -0.25]%float u_us.
Proof.
  assert (F : Forall (fun l => startswith l "INCLUDE" = false) mixed_lines)
    by repeat constructor.
  exact (tempo_samples_in_file_order Decimal.float_of_string plain_days mixed_file
           "time.dat" (Some "1") [Examples.hdr1; Examples.hdr2] mixed_lines
           Examples.after_header [] eq_refl eq_refl eq_refl F).
Defined.

Lemma tempo_result_invariants_witness :
  List.length (value (_clock mixed_series)) = List.length (_time mixed_series)
  /\ unit (_clock mixed_series) = u_us
  /\ (forall m, hd_error (_time mixed_series) = Some m -> PrimFloat.eqb m 0 = false)
  /\ exists cs : list (option string),
       comments mixed_series = Some cs
       /\ List.length (_time mixed_series) <= List.length cs.
Proof.
  assert (E : TempoClockFile.__init__ Decimal.float_of_string plain_days mixed_file
                "time.dat" (mkKwargs (Some "1") false) = ([], Ok mixed_series))
    by reflexivity.
  destruct (tempo_result_invariants Decimal.float_of_string plain_days mixed_file
              "time.dat" (mkKwargs (Some "1") false) [] mixed_series E)
    as (H1 & H2 & H3 & H4).
  split; [exact H1 |]. split; [exact H2 |]. split; [| exact H4].
  apply H3. intros x y. cbn.
  destruct (PrimFloat.eqb (PrimFloat.sub x x) 0); [| discriminate].
  intros [= <-] Hx. destruct (PrimFloat.eqb x 0) eqn:Ez; [| reflexivity].
  rewrite (float_zero_is_early x Ez) in Hx. discriminate Hx.
Defined.

Lemma tempo_header_required_witness :
  TempoClockFile.__init__ Decimal.float_of_string plain_days blank_first_file "time.dat"
    (mkKwargs None false)
  = ([], Raise (ValueError TempoClockFile.header_msg)).
Proof.
  apply (tempo_header_required Decimal.float_of_string plain_days blank_first_file
           "time.dat"
           (mkKwargs None false) [] [Examples.hdr1; Examples.hdr2] ""
           TempoClockFile.start []); try reflexivity.
  cbn. lia.
Defined.

Lemma tempo_missing_file_witness :
  ClockFile.read (_formats Decimal.float_of_string header_of_words first_two_words plain_days)
    no_file "time.dat" "tempo" (mkKwargs (Some "1") true)
  = ([Error "TEMPO-style clock correction file time.dat for site 1 not found"],
     Ok (mkClockFile "time.dat" [] (mkQuantity [] u_us) (Some []) None)).
Proof.
  apply (tempo_missing_file Decimal.float_of_string plain_days header_of_words
           first_two_words no_file "time.dat" (mkKwargs (Some "1") true));
    reflexivity.
Defined.

Lemma tempo_obscode_case_insensitive_witness :
  Py.value (TempoClockFile.__init__ Decimal.float_of_string plain_days Examples.legacy_file
              "time.dat" (mkKwargs (Some "A") false))
  = Py.value (TempoClockFile.__init__ Decimal.float_of_string plain_days Examples.legacy_file
                "time.dat" (mkKwargs (Some "a") false)).
Proof.
  apply (tempo_obscode_case_insensitive Decimal.float_of_string plain_days
           Examples.legacy_file "time.dat" "A" "a" false).
  reflexivity.
Defined.

Lemma tempo2_samples_in_file_order_witness :
  exists r : ClockFile float,
    Tempo2ClockFile.__init__ Decimal.float_of_string header_of_words first_two_words
      plain_days tempo2_file "ao2gps.clk" (mkKwargs None true) = ([], Ok r)
    /\ _time r = [51000.5%float]
    /\ _clock r = mkQuantity [0x1.92a737110e454p-20%float] u_s
    /\ comments r = Some [].
Proof.
  exact (tempo2_samples_in_file_order Decimal.float_of_string header_of_words
           first_two_words plain_days tempo2_file "ao2gps.clk" (mkKwargs None true)
           "# UTC(AO) UTC(GPS)"
           ["# corrections in seconds"; "0 0"; "51000.5 0.0000015";
            "51001.5 0.000002"] eq_refl eq_refl eq_refl eq_refl).
Defined.

Lemma tempo2_missing_file_witness :
  ClockFile.read (_formats Decimal.float_of_string header_of_words first_two_words plain_days)
    no_file "ao2gps.clk" "tempo2" (mkKwargs None true)
  = ([Error "TEMPO2-style clock correction file ao2gps.clk not found"],
     Ok (mkClockFile "ao2gps.clk" [] (mkQuantity [] u_s) (Some []) (Some ""))).
Proof.
  apply (tempo2_missing_file Decimal.float_of_string header_of_words first_two_words
           plain_days no_file "ao2gps.clk" (mkKwargs None true)); reflexivity.
Defined.

Lemma tempo2_result_invariants_witness :
  List.length (value (_clock tempo2_series)) = List.length (_time tempo2_series)
  /\ unit (_clock tempo2_series) = u_s
  /\ (forall m, hd_error (_time tempo2_series) = Some m -> PrimFloat.eqb m 0 = false)
  /\ comments tempo2_series = Some [].
Proof.
  assert (E : Tempo2ClockFile.__init__ Decimal.float_of_string header_of_words
                first_two_words plain_days tempo2_file "ao2gps.clk"
                (mkKwargs None false) = ([], Ok tempo2_series))
    by reflexivity.
  destruct (tempo2_result_invariants Decimal.float_of_string header_of_words
              first_two_words plain_days tempo2_file "ao2gps.clk"
              (mkKwargs None false) [] tempo2_series E)
    as (H1 & H2 & H3 & H4).
  split; [exact H1 |]. split; [exact H2 |]. split; [| exact H4].
  apply H3. intros x y. cbn.
  destruct (PrimFloat.eqb (PrimFloat.sub x x) 0); [| discriminate].
  now intros [= <-].
Defined.

Lemma tempo_write_read_round_trip_witness :
  exists (text : string) (r : ClockFile float),
    write_tempo_clock_file Format.format_f Format.strftime_date annotated
      (Str "3") (Some "# written by hand") = ret text
    /\ TempoClockFile.__init__ Decimal.float_of_string plain_days
         (fun _ => stored text) "copy.dat" (mkKwargs (Some "3") false) = ([], Ok r)
    /\ time r = [51000; 51001.5]%float
    /\ clock r = mkQuantity [1.5; -0.25]%float u_us
    /\ comments r = Some [Some "first"; Some ""].
Proof.
  eexists.
  assert (Ha : accepts (Some "3") "3") by (right; exists "3"; split; reflexivity).
  assert (Hs : samples_survive Decimal.float_of_string Format.format_f
                 Format.strftime_date annotated).
  { split; [reflexivity |]. split; [| split].
    - repeat constructor.
    - repeat split.
    - repeat constructor. }
  assert (Hc : comments_fit annotated (Some "# written by hand")).
  { split; [| split].
    - repeat constructor.
    - repeat constructor.
    - split; [cbn; lia | repeat constructor]. }
  destruct (tempo_write_read_round_trip Decimal.float_of_string plain_days
              Format.format_f Format.strftime_date annotated "3"
              (Some "# written by hand") _ (fun _ => stored _) "copy.dat" (Some "3")
              eq_refl eq_refl eq_refl Ha Hs Hc)
    as (r & Er & Et & _ & Ec & _ & Ek).
  exists r. split; [reflexivity |]. split; [exact Er |].
  split; [exact Et |]. split; [exact Ec |].
  apply Ek. repeat constructor.
Defined.

End MoreWitnesses.

Section Tempo2Witness.

Import ClockFile MoreExamples.

Lemma tempo2_write_read_round_trip_witness :
  exists (text : string) (r : ClockFile float),
    write_tempo2_clock_file (Format.format_f 1 9) plain_repr
      tempo2_series "# UTC(AO) UTC(GPS)" (Some "made by hand") = ret text
    /\ Tempo2ClockFile.__init__ Decimal.float_of_string header_of_words
         first_two_words plain_days (fun _ => stored text) "copy.clk"
         (mkKwargs None false)
       = ([], Ok r)
    /\ time r = time tempo2_series
    /\ clock r = clock tempo2_series.
Proof.
  eexists.
  assert (Hr : Forall (row_survives Decimal.float_of_string first_two_words
                         (Format.format_f 1 9))
                 (combine (time tempo2_series) (to_value (clock tempo2_series) u_s)))
    by (repeat constructor; now exists "").
  destruct (tempo2_write_read_round_trip Decimal.float_of_string header_of_words
              first_two_words (Format.format_f 1 9) plain_repr plain_days
              tempo2_series
              "# UTC(AO) UTC(GPS)" (Some "made by hand") _ (fun _ => stored _)
              "copy.clk" None eq_refl eq_refl eq_refl eq_refl eq_refl Hr)
    as (r & Er & Et & _ & Ec).
  exists r. split; [reflexivity |]. split; [exact Er |].
  split; [exact Et | exact Ec].
Defined.

End Tempo2Witness.
